(** * Point-cloud and COLMAP ingestion: a shallow embedding

    The development follows [backend/app/services/point_cloud.py] and
    [backend/app/services/colmap_parser.py].  Python exceptions become an
    error monad, numpy's float32 arrays become lists of IEEE binary32 values
    (the Standard Library's [spec_float] at precision 24), text files are
    lists of lines, and a directory is a finite map from file names to
    files.  The store of [backend/app/services/building_store.py] and the
    route handlers that call the services and the store follow: the store
    is a record of finite maps passed from call to call, the identifiers
    and the clock its methods draw are arguments. *)

From Stdlib Require Import ZArith List Bool Lia QArith Qabs Qminmax.
From Stdlib Require Import Floats.SpecFloat.
From Stdlib Require Import Strings.Ascii Strings.String Strings.Byte.
From stdpp Require Import gmap strings list.

Local Open Scope Z_scope.

(** ** Python exceptions and the error monad *)

(** One constructor per exception the modelled code can raise; the comment
    gives the Python class and message. *)
Inductive pyerr : Type :=
| ValueError_int (tok : string)
    (* ValueError: invalid literal for int() with base 10: <repr tok> *)
| ValueError_float (tok : string)
    (* ValueError: could not convert string to float: <repr tok> *)
| ValueError_load (path : string)
    (* ValueError: Unable to load point cloud from <path> *)
| ValueError_reduce (op : string)
    (* ValueError: zero-size array to reduction operation <op> which has no identity *)
| IndexError_list
    (* IndexError: list index out of range *)
| IndexError_tuple
    (* IndexError: tuple index out of range *)
| IndexError_axis (i size : nat)
    (* IndexError: index <i> is out of bounds for axis 0 with size <size> *)
| IndexError_indices
    (* IndexError: too many indices for array *)
| ValueError_columns
    (* ValueError: the number of columns changed from <a> to <b> at row <r> *)
| FileNotFoundError (path : string)
    (* FileNotFoundError: <path> not found. *)
| StructError
    (* struct.error: argument out of range *).

Inductive result (A : Type) : Type :=
| Ok (a : A)
| Err (e : pyerr).
Arguments Ok {A} a.
Arguments Err {A} e.

#[global] Instance result_ret : MRet result := fun A a => Ok a.
#[global] Instance result_bind : MBind result := fun A B f m =>
  match m with
  | Ok a => f a
  | Err e => Err e
  end.
#[global] Instance result_fmap : FMap result := fun A B f m =>
  match m with
  | Ok a => Ok (f a)
  | Err e => Err e
  end.

(** [try: ... except Exception: return None] *)
Definition except_none {A} (m : result A) : option A :=
  match m with
  | Ok a => Some a
  | Err _ => None
  end.

(** [for x in xs: ... f x ...] collecting results, stopping at the first
    exception. *)
Fixpoint mapM_result {A B} (f : A → result B) (xs : list A) : result (list B) :=
  match xs with
  | [] => Ok []
  | x :: xs' =>
      y ← f x;
      ys ← mapM_result f xs';
      Ok (y :: ys)
  end.

(** ** IEEE binary32 and binary64 values *)

Module F32.
Definition prec : Z := 24.
Definition emax : Z := 128.

(** A float32 is a [spec_float]; the values numpy can hold are the ones
    that satisfy [valid]. *)
Definition t : Type := spec_float.
Definition valid (x : t) : bool := valid_binary prec emax x.

Definition is_nan (x : t) : bool :=
  match x with S754_nan => true | _ => false end.

Definition mul : t → t → t := SFmul prec emax.
Definition div : t → t → t := SFdiv prec emax.
Definition ltb : t → t → bool := SFltb.
Definition leb : t → t → bool := SFleb.

(** Integer and dyadic literals, correctly rounded. *)
Definition of_Z (z : Z) : t := binary_normalize prec emax z 0 false.

Definition zero : t := S754_zero false.
Definition c255 : t := Eval cbv in of_Z 255.
Definition c1_5 : t := Eval cbv in binary_normalize prec emax 3 (-1) false.
Definition one : t := Eval cbv in of_Z 1.

(** [np.float32(x)] for a Python float (binary64) [x]: round to nearest
    even. *)
Definition of_f64 (x : spec_float) : t :=
  match x with
  | S754_finite s m e => binary_round prec emax s m e
  | _ => x
  end.

(** [float(x)] for a numpy float32 [x]: exact. *)
Definition to_f64 (x : t) : spec_float :=
  match x with
  | S754_finite s m e => binary_round 53 1024 s m e
  | _ => x
  end.

(** The 32-bit pattern: sign, 8 exponent bits biased by 127, 23 fraction
    bits.  [spec_float] has one NaN, written as the quiet NaN 0x7fc00000:
    the sign and payload bits an array may hold for a NaN are not kept. *)
Definition sign_bit (s : bool) : Z := if s then 2 ^ 31 else 0.

Definition to_bits (x : t) : Z :=
  match x with
  | S754_zero s => sign_bit s
  | S754_infinity s => sign_bit s + 255 * 2 ^ 23
  | S754_nan => 255 * 2 ^ 23 + 2 ^ 22
  | S754_finite s m e =>
      if 2 ^ 23 <=? Z.pos m
      then sign_bit s + (e + 150) * 2 ^ 23 + (Z.pos m - 2 ^ 23)
      else sign_bit s + Z.pos m
  end.

Definition of_bits (b : Z) : t :=
  let s := Z.testbit b 31 in
  let ex := (b / 2 ^ 23) mod 256 in
  let frac := b mod 2 ^ 23 in
  if ex =? 0 then
    match frac with
    | Z.pos m => S754_finite s m (-149)
    | _ => S754_zero s
    end
  else if ex =? 255 then
    (if frac =? 0 then S754_infinity s else S754_nan)
  else
    match frac + 2 ^ 23 with
    | Z.pos m => S754_finite s m (ex - 150)
    | _ => S754_nan
    end.

(** The rational a finite float denotes. *)
Definition to_Q (x : t) : Q :=
  match x with
  | S754_finite s m e =>
      let n := if s then Z.neg m else Z.pos m in
      match e with
      | Z0 => inject_Z n
      | Z.pos p => inject_Z (n * 2 ^ Z.pos p)
      | Z.neg p => Qmake n (2 ^ p)%positive
      end
  | _ => 0%Q
  end.

(** C's float-to-integer conversion: the value with its fraction dropped. *)
Definition trunc (x : t) : Z :=
  match x with
  | S754_finite s m e =>
      let a := Z.shiftl (Z.pos m) e in
      if s then - a else a
  | _ => 0
  end.
End F32.

(** ** Python text primitives

    Text is ASCII: a [string] is the sequence of its characters.  The
    functions below are [str.strip], [str.split], [int] and [float]
    restricted to that alphabet: the whitespace and the decimal digits
    Unicode adds (U+0085, U+00A0, ...) are outside of it, and so is the
    limit CPython can be configured to put on the number of digits of an
    integer literal. *)

Module Py.
(** [str.isspace] on one ASCII character: TAB, LF, VT, FF, CR, the four
    separators FS GS RS US, and the space.  [str.strip()], [str.split()]
    and the regex class [\s] all use it. *)
Definition isspace (c : ascii) : bool :=
  let n := Z.of_N (N_of_ascii c) in
  ((9 <=? n) && (n <=? 13)) || ((28 <=? n) && (n <=? 32)).

Definition chars (s : string) : list ascii := list_ascii_of_string s.
Definition str (cs : list ascii) : string := string_of_list_ascii cs.

Fixpoint lstrip_chars (cs : list ascii) : list ascii :=
  match cs with
  | c :: cs' => if isspace c then lstrip_chars cs' else cs
  | [] => []
  end.

(** [s.strip()] *)
Definition strip (s : string) : string :=
  str (rev (lstrip_chars (rev (lstrip_chars (chars s))))).

(** [s.split()]: maximal runs of non-space characters, in order.  [cur]
    holds the characters of the run being read, last one first. *)
Fixpoint split_go (cs : list ascii) (cur : list ascii) : list string :=
  match cs with
  | [] => match cur with [] => [] | _ => [str (rev cur)] end
  | c :: cs' =>
      if isspace c then
        match cur with
        | [] => split_go cs' []
        | _ => str (rev cur) :: split_go cs' []
        end
      else split_go cs' (c :: cur)
  end.

Definition split (s : string) : list string := split_go (chars s) [].

(** [bool(s)] for a string *)
Definition truthy (s : string) : bool :=
  match s with EmptyString => false | _ => true end.

Definition isdigit (c : ascii) : bool :=
  let n := Z.of_N (N_of_ascii c) in (48 <=? n) && (n <=? 57).
Definition digit_val (c : ascii) : Z := Z.of_N (N_of_ascii c) - 48.

(** [digit (["_"] digit)*]: reads the longest such prefix and returns its
    value, the number of digits and the unread rest.  An underscore is
    taken only between two digits, and only when [us] allows it. *)
Fixpoint digitpart (us : bool) (cs : list ascii) (v : Z) (n : nat)
  : Z * nat * list ascii :=
  match cs with
  | [] => (v, n, [])
  | c :: cs' =>
      if isdigit c then digitpart us cs' (10 * v + digit_val c) (S n)
      else if us && bool_decide (c = "_"%char) && negb (Nat.eqb n 0) then
        match cs' with
        | c2 :: _ => if isdigit c2 then digitpart us cs' v n else (v, n, cs)
        | [] => (v, n, cs)
        end
      else (v, n, cs)
  end.

(** An optional sign; [true] is minus. *)
Definition sign (cs : list ascii) : bool * list ascii :=
  match cs with
  | c :: cs' =>
      if bool_decide (c = "-"%char) then (true, cs')
      else if bool_decide (c = "+"%char) then (false, cs')
      else (false, cs)
  | [] => (false, [])
  end.

(** [int(s)] in base 10: surrounding whitespace, an optional sign, digits
    with single underscores between them. *)
Definition int_opt (s : string) : option Z :=
  let '(neg, cs) := sign (chars (strip s)) in
  match digitpart true cs 0 0 with
  | (v, S _, []) => Some (if neg then - v else v)
  | _ => None
  end.

Definition int (s : string) : result Z :=
  match int_opt s with
  | Some v => Ok v
  | None => Err (ValueError_int s)
  end.

Definition lower (c : ascii) : ascii :=
  let n := N_of_ascii c in
  if ((65 <=? n) && (n <=? 90))%N then ascii_of_N (n + 32) else c.

(** The decimal literal [m * 10^e10], rounded once to binary64. *)
Definition decimal_f64 (neg : bool) (m : Z) (e10 : Z) : spec_float :=
  match m with
  | Z.pos p =>
      match e10 with
      | Z.neg k =>
          SFdiv 53 1024 (S754_finite neg p 0)
                        (S754_finite false (10 ^ k)%positive 0)
      | _ => binary_normalize 53 1024 ((if neg then - m else m) * 10 ^ e10) 0 false
      end
  | _ => S754_zero neg
  end.

(** [[("e" | "E") [sign] digitpart]] *)
Definition exponent (us : bool) (cs : list ascii) : option (Z * list ascii) :=
  match cs with
  | c :: cs' =>
      if bool_decide (lower c = "e"%char) then
        let '(neg, cs2) := sign cs' in
        match digitpart us cs2 0 0 with
        | (v, S _, rest) => Some (if neg then - v else v, rest)
        | _ => None
        end
      else Some (0, cs)
  | [] => Some (0, [])
  end.

(** [float(s)] when [us] is [true]; with [us = false], the same grammar
    without underscores, which is what numpy's text reader accepts.
    Grammar: [[sign] ("inf" | "infinity" | "nan" | number [exponent])],
    [number ::= [digitpart] "." digitpart | digitpart ["."]]. *)
Definition float_opt (us : bool) (s : string) : option spec_float :=
  let '(neg, cs) := sign (chars (strip s)) in
  let word := str (map lower cs) in
  if bool_decide (word = "inf") || bool_decide (word = "infinity")
  then Some (S754_infinity neg)
  else if bool_decide (word = "nan") then Some S754_nan
  else
    let '(ip, ni, cs1) := digitpart us cs 0 0 in
    let '(fp, nf, cs2) :=
      match cs1 with
      | c :: cs1' =>
          if bool_decide (c = "."%char) then digitpart us cs1' 0 0
          else (0, O, cs1)
      | [] => (0, O, [])
      end in
    if Nat.eqb (ni + nf) 0 then None
    else
      match exponent us cs2 with
      | Some (e10, []) =>
          Some (decimal_f64 neg (ip * 10 ^ Z.of_nat nf + fp) (e10 - Z.of_nat nf))
      | _ => None
      end.

Definition float (s : string) : result spec_float :=
  match float_opt true s with
  | Some v => Ok v
  | None => Err (ValueError_float s)
  end.

(** [xs[i]] on a list *)
Definition index {A} (xs : list A) (i : nat) : result A :=
  match xs !! i with
  | Some x => Ok x
  | None => Err IndexError_list
  end.
End Py.

(** ** Bytes *)

Definition byte_of_Z (z : Z) : byte :=
  default "000"%byte (Byte.of_N (Z.to_N (z mod 256))).
Definition Z_of_byte (b : byte) : Z := Z.of_N (Byte.to_N b).

(** [w] little-endian bytes of [z], least significant first. *)
Fixpoint le_bytes (w : nat) (z : Z) : list byte :=
  match w with
  | O => []
  | S w' => byte_of_Z z :: le_bytes w' (z / 256)
  end.

(** The unsigned integer a little-endian byte sequence denotes. *)
Fixpoint le_value (bs : list byte) : Z :=
  match bs with
  | [] => 0
  | b :: bs' => Z_of_byte b + 256 * le_value bs'
  end.

(** ** numpy arrays of float32 *)

Module Np.
(** Arrays of dimension 0, 1 and 2.  A 2-D array keeps its number of
    columns, so that an array without rows still has a shape. *)
Inductive ndarray : Type :=
| A0 (x : F32.t)
| A1 (xs : list F32.t)
| A2 (ncols : nat) (rows : list (list F32.t)).

Definition ndim (a : ndarray) : nat :=
  match a with A0 _ => 0 | A1 _ => 1 | A2 _ _ => 2 end.

Definition shape (a : ndarray) : list nat :=
  match a with
  | A0 _ => []
  | A1 xs => [length xs]
  | A2 c rows => [length rows; c]
  end.

(** Every row of a 2-D array has [ncols] entries. *)
Definition rectangular (c : nat) (rows : list (list F32.t)) : Prop :=
  Forall (λ r, length r = c) rows.

(** [a.shape[i]] *)
Definition shape_at (a : ndarray) (i : nat) : result nat :=
  match shape a !! i with
  | Some n => Ok n
  | None => Err IndexError_tuple
  end.

(** *** [np.loadtxt(path, dtype=np.float32)] *)

(** The part of a line before its first [#]. *)
Fixpoint before_comment (cs : list ascii) : list ascii :=
  match cs with
  | [] => []
  | c :: cs' =>
      if bool_decide (c = "#"%char) then [] else c :: before_comment cs'
  end.

(** A field is read as a double and then narrowed to float32. *)
Definition field (tok : string) : result F32.t :=
  match Py.float_opt false tok with
  | Some v => Ok (F32.of_f64 v)
  | None => Err (ValueError_float tok)
  end.

Definition fields (line : string) : list string :=
  Py.split (Py.str (before_comment (Py.chars line))).

(** Lines without a field are skipped; every other line gives a row, and
    all rows must have as many fields as the first. *)
Fixpoint read_rows (lines : list string) (ncols : option nat)
  : result (list (list F32.t)) :=
  match lines with
  | [] => Ok []
  | l :: lines' =>
      match fields l with
      | [] => read_rows lines' ncols
      | toks =>
          row ← mapM_result field toks;
          (if bool_decide (default (length row) ncols = length row)
           then rows ← read_rows lines' (Some (length row)); Ok (row :: rows)
           else Err ValueError_columns)
      end
  end.

(** [np.squeeze] of the N x C table read, as [loadtxt] does with its
    default [ndmin=0]: axes of length one are dropped.  No row at all
    gives the empty 1-D array (and a warning, which is not an error). *)
Definition squeeze_rows (rows : list (list F32.t)) : ndarray :=
  match rows with
  | [] => A1 []
  | [[x]] => A0 x
  | [row] => A1 row
  | r :: _ =>
      if Nat.eqb (length r) 1 then A1 (concat rows) else A2 (length r) rows
  end.

Definition loadtxt (file : option (list string)) (path : string) : result ndarray :=
  match file with
  | None => Err (FileNotFoundError path)
  | Some lines => rows ← read_rows lines None; Ok (squeeze_rows rows)
  end.

(** [a.reshape(1, -1)] of a 1-D array *)
Definition reshape_1_row (xs : list F32.t) : ndarray := A2 (length xs) [xs].

(** *** Slices, element-wise operations, reductions *)

(** [rows[:, lo:hi]] as a table *)
Definition cols (lo hi : nat) (rows : list (list F32.t)) : list (list F32.t) :=
  map (λ r, take (hi - lo) (drop lo r)) rows.

(** [a[:, lo:hi]] for a 2-D array of [c] columns *)
Definition slice (lo hi : nat) (c : nat) (rows : list (list F32.t)) : ndarray :=
  A2 (Nat.min hi c - lo) (cols lo hi rows).

(** [np.maximum] and [np.minimum] on two float32 values, the first being
    the value reduced so far: a NaN operand gives NaN, and on a tie (equal
    values, +0.0 against -0.0) the second operand is kept, as the
    reductions over an axis return it. *)
Definition maximum (a b : F32.t) : F32.t :=
  if F32.ltb b a || F32.is_nan a then a else b.
Definition minimum (a b : F32.t) : F32.t :=
  if F32.ltb a b || F32.is_nan a then a else b.

(** A reduction over a sequence of values; numpy refuses the empty one. *)
Definition reduce (op : string) (f : F32.t → F32.t → F32.t) (xs : list F32.t)
  : result F32.t :=
  match xs with
  | [] => Err (ValueError_reduce op)
  | x :: xs' => Ok (fold_left f xs' x)
  end.

(** [a.max()] over all entries, in row-major order *)
Definition max_all (rows : list (list F32.t)) : result F32.t :=
  reduce "maximum" maximum (concat rows).

(** Column [j] of a table. *)
Definition column (j : nat) (rows : list (list F32.t)) : list F32.t :=
  omap (λ r : list F32.t, r !! j) rows.

(** [a.min(axis=0)], [a.max(axis=0)] of a 2-D array with [c] columns: one
    reduction per column, refused when there is no row. *)
Definition reduce_axis0 (op : string) (f : F32.t → F32.t → F32.t)
    (c : nat) (rows : list (list F32.t)) : result (list F32.t) :=
  match rows with
  | [] => Err (ValueError_reduce op)
  | _ => mapM_result (λ j, reduce op f (column j rows)) (seq 0 c)
  end.

(** [v[i]] on a 1-D array *)
Definition item (v : list F32.t) (i : nat) : result F32.t :=
  match v !! i with
  | Some x => Ok x
  | None => Err (IndexError_axis i (length v))
  end.

(** [x.clip(lo, hi)] on one value: NaN stays NaN. *)
Definition clip (lo hi x : F32.t) : F32.t :=
  let t := if F32.is_nan x then x else if F32.ltb lo x then x else lo in
  if F32.is_nan t then t else if F32.ltb t hi then t else hi.

(** [x.astype(np.uint8)] on one value: C's conversion, which drops the
    fraction.  Outside the range of the target the C result is not
    defined; the model wraps finite values and sends NaN and the
    infinities to 0. *)
Definition to_uint8 (x : F32.t) : byte := byte_of_Z (F32.trunc x).

(** [a.tobytes()] for float32 entries: four little-endian bytes each *)
Definition f32_bytes (x : F32.t) : list byte := le_bytes 4 (F32.to_bits x).
Definition tobytes_f32 (rows : list (list F32.t)) : list byte :=
  concat (map f32_bytes (concat rows)).
End Np.

(** [struct.pack("<IB", n, b)] *)
Definition pack_IB (n : Z) (b : Z) : result (list byte) :=
  if (0 <=? n) && (n <? 2 ^ 32) && (0 <=? b) && (b <? 256)
  then Ok (le_bytes 4 n ++ le_bytes 1 b)
  else Err StructError.

(** [pathlib.Path(path).suffix]: the last dot of the final component and
    what follows, unless that dot is the first or the last character.
    Paths are taken without a trailing separator. *)
Fixpoint split_at_char (x : ascii) (cs : list ascii) : option (list ascii * list ascii) :=
  match cs with
  | [] => None
  | c :: cs' =>
      if bool_decide (c = x) then Some ([], cs')
      else '(a, b) ← split_at_char x cs'; Some (c :: a, b)
  end.

Definition path_name (path : string) : list ascii :=
  let r := rev (Py.chars path) in
  match split_at_char "/"%char r with
  | Some (name_rev, _) => rev name_rev
  | None => Py.chars path
  end.

Definition path_suffix (path : string) : string :=
  match split_at_char "."%char (rev (path_name path)) with
  | Some (ext_rev, stem_rev) =>
      match ext_rev, stem_rev with
      | _ :: _, _ :: _ => Py.str ("."%char :: rev ext_rev)
      | _, _ => EmptyString
      end
  | None => EmptyString
  end.

Definition str_lower (s : string) : string := Py.str (map Py.lower (Py.chars s)).

(** ** models/schemas.py: the records the two services build *)

Record Vec3 : Type := { vx : spec_float; vy : spec_float; vz : spec_float }.

Record Quaternion : Type :=
  { qw : spec_float; qx : spec_float; qy : spec_float; qz : spec_float }.

Record ColmapCamera : Type :=
  { cam_id : Z; cam_model : string; cam_width : Z; cam_height : Z;
    cam_params : list spec_float }.

Record ColmapImage : Type :=
  { img_id : Z; img_camera_id : Z; img_name : string;
    img_rotation : Quaternion; img_translation : Vec3;
    img_room_id : option string }.

Record PointCloudInfo : Type :=
  { pci_file : string; pci_num_points : Z;
    pci_bounds_min : Vec3; pci_bounds_max : Vec3;
    pci_has_colors : bool; pci_has_normals : bool }.

(** ** services/point_cloud.py *)

Module PointCloud.
Import Np.

(** What [o3d.io.read_point_cloud] returns: points and colours, as
    doubles. *)
Record o3d_cloud : Type :=
  { o3d_points : list (spec_float * spec_float * spec_float);
    o3d_colors : list (spec_float * spec_float * spec_float) }.

(** A file on disk, as the two readers see it: its lines of text, and the
    cloud Open3D reads from it ([None] when Open3D is not installed or
    raises). *)
Record file : Type :=
  { file_text : list string; file_o3d : option o3d_cloud }.

Abbreviation filesystem := (gmap string file).

(** [np.asarray(v, dtype=np.float32)] of an N x 3 vector of doubles *)
Definition asarray_f32 (v : list (spec_float * spec_float * spec_float))
  : list (list F32.t) :=
  map (λ '(a, b, c), [F32.of_f64 a; F32.of_f64 b; F32.of_f64 c]) v.

Definition _try_open3d (fs : filesystem) (path : string) : option ndarray :=
  f ← fs !! path;
  pcd ← file_o3d f;
  let pts := asarray_f32 (o3d_points pcd) in
  if Nat.eqb (length pts) 0 then None
  else
    let colors := asarray_f32 (o3d_colors pcd) in
    if Nat.eqb (length colors) (length pts)
    then Some (A2 6 (zip_with app pts colors))
    else Some (A2 3 pts).

Definition _load_xyz (fs : filesystem) (path : string) : option ndarray :=
  except_none
    (data ← loadtxt (file_text <$> fs !! path) path;
     match data with
     | A1 xs => Ok (reshape_1_row xs)
     | _ => Ok data
     end).

(** [data[:, 3:6] /= 255.0] *)
Definition div255_colors (rows : list (list F32.t)) : list (list F32.t) :=
  map (λ r, take 3 r ++ map (λ v, F32.div v F32.c255) (take 3 (drop 3 r))
              ++ drop 6 r) rows.

(** Lines 56-60: Open3D first for the two rich suffixes, then the text
    reader. *)
Definition read_data (fs : filesystem) (path : string) : option ndarray :=
  let suffix := str_lower (path_suffix path) in
  let data :=
    if bool_decide (suffix ∈ [".ply"; ".pcd"]) then _try_open3d fs path
    else None in
  match data with
  | None => _load_xyz fs path
  | Some _ => data
  end.

(** Lines 64-70: the colour decision and the slices returned. *)
Definition normalize (data : ndarray) : result (ndarray * bool) :=
  match data with
  | A2 c rows =>
      let has_colors := bool_decide (6 ≤ c)%nat in
      if has_colors then
        m ← max_all (cols 3 6 rows);
        let rows := if F32.ltb F32.c1_5 m then div255_colors rows else rows in
        Ok (slice 0 6 c rows, true)
      else Ok (slice 0 3 c rows, false)
  | _ => Err IndexError_tuple   (* data.shape[1] *)
  end.

(** [path] is the path as [Path(path)] writes it: the message of the
    [ValueError] prints that form. *)
Definition load_point_cloud (fs : filesystem) (path : string)
  : result (ndarray * bool) :=
  match read_data fs path with
  | None => Err (ValueError_load path)
  | Some data => normalize data
  end.

(** The body of [point_cloud_info] after the load, lines 76-85. *)
Definition info_of (path : string) (arr : ndarray) (has_colors : bool)
  : result PointCloudInfo :=
  match arr with
  | A2 c rows =>
      let xyz := cols 0 3 rows in
      let k := Nat.min 3 c in   (* columns of arr[:, :3] *)
      mins ← reduce_axis0 "minimum" minimum k xyz;
      maxs ← reduce_axis0 "maximum" maximum k xyz;
      x0 ← item mins 0; y0 ← item mins 1; z0 ← item mins 2;
      x1 ← item maxs 0; y1 ← item maxs 1; z1 ← item maxs 2;
      Ok {| pci_file := path;
            pci_num_points := Z.of_nat (length rows);
            pci_bounds_min :=
              {| vx := F32.to_f64 x0; vy := F32.to_f64 y0; vz := F32.to_f64 z0 |};
            pci_bounds_max :=
              {| vx := F32.to_f64 x1; vy := F32.to_f64 y1; vz := F32.to_f64 z1 |};
            pci_has_colors := has_colors;
            pci_has_normals := false |}
  | _ => Err IndexError_indices
  end.

Definition point_cloud_info (fs : filesystem) (path : string)
  : result PointCloudInfo :=
  '(arr, has_colors) ← load_point_cloud fs path;
  info_of path arr has_colors.

(** [(x * 255).clip(0, 255).astype(np.uint8)] on one colour channel *)
Definition color_byte (x : F32.t) : byte :=
  to_uint8 (clip F32.zero F32.c255 (F32.mul x F32.c255)).

(** The body of [to_binary_buffer] after the load, lines 98-105. *)
Definition buffer_of (arr : ndarray) (has_colors : bool) : result (list byte) :=
  match arr with
  | A2 c rows =>
      let n := length rows in
      buf ← pack_IB (Z.of_nat n) (if has_colors then 1 else 0);
      let buf := buf ++ tobytes_f32 (cols 0 3 rows) in
      if has_colors then
        let colors := map (map color_byte) (cols 3 6 rows) in
        Ok (buf ++ concat colors)
      else Ok buf
  | A1 xs =>
      _ ← pack_IB (Z.of_nat (length xs)) (if has_colors then 1 else 0);
      Err IndexError_indices
  | A0 _ => Err IndexError_tuple
  end.

Definition to_binary_buffer (fs : filesystem) (path : string)
  : result (list byte) :=
  '(arr, has_colors) ← load_point_cloud fs path;
  buffer_of arr has_colors.

(** A text file without an Open3D view. *)
Definition text_file (lines : list string) : file :=
  {| file_text := lines; file_o3d := None |}.
End PointCloud.

Import PointCloud.

(** ** services/colmap_parser.py *)

Module Colmap.
(** A file is the list of its lines, as [for line in f] yields them once
    the file is opened and decoded: the [OSError] of [open] and the
    [UnicodeDecodeError] of a file that is not text are not modelled, the
    parsers start from the lines. *)

(** [_COMMENT = re.compile(r"^\s*#")] and [_COMMENT.match(line)] *)
Definition _COMMENT_match (line : string) : bool :=
  match Py.lstrip_chars (Py.chars line) with
  | c :: _ => bool_decide (c = "#"%char)
  | [] => false
  end.

(** [not _COMMENT.match(l) and l.strip()] *)
Definition qualifying (line : string) : bool :=
  negb (_COMMENT_match line) && Py.truthy (Py.strip line).

Definition parts_of (line : string) : list string := Py.split (Py.strip line).

(** The [ColmapCamera(...)] expression of [parse_cameras_txt]; keyword
    arguments are evaluated left to right. *)
Definition camera_of_parts (parts : list string) : result ColmapCamera :=
  p0 ← Py.index parts 0; id ← Py.int p0;
  model ← Py.index parts 1;
  p2 ← Py.index parts 2; width ← Py.int p2;
  p3 ← Py.index parts 3; height ← Py.int p3;
  params ← mapM_result Py.float (drop 4 parts);
  Ok {| cam_id := id; cam_model := model; cam_width := width;
        cam_height := height; cam_params := params |}.

(** The [for line in f] loop; [cameras] is the list built so far. *)
Fixpoint cameras_loop (lines : list string) (cameras : list ColmapCamera)
  : result (list ColmapCamera) :=
  match lines with
  | [] => Ok cameras
  | line :: rest =>
      if _COMMENT_match line || negb (Py.truthy (Py.strip line))
      then cameras_loop rest cameras
      else
        cam ← camera_of_parts (parts_of line);
        cameras_loop rest (cameras ++ [cam])
  end.

Definition parse_cameras_txt (f : list string) : result (list ColmapCamera) :=
  cameras_loop f [].

(** The [ColmapImage(...)] expression of [parse_images_txt]. *)
Definition image_of_parts (parts : list string) : result ColmapImage :=
  p0 ← Py.index parts 0; id ← Py.int p0;
  p1 ← Py.index parts 1; w ← Py.float p1;
  p2 ← Py.index parts 2; x ← Py.float p2;
  p3 ← Py.index parts 3; y ← Py.float p3;
  p4 ← Py.index parts 4; z ← Py.float p4;
  p5 ← Py.index parts 5; tx ← Py.float p5;
  p6 ← Py.index parts 6; ty ← Py.float p6;
  p7 ← Py.index parts 7; tz ← Py.float p7;
  p8 ← Py.index parts 8; camera_id ← Py.int p8;
  name ← Py.index parts 9;
  Ok {| img_id := id; img_camera_id := camera_id; img_name := name;
        img_rotation := {| qw := w; qx := x; qy := y; qz := z |};
        img_translation := {| vx := tx; vy := ty; vz := tz |};
        img_room_id := None |}.

(** The [while i < len(lines)] loop.  [rest] is [lines[i:]]: [i += 1]
    drops one line, [i += 2] drops two; [images] is the list built so
    far. *)
Fixpoint images_loop (rest : list string) (images : list ColmapImage)
  : result (list ColmapImage) :=
  match rest with
  | [] => Ok images
  | line :: rest1 =>
      let parts := parts_of line in
      if bool_decide (length parts < 10)%nat
      then images_loop rest1 images
      else
        img ← image_of_parts parts;
        match rest1 with
        | [] => Ok (images ++ [img])
        | _ :: rest2 => images_loop rest2 (images ++ [img])
        end
  end.

Definition parse_images_txt (f : list string) : result (list ColmapImage) :=
  let lines := filter (λ l, qualifying l = true) f in
  images_loop lines [].

(** The dictionary [parse_points3d_txt] builds for one line; its keys are
    fixed. *)
Record point3d : Type :=
  { pt_id : Z; pt_x : spec_float; pt_y : spec_float; pt_z : spec_float;
    pt_r : Z; pt_g : Z; pt_b : Z; pt_error : spec_float }.

Definition point_of_parts (parts : list string) : result point3d :=
  p0 ← Py.index parts 0; id ← Py.int p0;
  p1 ← Py.index parts 1; x ← Py.float p1;
  p2 ← Py.index parts 2; y ← Py.float p2;
  p3 ← Py.index parts 3; z ← Py.float p3;
  p4 ← Py.index parts 4; r ← Py.int p4;
  p5 ← Py.index parts 5; g ← Py.int p5;
  p6 ← Py.index parts 6; b ← Py.int p6;
  p7 ← Py.index parts 7; error ← Py.float p7;
  Ok {| pt_id := id; pt_x := x; pt_y := y; pt_z := z;
        pt_r := r; pt_g := g; pt_b := b; pt_error := error |}.

Fixpoint points_loop (lines : list string) (points : list point3d)
  : result (list point3d) :=
  match lines with
  | [] => Ok points
  | line :: rest =>
      if _COMMENT_match line || negb (Py.truthy (Py.strip line))
      then points_loop rest points
      else
        pt ← point_of_parts (parts_of line);
        points_loop rest (points ++ [pt])
  end.

Definition parse_points3d_txt (f : list string) : result (list point3d) :=
  points_loop f [].

(** A value of the dictionary [load_colmap_workspace] returns. *)
Inductive entry : Type :=
| Cameras (cs : list ColmapCamera)
| Images (ims : list ColmapImage)
| Points (ps : list point3d).

(** A workspace directory maps the names of the files in it to their
    lines. *)
Abbreviation workspace := (gmap string (list string)).

Definition load_colmap_workspace (ws : workspace) : result (gmap string entry) :=
  let result : gmap string entry := ∅ in
  result ←
    match ws !! "cameras.txt" with
    | Some f => cs ← parse_cameras_txt f; Ok (<["cameras" := Cameras cs]> result)
    | None => Ok result
    end;
  result ←
    match ws !! "images.txt" with
    | Some f => ims ← parse_images_txt f; Ok (<["images" := Images ims]> result)
    | None => Ok result
    end;
  result ←
    match ws !! "points3D.txt" with
    | Some f => ps ← parse_points3d_txt f; Ok (<["points" := Points ps]> result)
    | None => Ok result
    end;
  Ok result.
End Colmap.

Import Colmap.


(** ** models/schemas.py: the building hierarchy, sensors and objects

    The free-form [dict] fields ([config], [metadata]) map strings to
    values the store never inspects: their type [json] is a parameter. *)

Record Transform : Type :=
  { tf_position : Vec3; tf_rotation : Quaternion; tf_scale : Vec3 }.

(** The defaults of the models: [Vec3()], [Quaternion()] and
    [Vec3(x=1, y=1, z=1)], with 1.0 as a double. *)
Definition f64_one : spec_float := S754_finite false 4503599627370496 (-52).
Definition Vec3_default : Vec3 :=
  {| vx := S754_zero false; vy := S754_zero false; vz := S754_zero false |}.
Definition Quaternion_default : Quaternion :=
  {| qw := f64_one; qx := S754_zero false; qy := S754_zero false;
     qz := S754_zero false |}.
Definition Vec3_ones : Vec3 := {| vx := f64_one; vy := f64_one; vz := f64_one |}.

Record Building : Type :=
  { bld_id : string; bld_name : string; bld_description : string;
    bld_floors : list string; bld_point_cloud_file : option string;
    bld_transform : Transform }.

Record Floor : Type :=
  { floor_id : string; floor_building_id : string; floor_name : string;
    floor_level : Z; floor_rooms : list string;
    floor_point_cloud_file : option string; floor_height_offset : spec_float }.

Record Room : Type :=
  { room_id : string; room_floor_id : string; room_name : string;
    room_type : string; room_point_cloud_file : option string;
    room_bounds_min : Vec3; room_bounds_max : Vec3;
    room_sensors : list string; room_placed_objects : list string;
    room_images : list string }.

Inductive SensorType : Type :=
| LIGHT | TEMPERATURE | HUMIDITY | MOTION | SMOKE | CAMERA | DOOR | HVAC
| POWER | CUSTOM.

Record SensorReading (json : Type) : Type :=
  { rd_sensor_id : string; rd_timestamp : spec_float; rd_value : spec_float;
    rd_unit : string; rd_metadata : gmap string json }.
Arguments rd_sensor_id {json} _.
Arguments rd_timestamp {json} _.
Arguments rd_value {json} _.
Arguments rd_unit {json} _.
Arguments rd_metadata {json} _.

Record Sensor (json : Type) : Type :=
  { sen_id : string; sen_room_id : string; sen_name : string;
    sen_sensor_type : SensorType; sen_transform : Transform;
    sen_status : string; sen_last_reading : option (SensorReading json);
    sen_config : gmap string json }.
Arguments sen_id {json} _.
Arguments sen_room_id {json} _.
Arguments sen_name {json} _.
Arguments sen_sensor_type {json} _.
Arguments sen_transform {json} _.
Arguments sen_status {json} _.
Arguments sen_last_reading {json} _.
Arguments sen_config {json} _.

Record PlacedObject (json : Type) : Type :=
  { obj_id : string; obj_room_id : string; obj_name : string;
    obj_object_type : string; obj_model_url : option string;
    obj_transform : Transform; obj_metadata : gmap string json }.
Arguments obj_id {json} _.
Arguments obj_room_id {json} _.
Arguments obj_name {json} _.
Arguments obj_object_type {json} _.
Arguments obj_model_url {json} _.
Arguments obj_transform {json} _.
Arguments obj_metadata {json} _.

(** ** services/building_store.py *)

Module Store.

(** The exceptions the store raises. *)
Inductive KeyError : Type :=
| KeyError_room (room_id : string)      (* KeyError: Room <room_id> not found *)
| KeyError_sensor (sensor_id : string)  (* KeyError: Sensor <sensor_id> not found *).

(** What [save] writes to [store.json]: the five tables it dumps. *)
Record persisted (json : Type) : Type :=
  { p_buildings : gmap string Building;
    p_floors : gmap string Floor;
    p_rooms : gmap string Room;
    p_sensors : gmap string (Sensor json);
    p_placed_objects : gmap string (PlacedObject json) }.
Arguments p_buildings {json} _.
Arguments p_floors {json} _.
Arguments p_rooms {json} _.
Arguments p_sensors {json} _.
Arguments p_placed_objects {json} _.

(** The fields of a [BuildingStore], and the file it persists to
    ([None] while the file does not exist).  A dictionary is a finite
    map: the order of its keys is not kept. *)
Record BuildingStore (json : Type) : Type :=
  { buildings : gmap string Building;
    floors : gmap string Floor;
    rooms : gmap string Room;
    sensors : gmap string (Sensor json);
    placed_objects : gmap string (PlacedObject json);
    colmap_cameras : gmap Z ColmapCamera;
    colmap_images : gmap Z ColmapImage;
    sensor_history : gmap string (list (SensorReading json));
    persist_file : option (persisted json) }.
Arguments buildings {json} _.
Arguments floors {json} _.
Arguments rooms {json} _.
Arguments sensors {json} _.
Arguments placed_objects {json} _.
Arguments colmap_cameras {json} _.
Arguments colmap_images {json} _.
Arguments sensor_history {json} _.
Arguments persist_file {json} _.

Section Methods.
Context {json : Type}.

(** [{key(v): v for v in l}]: a later entry replaces an earlier one with
    the same key. *)
Definition dict_of {K V} `{Countable K} (key : V → K) (l : list V) : gmap K V :=
  foldl (λ m v, <[key v := v]> m) ∅ l.

Definition save (st : BuildingStore json) : BuildingStore json :=
  {| buildings := buildings st; floors := floors st; rooms := rooms st;
     sensors := sensors st; placed_objects := placed_objects st;
     colmap_cameras := colmap_cameras st; colmap_images := colmap_images st;
     sensor_history := sensor_history st;
     persist_file :=
       Some {| p_buildings := buildings st; p_floors := floors st;
               p_rooms := rooms st; p_sensors := sensors st;
               p_placed_objects := placed_objects st |} |}.

Definition with_rooms (st : BuildingStore json) (rs : gmap string Room)
  : BuildingStore json :=
  {| buildings := buildings st; floors := floors st; rooms := rs;
     sensors := sensors st; placed_objects := placed_objects st;
     colmap_cameras := colmap_cameras st; colmap_images := colmap_images st;
     sensor_history := sensor_history st; persist_file := persist_file st |}.

Definition with_sensors (st : BuildingStore json) (ss : gmap string (Sensor json))
  : BuildingStore json :=
  {| buildings := buildings st; floors := floors st; rooms := rooms st;
     sensors := ss; placed_objects := placed_objects st;
     colmap_cameras := colmap_cameras st; colmap_images := colmap_images st;
     sensor_history := sensor_history st; persist_file := persist_file st |}.

Definition with_placed_objects (st : BuildingStore json)
    (os : gmap string (PlacedObject json)) : BuildingStore json :=
  {| buildings := buildings st; floors := floors st; rooms := rooms st;
     sensors := sensors st; placed_objects := os;
     colmap_cameras := colmap_cameras st; colmap_images := colmap_images st;
     sensor_history := sensor_history st; persist_file := persist_file st |}.

Definition with_sensor_history (st : BuildingStore json)
    (h : gmap string (list (SensorReading json))) : BuildingStore json :=
  {| buildings := buildings st; floors := floors st; rooms := rooms st;
     sensors := sensors st; placed_objects := placed_objects st;
     colmap_cameras := colmap_cameras st; colmap_images := colmap_images st;
     sensor_history := h; persist_file := persist_file st |}.

Definition with_colmap (st : BuildingStore json) (cs : gmap Z ColmapCamera)
    (ims : gmap Z ColmapImage) : BuildingStore json :=
  {| buildings := buildings st; floors := floors st; rooms := rooms st;
     sensors := sensors st; placed_objects := placed_objects st;
     colmap_cameras := cs; colmap_images := ims;
     sensor_history := sensor_history st; persist_file := persist_file st |}.

(** [room.sensors = ss], [room.placed_objects = os], [room.images = ims] *)
Definition room_with_sensors (r : Room) (ss : list string) : Room :=
  {| room_id := room_id r; room_floor_id := room_floor_id r;
     room_name := room_name r; room_type := room_type r;
     room_point_cloud_file := room_point_cloud_file r;
     room_bounds_min := room_bounds_min r; room_bounds_max := room_bounds_max r;
     room_sensors := ss; room_placed_objects := room_placed_objects r;
     room_images := room_images r |}.

Definition room_with_placed_objects (r : Room) (os : list string) : Room :=
  {| room_id := room_id r; room_floor_id := room_floor_id r;
     room_name := room_name r; room_type := room_type r;
     room_point_cloud_file := room_point_cloud_file r;
     room_bounds_min := room_bounds_min r; room_bounds_max := room_bounds_max r;
     room_sensors := room_sensors r; room_placed_objects := os;
     room_images := room_images r |}.

Definition room_with_images (r : Room) (ims : list string) : Room :=
  {| room_id := room_id r; room_floor_id := room_floor_id r;
     room_name := room_name r; room_type := room_type r;
     room_point_cloud_file := room_point_cloud_file r;
     room_bounds_min := room_bounds_min r; room_bounds_max := room_bounds_max r;
     room_sensors := room_sensors r; room_placed_objects := room_placed_objects r;
     room_images := ims |}.

(** [sid] is the identifier [_uid()] returns. *)
Definition add_sensor (st : BuildingStore json) (sid : string)
    (room_id name : string) (sensor_type : SensorType) (position : Vec3)
    (config : option (gmap string json))
  : KeyError + Sensor json * BuildingStore json :=
  match rooms st !! room_id with
  | None => inl (KeyError_room room_id)
  | Some room =>
      let sensor :=
        {| sen_id := sid; sen_room_id := room_id; sen_name := name;
           sen_sensor_type := sensor_type;
           sen_transform := {| tf_position := position;
                               tf_rotation := Quaternion_default;
                               tf_scale := Vec3_ones |};
           sen_status := "online"; sen_last_reading := None;
           sen_config := default ∅ config |} in
      let st := with_sensors st (<[sid := sensor]> (sensors st)) in
      let st := with_rooms st
                  (<[room_id := room_with_sensors room (room_sensors room ++ [sid])]>
                     (rooms st)) in
      inr (sensor, save st)
  end.

(** [h[-n:]] for [n > 0] *)
Definition last_n {A} (n : nat) (h : list A) : list A := drop (length h - n) h.

(** [now] is the value [time.time()] returns. *)
Definition update_sensor_reading (st : BuildingStore json) (now : spec_float)
    (sensor_id : string) (value : spec_float) (unit : string)
    (metadata : option (gmap string json))
  : KeyError + SensorReading json * BuildingStore json :=
  match sensors st !! sensor_id with
  | None => inl (KeyError_sensor sensor_id)
  | Some sensor =>
      let reading :=
        {| rd_sensor_id := sensor_id; rd_timestamp := now; rd_value := value;
           rd_unit := unit; rd_metadata := default ∅ metadata |} in
      let sensor :=
        {| sen_id := sen_id sensor; sen_room_id := sen_room_id sensor;
           sen_name := sen_name sensor; sen_sensor_type := sen_sensor_type sensor;
           sen_transform := sen_transform sensor; sen_status := sen_status sensor;
           sen_last_reading := Some reading; sen_config := sen_config sensor |} in
      let st := with_sensors st (<[sensor_id := sensor]> (sensors st)) in
      let h := default [] (sensor_history st !! sensor_id) ++ [reading] in
      let h := if bool_decide (1000 < length h)%nat then last_n 500 h else h in
      let st := with_sensor_history st (<[sensor_id := h]> (sensor_history st)) in
      inr (reading, save st)
  end.

(** [oid] is the identifier [_uid()] returns. *)
Definition add_placed_object (st : BuildingStore json) (oid : string)
    (room_id name object_type : string) (position : Vec3)
    (rotation : option Quaternion) (scale : option Vec3)
    (model_url : option string) (metadata : option (gmap string json))
  : KeyError + PlacedObject json * BuildingStore json :=
  match rooms st !! room_id with
  | None => inl (KeyError_room room_id)
  | Some room =>
      let obj :=
        {| obj_id := oid; obj_room_id := room_id; obj_name := name;
           obj_object_type := object_type; obj_model_url := model_url;
           obj_transform := {| tf_position := position;
                               tf_rotation := default Quaternion_default rotation;
                               tf_scale := default Vec3_ones scale |};
           obj_metadata := default ∅ metadata |} in
      let st := with_placed_objects st (<[oid := obj]> (placed_objects st)) in
      let st := with_rooms st
                  (<[room_id := room_with_placed_objects room
                                  (room_placed_objects room ++ [oid])]>
                     (rooms st)) in
      inr (obj, save st)
  end.

Definition remove_sensor (st : BuildingStore json) (sensor_id : string)
  : BuildingStore json :=
  let sensor := sensors st !! sensor_id in
  let st := with_sensors st (delete sensor_id (sensors st)) in
  let st :=
    match sensor with
    | Some sensor =>
        match rooms st !! sen_room_id sensor with
        | Some room =>
            with_rooms st
              (<[sen_room_id sensor :=
                   room_with_sensors room
                     (filter (λ s, s ≠ sensor_id) (room_sensors room))]>
                 (rooms st))
        | None => st
        end
    | None => st
    end in
  save st.

Definition remove_placed_object (st : BuildingStore json) (object_id : string)
  : BuildingStore json :=
  let obj := placed_objects st !! object_id in
  let st := with_placed_objects st (delete object_id (placed_objects st)) in
  let st :=
    match obj with
    | Some obj =>
        match rooms st !! obj_room_id obj with
        | Some room =>
            with_rooms st
              (<[obj_room_id obj :=
                   room_with_placed_objects room
                     (filter (λ o, o ≠ object_id) (room_placed_objects room))]>
                 (rooms st))
        | None => st
        end
    | None => st
    end in
  save st.

Definition set_colmap_data (st : BuildingStore json)
    (cameras : list ColmapCamera) (images : list ColmapImage)
  : BuildingStore json :=
  with_colmap st (dict_of cam_id cameras) (dict_of img_id images).

(** [img.room_id = room_id] *)
Definition image_with_room (img : ColmapImage) (room_id : string) : ColmapImage :=
  {| img_id := img_id img; img_camera_id := img_camera_id img;
     img_name := img_name img; img_rotation := img_rotation img;
     img_translation := img_translation img; img_room_id := Some room_id |}.

Definition assign_image_to_room (st : BuildingStore json) (image_id : Z)
    (room_id : string) : BuildingStore json :=
  match colmap_images st !! image_id with
  | Some img =>
      let st := with_colmap st (colmap_cameras st)
                  (<[image_id := image_with_room img room_id]> (colmap_images st)) in
      match rooms st !! room_id with
      | Some room =>
          let img_name := img_name img in
          if bool_decide (img_name ∈ room_images room) then st
          else with_rooms st
                 (<[room_id := room_with_images room (room_images room ++ [img_name])]>
                    (rooms st))
      | None => st
      end
  | None => st
  end.
End Methods.
End Store.

Import Store.

(** ** routes: the handlers that call the two services and the store *)

Module Routes.

(** What a handler does: it returns a value, raises
    [HTTPException(status, detail)], or lets an exception of a service
    through. *)
Inductive outcome (A : Type) : Type :=
| Returned (a : A)
| HTTPException (status : Z) (detail : string)
| Raised (e : pyerr).
Arguments Returned {A} a.
Arguments HTTPException {A} status detail.
Arguments Raised {A} e.

(** [l[start:]] *)
Definition slice_from {A} (start : Z) (l : list A) : list A :=
  let n := Z.of_nat (length l) in
  let s := if start <? 0 then Z.max (start + n) 0 else Z.min start n in
  drop (Z.to_nat s) l.

(** *** routes/pointclouds.py *)

(** The dictionary [load_colmap] returns. *)
Record colmap_counts : Type :=
  { n_cameras : nat; n_images : nat; n_points : nat }.

(** [result.get("cameras", [])], [result.get("images", [])] and
    [result.get("points", [])] *)
Definition get_cameras (result : gmap string entry) : list ColmapCamera :=
  match result !! "cameras" with
  | Some (Cameras cs) => cs
  | _ => []
  end.

Definition get_images (result : gmap string entry) : list ColmapImage :=
  match result !! "images" with
  | Some (Images ims) => ims
  | _ => []
  end.

Definition get_points (result : gmap string entry) : list point3d :=
  match result !! "points" with
  | Some (Points ps) => ps
  | _ => []
  end.

(** [colmap_dir] maps the names of the directories of [COLMAP_DIR] to
    their files. *)
Definition load_colmap {json} (colmap_dir : gmap string workspace)
    (st : BuildingStore json) (workspace : string)
  : outcome colmap_counts * BuildingStore json :=
  match colmap_dir !! workspace with
  | None =>
      (HTTPException 404
         (String.append "COLMAP workspace '" (String.append workspace "' not found")),
       st)
  | Some ws =>
      match load_colmap_workspace ws with
      | Err e => (Raised e, st)
      | Ok result =>
          let cameras := get_cameras result in
          let images := get_images result in
          (Returned {| n_cameras := length cameras; n_images := length images;
                       n_points := length (get_points result) |},
           set_colmap_data st cameras images)
      end
  end.

(** *** routes/buildings.py *)

(** The dictionary [get_room_detail] returns. *)
Record room_detail (json : Type) : Type :=
  { detail_room : Room; detail_sensors : list (Sensor json);
    detail_objects : list (PlacedObject json) }.
Arguments detail_room {json} _.
Arguments detail_sensors {json} _.
Arguments detail_objects {json} _.

Definition get_room_detail {json} (st : BuildingStore json) (room_id : string)
  : outcome (room_detail json) :=
  match rooms st !! room_id with
  | None => HTTPException 404 "Room not found"
  | Some r =>
      Returned {| detail_room := r;
                  detail_sensors := omap (λ sid, sensors st !! sid) (room_sensors r);
                  detail_objects :=
                    omap (λ oid, placed_objects st !! oid) (room_placed_objects r) |}
  end.

(** *** routes/sensors.py *)

Definition get_sensor {json} (st : BuildingStore json) (sensor_id : string)
  : outcome (Sensor json) :=
  match sensors st !! sensor_id with
  | None => HTTPException 404 "Sensor not found"
  | Some s => Returned s
  end.

Definition sensor_history {json} (st : BuildingStore json) (sensor_id : string)
    (limit : Z) : list (SensorReading json) :=
  let history := default [] (Store.sensor_history st !! sensor_id) in
  slice_from (- limit) history.
End Routes.

(** * Notions used to state the properties *)

(** [chunks k n l]: the first [n] consecutive blocks of [k] elements of
    [l]. *)
Fixpoint chunks {A} (k n : nat) (l : list A) : list (list A) :=
  match n with
  | O => []
  | S n' => take k l :: chunks k n' (drop k l)
  end.

(** ** The wire format read back

    The client that decodes the buffer is not part of the repository; this
    is the reader the layout table describes: a 4-byte little-endian count
    [N], one flag byte, [N] times three little-endian float32, and, when
    the flag is 1, [N] times three colour bytes, with nothing after. *)
Module Wire.
Record decoded : Type :=
  { dec_positions : list (list F32.t);
    dec_colors : option (list (list byte)) }.

Definition f32_of_bytes (bs : list byte) : F32.t := F32.of_bits (le_value bs).

Definition decode (buf : list byte) : option decoded :=
  let n := Z.to_nat (le_value (take 4 buf)) in
  flag ← buf !! 4%nat;
  let body := drop 5 buf in
  let pos := take (12 * n) body in
  let rest := drop (12 * n) body in
  if negb (Nat.eqb (length pos) (12 * n)) then None
  else
    let positions := chunks 3 n (map f32_of_bytes (chunks 4 (3 * n) pos)) in
    if Z_of_byte flag =? 1 then
      if Nat.eqb (length rest) (3 * n)
      then Some {| dec_positions := positions; dec_colors := Some (chunks 3 n rest) |}
      else None
    else if Z_of_byte flag =? 0 then
      if Nat.eqb (length rest) 0
      then Some {| dec_positions := positions; dec_colors := None |}
      else None
    else None.
End Wire.

(** ** Point clouds

    A loaded array is a point cloud when it is an N x C table of float32
    values with the three position columns, and the three colour columns
    when colours are announced. *)
Definition point_cloud (c : nat) (rows : list (list F32.t)) (has_colors : bool) : Prop :=
  Np.rectangular c rows ∧ (3 ≤ c)%nat ∧ (has_colors = true → (6 ≤ c)%nat) ∧
  Forall (Forall (λ x, F32.valid x = true)) rows.

Definition positions (rows : list (list F32.t)) : list (list F32.t) := Np.cols 0 3 rows.
Definition colors (rows : list (list F32.t)) : list (list F32.t) := Np.cols 3 6 rows.

Definition no_nan (xs : list F32.t) : Prop := Forall (λ x, F32.is_nan x = false) xs.

(** The least and the greatest element of a sequence, in the order of the
    float comparison. *)
Definition least (m : F32.t) (xs : list F32.t) : Prop :=
  m ∈ xs ∧ ∀ x, x ∈ xs → F32.leb m x = true.
Definition greatest (m : F32.t) (xs : list F32.t) : Prop :=
  m ∈ xs ∧ ∀ x, x ∈ xs → F32.leb x m = true.

(** ** Colour bytes *)

(** [b] is an integer nearest to [q]. *)
Definition nearest_int (q : Q) (b : Z) : Prop := (Qabs (inject_Z b - q) <= 1 # 2)%Q.

(** [clamp(q, 0, 255)] on rationals *)
Definition clamp_0_255 (q : Q) : Q := Qmin (Qmax q 0) 255.

(** "each channel = round(clamp(color*255, 0, 255))" *)
Definition rounds_to_nearest (x : F32.t) (b : byte) : Prop :=
  nearest_int (clamp_0_255 (F32.to_Q x * 255)) (Z_of_byte b).

(** What the code computes for a colour that is not NaN: the float32
    product clamped to 0..255, and [b] the integer part of that value. *)
Definition truncates (x : F32.t) (b : byte) : Prop :=
  F32.is_nan x = false →
  let v := Np.clip F32.zero F32.c255 (F32.mul x F32.c255) in
  (0 <= F32.to_Q v <= 255)%Q ∧
  (inject_Z (Z_of_byte b) <= F32.to_Q v < inject_Z (Z_of_byte b + 1))%Q.

(** [v] lies in 0..255 and the byte the cast gives for it is its integer
    part. *)
Definition floor_of (v : F32.t) : Prop :=
  (0 <= F32.to_Q v <= 255)%Q ∧
  (inject_Z (Z_of_byte (Np.to_uint8 v)) <= F32.to_Q v
   < inject_Z (Z_of_byte (Np.to_uint8 v) + 1))%Q.

(** ** COLMAP lines *)

(** Token [i] of a line. *)
Definition token (line : string) (i : nat) : option string := parts_of line !! i.

(** [img] is the record the odd line
    [IMAGE_ID QW QX QY QZ TX TY TZ CAMERA_ID NAME] describes: every field
    is the conversion of its token, the quaternion as written. *)
Definition describes (line : string) (img : ColmapImage) : Prop :=
  token line 0 ≫= Py.int_opt = Some (img_id img) ∧
  token line 1 ≫= Py.float_opt true = Some (qw (img_rotation img)) ∧
  token line 2 ≫= Py.float_opt true = Some (qx (img_rotation img)) ∧
  token line 3 ≫= Py.float_opt true = Some (qy (img_rotation img)) ∧
  token line 4 ≫= Py.float_opt true = Some (qz (img_rotation img)) ∧
  token line 5 ≫= Py.float_opt true = Some (vx (img_translation img)) ∧
  token line 6 ≫= Py.float_opt true = Some (vy (img_translation img)) ∧
  token line 7 ≫= Py.float_opt true = Some (vz (img_translation img)) ∧
  token line 8 ≫= Py.int_opt = Some (img_camera_id img) ∧
  token line 9 = Some (img_name img) ∧
  img_room_id img = None.

(** The lines of a sequence of (odd, even) pairs, in order. *)
Definition pair_lines (pairs : list (string * string)) : list string :=
  flat_map (λ p, [p.1; p.2]) pairs.

(** The lines a parser looks at: neither comments nor blank. *)
Definition qualifying_lines (f : list string) : list string :=
  filter (λ l, qualifying l = true) f.

(** The three files of a workspace and the numeric columns of their
    lines. *)
Inductive colmap_file : Type := CamerasTxt | ImagesTxt | Points3DTxt.

Definition file_name (k : colmap_file) : string :=
  match k with
  | CamerasTxt => "cameras.txt"
  | ImagesTxt => "images.txt"
  | Points3DTxt => "points3D.txt"
  end.

Inductive numeric : Type := AnInt | AFloat.

(** Column [i] of a line of file [k] holds an integer, a float, or text
    that is not converted. *)
Definition expected (k : colmap_file) (i : nat) : option numeric :=
  match k, i with
  | CamerasTxt, (0 | 2 | 3)%nat => Some AnInt
  | CamerasTxt, 1%nat => None
  | CamerasTxt, _ => Some AFloat
  | ImagesTxt, (0 | 8)%nat => Some AnInt
  | ImagesTxt, (1 | 2 | 3 | 4 | 5 | 6 | 7)%nat => Some AFloat
  | ImagesTxt, _ => None
  | Points3DTxt, (0 | 4 | 5 | 6)%nat => Some AnInt
  | Points3DTxt, (1 | 2 | 3 | 7)%nat => Some AFloat
  | Points3DTxt, _ => None
  end.

Definition converts (n : numeric) (tok : string) : bool :=
  match n with
  | AnInt => bool_decide (is_Some (Py.int_opt tok))
  | AFloat => bool_decide (is_Some (Py.float_opt true tok))
  end.

Definition conversion_error (n : numeric) (tok : string) : pyerr :=
  match n with
  | AnInt => ValueError_int tok
  | AFloat => ValueError_float tok
  end.

(** Every numeric column of the line converts. *)
Definition numeric_tokens (k : colmap_file) (parts : list string) : Prop :=
  ∀ i t n, parts !! i = Some t → expected k i = Some n → converts n t = true.

(** [tok], in column [i], is the first token of the line that does not
    convert. *)
Definition first_bad_token (k : colmap_file) (parts : list string)
    (i : nat) (tok : string) (n : numeric) : Prop :=
  parts !! i = Some tok ∧ expected k i = Some n ∧ converts n tok = false ∧
  ∀ j t n', (j < i)%nat → parts !! j = Some t → expected k j = Some n' →
            converts n' t = true.

(** The outcome of converting one line of file [k], the record dropped. *)
Definition record_outcome (k : colmap_file) (parts : list string) : result unit :=
  match k with
  | CamerasTxt => _ ← camera_of_parts parts; Ok ()
  | ImagesTxt => _ ← image_of_parts parts; Ok ()
  | Points3DTxt => _ ← point_of_parts parts; Ok ()
  end.

(** The outcome of parsing a whole file [k], the records dropped. *)
Definition parse_outcome (k : colmap_file) (f : list string) : result unit :=
  match k with
  | CamerasTxt => _ ← parse_cameras_txt f; Ok ()
  | ImagesTxt => _ ← parse_images_txt f; Ok ()
  | Points3DTxt => _ ← parse_points3d_txt f; Ok ()
  end.

(** ** Where a parse stops *)

(** File [k] of the workspace is absent or parses. *)
Definition parses (k : colmap_file) (ws : gmap string (list string)) : Prop :=
  match ws !! file_name k with
  | None => True
  | Some f => ∃ u, parse_outcome k f = Ok u
  end.

(** The files read before file [k] parse. *)
Definition earlier_files_parse (k : colmap_file) (ws : gmap string (list string)) : Prop :=
  match k with
  | CamerasTxt => True
  | ImagesTxt => parses CamerasTxt ws
  | Points3DTxt => parses CamerasTxt ws ∧ parses ImagesTxt ws
  end.

(** The lines [pre] before a line of file [k] are read without error, and
    the parser is about to convert the line that follows them: for
    [images.txt], whose lines go in pairs, [pre] holds complete
    well-formed pairs. *)
Definition lines_before_parse (k : colmap_file) (pre : list string) : Prop :=
  match k with
  | CamerasTxt => ∃ cs, parse_cameras_txt pre = Ok cs
  | ImagesTxt =>
      ∃ pairs imgs, qualifying_lines pre = pair_lines pairs ∧
                    Forall2 describes pairs.*1 imgs
  | Points3DTxt => ∃ ps, parse_points3d_txt pre = Ok ps
  end.

(** An odd line of [images.txt] is converted only with ten tokens. *)
Definition enough_tokens (k : colmap_file) (parts : list string) : Prop :=
  match k with
  | ImagesTxt => (10 ≤ length parts)%nat
  | _ => True
  end.

(** Line [length pre] of file [k] is where the load meets its first
    token that does not convert: [tok], in column [i]. *)
Definition stops_at (ws : gmap string (list string)) (k : colmap_file)
    (pre : list string) (line : string) (post : list string)
    (i : nat) (tok : string) (n : numeric) : Prop :=
  ws !! file_name k = Some (pre ++ line :: post) ∧
  earlier_files_parse k ws ∧
  lines_before_parse k pre ∧
  qualifying line = true ∧
  enough_tokens k (parts_of line) ∧
  first_bad_token k (parts_of line) i tok n.

(** "a parse error identifying the file and line": the file and the line
    can be read off the error raised. *)
Definition error_locates (locate : pyerr → colmap_file * nat) : Prop :=
  ∀ ws k pre line post i tok n,
    stops_at ws k pre line post i tok n →
    ∃ e, load_colmap_workspace ws = Err e ∧ locate e = (k, length pre).

(** Every qualifying line has at least four tokens. *)
Definition four_tokens (f : list string) : Prop :=
  Forall (λ l, qualifying l = true → (4 ≤ length (parts_of l))%nat) f.

(** ** Sample inputs *)

(** 0.25, 2.0 and 200 as float32. *)
Definition f32_quarter : F32.t := S754_finite false 8388608 (-25).
Definition f32_two : F32.t := S754_finite false 8388608 (-22).
Definition f32_200 : F32.t := S754_finite false 13107200 (-16).

(** One point at (1, 2, 3) with colour (1, 0, 0.2), as the loader returns
    it for the line [1 2 3 255 0 51]. *)
Definition sample_rows : list (list F32.t) :=
  [ [F32.of_Z 1; F32.of_Z 2; F32.of_Z 3; F32.one; F32.zero;
     S754_finite false 13421773 (-26)] ].

Definition sample_fs : gmap string file :=
  {[ "a.xyz" := text_file ["1 2 3 255 0 51"; "4 5 6 0 0 0"];
     "quarter.xyz" := text_file ["0 0 0 0.25 0.25 0.25"];
     "bright.xyz" := text_file ["1 2 3 510 0 0"];
     "nan.xyz" := text_file ["0 0 0 nan 200 100"];
     "empty.xyz" := text_file [] ]}.

Definition sample_images : list string :=
  [ "# Image list with two lines of data per image:";
    "7 1 0 0 0 0 0 0 3 frame007.jpg";
    "10.5 20.5 -1";
    EmptyString;
    "8 0.5 0.5 0.5 0.5 1 2 3 3 frame008.jpg";
    "1 2 3 4 5 6 7 8 9 10 11 12" ].

Definition sample_pose_7 : ColmapImage :=
  {| img_id := 7; img_camera_id := 3; img_name := "frame007.jpg";
     img_rotation := {| qw := S754_finite false 4503599627370496 (-52);
                        qx := S754_zero false; qy := S754_zero false;
                        qz := S754_zero false |};
     img_translation := {| vx := S754_zero false; vy := S754_zero false;
                           vz := S754_zero false |};
     img_room_id := None |}.

Definition sample_pose_8 : ColmapImage :=
  {| img_id := 8; img_camera_id := 3; img_name := "frame008.jpg";
     img_rotation := {| qw := S754_finite false 4503599627370496 (-53);
                        qx := S754_finite false 4503599627370496 (-53);
                        qy := S754_finite false 4503599627370496 (-53);
                        qz := S754_finite false 4503599627370496 (-53) |};
     img_translation := {| vx := S754_finite false 4503599627370496 (-52);
                           vy := S754_finite false 4503599627370496 (-51);
                           vz := S754_finite false 6755399441055744 (-51) |};
     img_room_id := None |}.

(** A camera file that parses, and one whose height is not a number. *)
Definition sample_cameras : list string :=
  ["# Camera list"; "3 PINHOLE 640 480 500.0 500.0 320.0 240.0"].

Definition bad_cameras : list string := ["# Camera list"; "3 PINHOLE 640 4x0 500.0"].

(** ** Reductions and coordinates *)

(** What reducing column [j] of a table with [f] gives, from the first
    entry of the column on. *)
Definition column_fold (f : F32.t → F32.t → F32.t) (j : nat)
    (tbl : list (list F32.t)) : F32.t :=
  match Np.column j tbl with
  | [] => F32.zero
  | x :: xs => fold_left f xs x
  end.

(** Coordinate [j] of a vector: x, y, z. *)
Definition coord (j : nat) (v : Vec3) : spec_float :=
  match j with
  | 0%nat => vx v
  | 1%nat => vy v
  | _ => vz v
  end.

(** ** Lines of cameras.txt and points3D.txt *)

(** [cam] is the record the line [CAMERA_ID MODEL WIDTH HEIGHT PARAMS...]
    describes: the model is the second token as written, the parameters
    are the conversions of all the tokens after the fourth. *)
Definition describes_camera (line : string) (cam : ColmapCamera) : Prop :=
  token line 0 ≫= Py.int_opt = Some (cam_id cam) ∧
  token line 1 = Some (cam_model cam) ∧
  token line 2 ≫= Py.int_opt = Some (cam_width cam) ∧
  token line 3 ≫= Py.int_opt = Some (cam_height cam) ∧
  Forall2 (λ t v, Py.float_opt true t = Some v)
    (drop 4 (parts_of line)) (cam_params cam).

(** [pt] is the record the line [POINT3D_ID X Y Z R G B ERROR TRACK[]]
    describes. *)
Definition describes_point (line : string) (pt : point3d) : Prop :=
  token line 0 ≫= Py.int_opt = Some (pt_id pt) ∧
  token line 1 ≫= Py.float_opt true = Some (pt_x pt) ∧
  token line 2 ≫= Py.float_opt true = Some (pt_y pt) ∧
  token line 3 ≫= Py.float_opt true = Some (pt_z pt) ∧
  token line 4 ≫= Py.int_opt = Some (pt_r pt) ∧
  token line 5 ≫= Py.int_opt = Some (pt_g pt) ∧
  token line 6 ≫= Py.int_opt = Some (pt_b pt) ∧
  token line 7 ≫= Py.float_opt true = Some (pt_error pt).

(** Every other element of a list, from the first one on. *)
Fixpoint every_other {A} (l : list A) : list A :=
  match l with
  | [] => []
  | [x] => [x]
  | x :: _ :: l' => x :: every_other l'
  end.

(** ** More sample inputs *)

(** Three points whose least and greatest coordinates lie in different
    rows, and a file with a NaN coordinate. *)
Definition bounds_fs : gmap string file :=
  {[ "mix.xyz" := text_file ["1 5 3"; "4 2 6"; "0 9 -1"];
     "n.xyz" := text_file ["nan 0 0"; "1 2 3"] ]}.

Definition mix_rows : list (list F32.t) :=
  [ [F32.of_Z 1; F32.of_Z 5; F32.of_Z 3];
    [F32.of_Z 4; F32.of_Z 2; F32.of_Z 6];
    [F32.zero; F32.of_Z 9; F32.of_Z (-1)] ].

(** Two images without 2-D points: the track line of each is empty. *)
Definition untracked_pairs : list (string * string) :=
  [ ("7 1 0 0 0 0 0 0 3 frame007.jpg", EmptyString);
    ("8 0.5 0.5 0.5 0.5 1 2 3 3 frame008.jpg", EmptyString) ].

(** The camera of [sample_cameras]. *)
Definition sample_camera_3 : ColmapCamera :=
  {| cam_id := 3; cam_model := "PINHOLE"; cam_width := 640; cam_height := 480;
     cam_params := [ S754_finite false 8796093022208000 (-44);
                     S754_finite false 8796093022208000 (-44);
                     S754_finite false 5629499534213120 (-44);
                     S754_finite false 8444249301319680 (-45) ] |}.

(** A points3D.txt file with one point and its track, and the point. *)
Definition sample_points : list string :=
  ["# 3D point list"; "1 0.5 1.5 2.5 255 0 0 0.25 7 2 8 5"].

Definition sample_point_1 : point3d :=
  {| pt_id := 1;
     pt_x := S754_finite false 4503599627370496 (-53);
     pt_y := S754_finite false 6755399441055744 (-52);
     pt_z := S754_finite false 5629499534213120 (-51);
     pt_r := 255; pt_g := 0; pt_b := 0;
     pt_error := S754_finite false 4503599627370496 (-54) |}.

(** The summary of the file [a.xyz] of [sample_fs]. *)
Definition sample_info_a : PointCloudInfo :=
  {| pci_file := "a.xyz";
     pci_num_points := 2;
     pci_bounds_min :=
       {| vx := S754_finite false 4503599627370496 (-52);
          vy := S754_finite false 4503599627370496 (-51);
          vz := S754_finite false 6755399441055744 (-51) |};
     pci_bounds_max :=
       {| vx := S754_finite false 4503599627370496 (-50);
          vy := S754_finite false 5629499534213120 (-50);
          vz := S754_finite false 6755399441055744 (-50) |};
     pci_has_colors := true;
     pci_has_normals := false |}.

(** ** A sample store *)

(** The lobby of the demo data, and a store that holds it together with
    the two images of [sample_images]. *)
Definition f64_of_Z (z : Z) : spec_float := binary_normalize 53 1024 z 0 false.

Definition sample_room : Room :=
  {| room_id := "room_lobby"; room_floor_id := "floor_0"; room_name := "Lobby";
     room_type := "hallway"; room_point_cloud_file := None;
     room_bounds_min := {| vx := f64_of_Z (-5); vy := f64_of_Z 0; vz := f64_of_Z (-5) |};
     room_bounds_max := {| vx := f64_of_Z 5; vy := f64_of_Z 3; vz := f64_of_Z 5 |};
     room_sensors := ["s1"]; room_placed_objects := []; room_images := [] |}.

Definition sample_sensor : Sensor unit :=
  {| sen_id := "s1"; sen_room_id := "room_lobby"; sen_name := "Lobby Lights";
     sen_sensor_type := LIGHT;
     sen_transform := {| tf_position := Vec3_default;
                         tf_rotation := Quaternion_default;
                         tf_scale := Vec3_ones |};
     sen_status := "online"; sen_last_reading := None; sen_config := ∅ |}.

Definition sample_store : BuildingStore unit :=
  {| buildings := ∅; floors := ∅;
     rooms := {[ "room_lobby" := sample_room ]};
     sensors := {[ "s1" := sample_sensor ]};
     placed_objects := ∅;
     colmap_cameras := ∅;
     colmap_images := dict_of img_id [sample_pose_7; sample_pose_8];
     sensor_history := ∅;
     persist_file := None |}.

(** * Properties *)

(** ** Worked values *)

Example f32_c255 : F32.c255 = S754_finite false 16711680 (-16).
Proof. reflexivity. Qed.

Example f32_bits_one : F32.to_bits F32.one = 0x3F800000.
Proof. reflexivity. Qed.

Example split_ex :
  Py.split (Py.strip "  3 PINHOLE   640 480
") = ["3"; "PINHOLE"; "640"; "480"].
Proof. reflexivity. Qed.

Example int_ex : Py.int_opt "-1_000" = Some (-1000).
Proof. reflexivity. Qed.

Example float_tenth :
  Py.float_opt true "0.1" = Some (S754_finite false 7205759403792794 (-56)).
Proof. vm_compute. reflexivity. Qed.

Example float_bad : Py.float_opt true "1._5" = None.
Proof. reflexivity. Qed.

Example suffix_ex : str_lower (path_suffix "data/point_clouds/Room.PLY") = ".ply".
Proof. reflexivity. Qed.

Example load_xyz_rgb :
  load_point_cloud {[ "a.xyz" := text_file ["1 2 3 255 0 51"; "4 5 6 0 0 0"] ]} "a.xyz"
  = Ok (Np.A2 6 [ [F32.of_Z 1; F32.of_Z 2; F32.of_Z 3; F32.one; F32.zero;
                   S754_finite false 13421773 (-26)];
                  [F32.of_Z 4; F32.of_Z 5; F32.of_Z 6; F32.zero; F32.zero; F32.zero] ],
        true).
Proof. vm_compute. reflexivity. Qed.

(** The two parsing examples of the specification. *)
Example camera_example :
  parse_cameras_txt ["# Camera list"; "3 PINHOLE 640 480 500.0 500.0 320.0 240.0"]
  = Ok [ {| cam_id := 3; cam_model := "PINHOLE"; cam_width := 640; cam_height := 480;
            cam_params := [ S754_finite false 8796093022208000 (-44);
                            S754_finite false 8796093022208000 (-44);
                            S754_finite false 5629499534213120 (-44);
                            S754_finite false 8444249301319680 (-45) ] |} ].
Proof. vm_compute. reflexivity. Qed.

Example image_example :
  parse_images_txt ["7 1 0 0 0 0 0 0 3 frame007.jpg"; "10.5 20.5 -1"]
  = Ok [ {| img_id := 7; img_camera_id := 3; img_name := "frame007.jpg";
            img_rotation := {| qw := S754_finite false 4503599627370496 (-52);
                               qx := S754_zero false; qy := S754_zero false;
                               qz := S754_zero false |};
            img_translation := {| vx := S754_zero false; vy := S754_zero false;
                                  vz := S754_zero false |};
            img_room_id := None |} ].
Proof. vm_compute. reflexivity. Qed.

Example f32_c1_5 : F32.c1_5 = S754_finite false 12582912 (-23).
Proof. reflexivity. Qed.

Example comment_ex : _COMMENT_match "   # Camera list" = true.
Proof. reflexivity. Qed.

Example float_exp :
  Py.float_opt true "-1.5e2" = Some (S754_finite true 5277655813324800 (-45)).
Proof. vm_compute. reflexivity. Qed.

Example suffix_hidden : path_suffix "data/.ply" = EmptyString.
Proof. reflexivity. Qed.

Example f32_bits_back : F32.of_bits 0x3F800000 = F32.one.
Proof. reflexivity. Qed.

Example int_bad : Py.int_opt "12.5" = None.
Proof. reflexivity. Qed.

(** An empty file goes through the loader as one row without columns, and
    the summary then fails on its first index. *)
Example info_of_empty_file :
  point_cloud_info sample_fs "empty.xyz" = Err (IndexError_axis 0 0).
Proof. vm_compute. reflexivity. Qed.

(** ** Bytes and little-endian integers *)

Lemma Z_of_byte_range b : 0 <= Z_of_byte b < 256.
Proof.
  unfold Z_of_byte. pose proof (Byte.to_N_bounded b). lia.
Qed.

Lemma Z_of_byte_of_Z z : Z_of_byte (byte_of_Z z) = z mod 256.
Proof.
  unfold Z_of_byte, byte_of_Z.
  assert (Hr : 0 <= z mod 256 < 256) by (apply Z.mod_pos_bound; lia).
  destruct (Byte.of_N (Z.to_N (z mod 256))) as [b|] eqn:Hb; simpl.
  - apply Byte.to_of_N in Hb. rewrite Hb. lia.
  - apply Byte.of_N_None_iff in Hb. lia.
Qed.

Lemma length_le_bytes w z : length (le_bytes w z) = w.
Proof. revert z. induction w as [|w IH]; intros z; simpl; [reflexivity|]. now rewrite IH. Qed.

Lemma le_value_le_bytes w z : le_value (le_bytes w z) = z mod 256 ^ Z.of_nat w.
Proof.
  revert z. induction w as [|w IH]; intros z.
  - simpl. now rewrite Z.mod_1_r.
  - cbn [le_bytes le_value]. rewrite Z_of_byte_of_Z, IH.
    rewrite Nat2Z.inj_succ, Z.pow_succ_r by lia.
    rewrite Z.rem_mul_r by lia. reflexivity.
Qed.

Lemma le_value_le_bytes_4 z : 0 <= z < 2 ^ 32 → le_value (le_bytes 4 z) = z.
Proof.
  intros Hz. rewrite le_value_le_bytes. apply Z.mod_small.
  change (256 ^ Z.of_nat 4) with (2 ^ 32). exact Hz.
Qed.

(** ** Blocks of a concatenation *)

Lemma chunks_concat {A} k (xss : list (list A)) (rest : list A) :
  Forall (λ xs, length xs = k) xss →
  chunks k (length xss) (concat xss ++ rest) = xss.
Proof.
  induction 1 as [|xs xss Hk _ IH]; [reflexivity|].
  cbn [concat length chunks]. rewrite <- app_assoc.
  rewrite take_app_length' by (symmetry; exact Hk).
  rewrite drop_app_length' by (symmetry; exact Hk).
  now rewrite IH.
Qed.

Lemma chunks_concat_nil {A} k (xss : list (list A)) :
  Forall (λ xs, length xs = k) xss →
  chunks k (length xss) (concat xss) = xss.
Proof.
  intros H. rewrite <- (app_nil_r (concat xss)). now apply chunks_concat.
Qed.

Lemma length_concat_uniform {A} k (xss : list (list A)) :
  Forall (λ xs, length xs = k) xss → length (concat xss) = (length xss * k)%nat.
Proof.
  induction 1 as [|xs xss Hk _ IH]; [reflexivity|].
  cbn [concat length]. rewrite length_app, IH, Hk. lia.
Qed.

(** ** The binary32 bit pattern *)

Lemma digits2_pos_size p : digits2_pos p = Pos.size p.
Proof. induction p; simpl; congruence. Qed.

Lemma pos_size_bounds p :
  2 ^ (Z.pos (Pos.size p) - 1) <= Z.pos p < 2 ^ Z.pos (Pos.size p).
Proof.
  pose proof (Pos.size_gt p) as Hgt. pose proof (Pos.size_le p) as Hle.
  apply Pos2Z.pos_lt_pos in Hgt. apply Pos2Z.pos_le_pos in Hle.
  rewrite Pos2Z.inj_pow in Hgt, Hle.
  change (Z.pos p~0) with (2 * Z.pos p) in Hle.
  split; [|exact Hgt].
  replace (Z.pos (Pos.size p)) with (Z.succ (Z.pos (Pos.size p) - 1)) in Hle by lia.
  rewrite Z.pow_succ_r in Hle by lia. lia.
Qed.

(** A valid finite float32 is normal (24 significant bits) or subnormal
    (fewer, at the least exponent). *)
Lemma valid_finite s m e :
  F32.valid (S754_finite s m e) = true →
  (2 ^ 23 <= Z.pos m < 2 ^ 24 ∧ -149 <= e <= 104) ∨ (Z.pos m < 2 ^ 23 ∧ e = -149).
Proof.
  unfold F32.valid, valid_binary, bounded, canonical_mantissa, fexp, emin,
    F32.prec, F32.emax.
  rewrite digits2_pos_size. intros H.
  apply andb_prop in H as [Hc Hb].
  apply Z.eqb_eq in Hc. apply Z.leb_le in Hb.
  pose proof (pos_size_bounds m) as [Hlo Hhi].
  set (d := Z.pos (Pos.size m)) in *.
  destruct (Z.le_gt_cases 24 d) as [Hd|Hd].
  - left. assert (d = 24) by lia.
    replace d with 24 in Hlo, Hhi by lia. simpl in Hlo. lia.
  - right. assert (He : e = -149) by lia. split; [|exact He].
    assert (2 ^ d <= 2 ^ 23) by (apply Z.pow_le_mono_r; lia). lia.
Qed.

Lemma of_bits_fields (s : bool) (ex frac : Z) :
  0 <= ex < 256 → 0 <= frac < 2 ^ 23 →
  let b := F32.sign_bit s + ex * 2 ^ 23 + frac in
  Z.testbit b 31 = s ∧ (b / 2 ^ 23) mod 256 = ex ∧ b mod 2 ^ 23 = frac.
Proof.
  intros Hex Hfrac b.
  assert (Hs : F32.sign_bit s = Z.b2z s * 2 ^ 31) by (destruct s; reflexivity).
  assert (Hdiv : b / 2 ^ 23 = Z.b2z s * 256 + ex).
  { symmetry. apply (Z.div_unique _ _ _ frac); [lia|]. subst b. rewrite Hs.
    change (2 ^ 31) with (256 * 2 ^ 23). lia. }
  repeat split.
  - assert (Hb : Z.b2z (Z.testbit b 31) = Z.b2z s).
    { rewrite Z.testbit_spec' by lia.
      assert (Hq : b / 2 ^ 31 = Z.b2z s).
      { symmetry. apply (Z.div_unique _ _ _ (ex * 2 ^ 23 + frac)).
        - change (2 ^ 31) with (256 * 2 ^ 23). lia.
        - subst b. rewrite Hs. lia. }
      rewrite Hq. destruct s; reflexivity. }
    destruct (Z.testbit b 31), s; simpl in Hb; congruence.
  - rewrite Hdiv. rewrite Z.add_comm, Z.mod_add by lia. apply Z.mod_small; lia.
  - symmetry. apply (Z.mod_unique _ _ (Z.b2z s * 256 + ex)); [lia|].
    subst b. rewrite Hs. change (2 ^ 31) with (256 * 2 ^ 23). lia.
Qed.

(** Reading the bit pattern of a valid float32 gives the float back. *)
Lemma of_bits_to_bits x : F32.valid x = true → F32.of_bits (F32.to_bits x) = x.
Proof.
  destruct x as [s|s| |s m e]; intros Hv.
  - destruct s; reflexivity.
  - destruct s; reflexivity.
  - reflexivity.
  - apply valid_finite in Hv. unfold F32.to_bits.
    destruct Hv as [[Hm He]|[Hm He]].
    + rewrite (proj2 (Z.leb_le _ _)) by lia.
      destruct (of_bits_fields s (e + 150) (Z.pos m - 2 ^ 23)) as (Hs & Hex & Hfr);
        [lia | lia |].
      unfold F32.of_bits. rewrite Hs, Hex, Hfr.
      rewrite (proj2 (Z.eqb_neq _ _)) by lia.
      rewrite (proj2 (Z.eqb_neq _ _)) by lia.
      replace (Z.pos m - 2 ^ 23 + 2 ^ 23) with (Z.pos m) by lia.
      f_equal. lia.
    + rewrite (proj2 (Z.leb_gt _ _)) by lia.
      destruct (of_bits_fields s 0 (Z.pos m)) as (Hs & Hex & Hfr); [lia | lia |].
      rewrite Z.mul_0_l, Z.add_0_r in Hs, Hex, Hfr.
      unfold F32.of_bits. rewrite Hs, Hex, Hfr. simpl. now subst e.
Qed.

Lemma to_bits_range x : F32.valid x = true → 0 <= F32.to_bits x < 2 ^ 32.
Proof.
  destruct x as [s|s| |s m e]; intros Hv.
  - destruct s; simpl; lia.
  - destruct s; simpl; lia.
  - simpl; lia.
  - apply valid_finite in Hv. unfold F32.to_bits.
    assert (Hs : 0 <= F32.sign_bit s <= 2 ^ 31) by (destruct s; simpl; lia).
    change (2 ^ 32) with (2 ^ 31 + 2 ^ 31).
    change (2 ^ 31) with (256 * 2 ^ 23) in *.
    destruct Hv as [[Hm He]|[Hm He]].
    + rewrite (proj2 (Z.leb_le _ _)) by lia. nia.
    + rewrite (proj2 (Z.leb_gt _ _)) by lia. lia.
Qed.

Lemma f32_of_bytes_bytes x :
  F32.valid x = true → Wire.f32_of_bytes (Np.f32_bytes x) = x.
Proof.
  intros Hv. unfold Wire.f32_of_bytes, Np.f32_bytes.
  rewrite le_value_le_bytes_4 by now apply to_bits_range.
  now apply of_bits_to_bits.
Qed.

(** ** Column slices *)

Lemma length_cols lo hi rows : length (Np.cols lo hi rows) = length rows.
Proof. unfold Np.cols. apply length_map. Qed.

Lemma cols_width lo hi c rows :
  Np.rectangular c rows → (hi ≤ c)%nat →
  Forall (λ r, length r = (hi - lo)%nat) (Np.cols lo hi rows).
Proof.
  unfold Np.rectangular, Np.cols. intros Hrect Hhi.
  apply Forall_map. eapply Forall_impl; [exact Hrect|].
  intros r Hr. cbn beta in *. rewrite length_take, length_drop, Hr. lia.
Qed.

Lemma cols_Forall (P : F32.t → Prop) lo hi rows :
  Forall (Forall P) rows → Forall (Forall P) (Np.cols lo hi rows).
Proof.
  unfold Np.cols. intros H. apply Forall_map.
  eapply Forall_impl; [exact H|]. intros r Hr. simpl.
  now apply Forall_take, Forall_drop.
Qed.

(** ** The position block read back *)

Lemma length_f32_bytes x : length (Np.f32_bytes x) = 4%nat.
Proof. apply length_le_bytes. Qed.

Lemma length_tobytes_f32 k xss :
  Forall (λ r, length r = k) xss →
  length (Np.tobytes_f32 xss) = (4 * (k * length xss))%nat.
Proof.
  intros Hk. unfold Np.tobytes_f32.
  rewrite (length_concat_uniform 4).
  - rewrite length_map, (length_concat_uniform k) by exact Hk. lia.
  - apply Forall_map, Forall_forall. intros x _. apply length_f32_bytes.
Qed.

Lemma map_f32_of_bytes_bytes xs :
  Forall (λ x, F32.valid x = true) xs →
  map Wire.f32_of_bytes (map Np.f32_bytes xs) = xs.
Proof.
  induction 1 as [|x xs Hx _ IH]; [reflexivity|].
  cbn [map]. now rewrite f32_of_bytes_bytes, IH.
Qed.

Lemma Forall_concat {A} (P : A → Prop) (xss : list (list A)) :
  Forall (Forall P) xss → Forall P (concat xss).
Proof.
  induction 1 as [|xs xss Hxs _ IH]; [constructor|].
  cbn [concat]. now apply Forall_app.
Qed.

Lemma tobytes_read_back xss :
  Forall (λ r, length r = 3%nat) xss →
  Forall (Forall (λ x, F32.valid x = true)) xss →
  chunks 3 (length xss)
    (map Wire.f32_of_bytes (chunks 4 (3 * length xss) (Np.tobytes_f32 xss))) = xss.
Proof.
  intros H3 Hv. unfold Np.tobytes_f32.
  assert (Hlen : length (map Np.f32_bytes (concat xss)) = (3 * length xss)%nat).
  { rewrite length_map, (length_concat_uniform 3) by exact H3. lia. }
  rewrite <- Hlen, chunks_concat_nil.
  - rewrite map_f32_of_bytes_bytes by now apply Forall_concat.
    now apply chunks_concat_nil.
  - apply Forall_map, Forall_forall. intros x _. apply length_f32_bytes.
Qed.

Lemma pack_IB_ok n (b : bool) :
  0 <= n < 2 ^ 32 →
  pack_IB n (if b then 1 else 0)
  = Ok (le_bytes 4 n ++ [byte_of_Z (if b then 1 else 0)]).
Proof.
  intros Hn. unfold pack_IB.
  rewrite (proj2 (Z.leb_le 0 n)), (proj2 (Z.ltb_lt n _)) by lia.
  destruct b; reflexivity.
Qed.

(** ** The layout of the buffer *)

(** The three blocks of the buffer and what each reads back to. *)
Lemma buffer_of_blocks (c : nat) (rows : list (list F32.t)) (has_colors : bool) :
  point_cloud c rows has_colors →
  Z.of_nat (length rows) < 2 ^ 32 →
  let n := length rows in
  ∃ header pos col : list byte,
    buffer_of (Np.A2 c rows) has_colors = Ok (header ++ pos ++ col) ∧
    length header = 5%nat ∧
    le_value (take 4 header) = Z.of_nat n ∧
    Z_of_byte <$> header !! 4%nat = Some (if has_colors then 1 else 0) ∧
    length pos = (12 * n)%nat ∧
    chunks 3 n (map Wire.f32_of_bytes (chunks 4 (3 * n) pos)) = positions rows ∧
    (if has_colors
     then length col = (3 * n)%nat ∧ chunks 3 n col = map (map color_byte) (colors rows)
     else col = []) ∧
    Wire.decode (header ++ pos ++ col)
    = Some {| Wire.dec_positions := positions rows;
              Wire.dec_colors :=
                if has_colors then Some (map (map color_byte) (colors rows)) else None |}.
Proof.
  intros (Hrect & Hc3 & Hc6 & Hvalid) Hn n.
  assert (Hp3 : Forall (λ r, length r = 3%nat) (positions rows)).
  { apply (cols_width 0 3 c); [exact Hrect | lia]. }
  assert (Hpv : Forall (Forall (λ x, F32.valid x = true)) (positions rows)).
  { now apply cols_Forall. }
  assert (Hpn : length (positions rows) = n) by apply length_cols.
  set (header := le_bytes 4 (Z.of_nat n) ++ [byte_of_Z (if has_colors then 1 else 0)]).
  set (pos := Np.tobytes_f32 (positions rows)).
  set (col := if has_colors then concat (map (map color_byte) (colors rows)) else []).
  assert (Hhead4 : take 4 header = le_bytes 4 (Z.of_nat n)).
  { unfold header. now rewrite take_app_length' by now rewrite length_le_bytes. }
  assert (Hflag : header !! 4%nat = Some (byte_of_Z (if has_colors then 1 else 0))).
  { unfold header. rewrite lookup_app_r by now rewrite length_le_bytes.
    now rewrite length_le_bytes. }
  assert (Hflagv : Z_of_byte (byte_of_Z (if has_colors then 1 else 0))
                   = if has_colors then 1 else 0).
  { rewrite Z_of_byte_of_Z. now destruct has_colors. }
  assert (Hlh : length header = 5%nat).
  { unfold header. now rewrite length_app, length_le_bytes. }
  assert (Hlp : length pos = (12 * n)%nat).
  { unfold pos. rewrite (length_tobytes_f32 3) by exact Hp3. rewrite Hpn. lia. }
  assert (Hback : chunks 3 n (map Wire.f32_of_bytes (chunks 4 (3 * n) pos))
                  = positions rows).
  { unfold pos. rewrite <- Hpn. now apply tobytes_read_back. }
  assert (Hcol : has_colors = true →
                 length col = (3 * n)%nat ∧
                 chunks 3 n col = map (map color_byte) (colors rows)).
  { intros ->. unfold col.
    assert (Hc : Forall (λ r, length r = 3%nat) (map (map color_byte) (colors rows))).
    { apply Forall_map. eapply Forall_impl.
      - apply (cols_width 3 6 c); [exact Hrect | now apply Hc6].
      - intros r Hr. simpl. now rewrite length_map. }
    split.
    - rewrite (length_concat_uniform 3) by exact Hc.
      rewrite length_map. unfold colors. rewrite length_cols. lia.
    - replace n with (length (map (map color_byte) (colors rows))).
      + now apply chunks_concat_nil.
      + rewrite length_map. apply length_cols. }
  exists header, pos, col. split_and!.
  - unfold buffer_of. fold n. rewrite pack_IB_ok by lia.
    cbn [mbind result_bind]. fold header. unfold col.
    destruct has_colors; rewrite <- ?app_assoc; [reflexivity|].
    now rewrite app_nil_r.
  - exact Hlh.
  - rewrite Hhead4. apply le_value_le_bytes_4. lia.
  - rewrite Hflag. cbn [fmap option_fmap option_map]. now rewrite Hflagv.
  - exact Hlp.
  - exact Hback.
  - destruct has_colors; [now apply Hcol | reflexivity].
  - unfold Wire.decode.
    rewrite take_app_le by lia. rewrite Hhead4.
    rewrite le_value_le_bytes_4 by lia. rewrite Nat2Z.id.
    rewrite lookup_app_l by lia. rewrite Hflag. cbn [mbind option_bind].
    rewrite drop_app_length' by (symmetry; exact Hlh).
    rewrite take_app_length' by (symmetry; exact Hlp).
    rewrite drop_app_length' by (symmetry; exact Hlp).
    rewrite Hlp, Nat.eqb_refl. cbn [negb].
    rewrite Hback, Hflagv.
    destruct has_colors.
    + destruct Hcol as [Hl Hc]; [reflexivity|].
      cbn [Z.eqb Pos.eqb]. now rewrite Hl, Nat.eqb_refl, Hc.
    + cbn [Z.eqb]. subst col. reflexivity.
Qed.

(** ** Rounding keeps the mantissa within the precision *)

Section RoundBound.
Variables prec emax : Z.
Hypothesis prec_pos : 0 < prec.

Lemma shr_1_m mrs : 0 <= shr_m mrs → shr_m (shr_1 mrs) = Z.div2 (shr_m mrs).
Proof.
  destruct mrs as [m r s]. cbn [shr_m]. intros Hm.
  destruct m as [|p|p]; [reflexivity | destruct p; reflexivity | lia].
Qed.

Lemma iter_shr_1_m p : ∀ mrs,
  0 <= shr_m mrs →
  shr_m (SpecFloat.iter_pos shr_1 p mrs) = shr_m mrs / 2 ^ Z.pos p.
Proof.
  assert (Hhalf : ∀ mrs, 0 <= shr_m mrs → 0 <= shr_m (shr_1 mrs)).
  { intros mrs H. rewrite shr_1_m, Z.div2_div by exact H. apply Z.div_pos; lia. }
  induction p as [p IH|p IH|]; intros mrs Hm; cbn [SpecFloat.iter_pos].
  - assert (H1 : 0 <= shr_m (shr_1 mrs)) by now apply Hhalf.
    assert (H2 : 0 <= shr_m (SpecFloat.iter_pos shr_1 p (shr_1 mrs))).
    { rewrite IH by exact H1. apply Z.div_pos; [exact H1 | apply Z.pow_pos_nonneg; lia]. }
    rewrite IH by exact H2. rewrite IH by exact H1.
    rewrite shr_1_m, Z.div2_div by exact Hm.
    rewrite !Z.div_div by (try apply Z.pow_pos_nonneg; lia).
    f_equal. rewrite Pos2Z.inj_xI.
    replace (2 * Z.pos p + 1) with (1 + Z.pos p + Z.pos p) by lia.
    rewrite !Z.pow_add_r, Z.pow_1_r by lia. lia.
  - assert (H2 : 0 <= shr_m (SpecFloat.iter_pos shr_1 p mrs)).
    { rewrite IH by exact Hm. apply Z.div_pos; [exact Hm | apply Z.pow_pos_nonneg; lia]. }
    rewrite IH by exact H2. rewrite IH by exact Hm.
    rewrite Z.div_div by (try apply Z.pow_pos_nonneg; lia).
    f_equal. rewrite Pos2Z.inj_xO.
    rewrite <- Z.pow_add_r by lia. f_equal. lia.
  - rewrite shr_1_m, Z.div2_div by exact Hm. reflexivity.
Qed.

Lemma Zdigits2_bound m : 0 <= m → 0 <= Zdigits2 m ∧ m < 2 ^ Zdigits2 m.
Proof.
  destruct m as [|p|p]; intros Hm; [simpl; lia | | lia].
  cbn [Zdigits2]. rewrite digits2_pos_size.
  pose proof (pos_size_bounds p). lia.
Qed.

Lemma shr_m_of_loc m l : shr_m (shr_record_of_loc m l) = m.
Proof. destruct l as [|[]]; reflexivity. Qed.

Lemma shr_fexp_bound m e l :
  0 <= m → 0 <= shr_m (fst (shr_fexp prec emax m e l)) < 2 ^ prec.
Proof.
  intros Hm. unfold shr_fexp, shr.
  destruct (Zdigits2_bound m Hm) as [Hd Hlt].
  set (d := Zdigits2 m) in *.
  assert (Hfexp : d + e - prec <= fexp prec emax (d + e)) by (unfold fexp; lia).
  destruct (fexp prec emax (d + e) - e) as [|n|n] eqn:Hn; cbn [fst].
  - rewrite shr_m_of_loc. split; [exact Hm|].
    assert (2 ^ d <= 2 ^ prec) by (apply Z.pow_le_mono_r; lia). lia.
  - rewrite iter_shr_1_m by now rewrite shr_m_of_loc.
    rewrite shr_m_of_loc.
    assert (Hpow : 0 < 2 ^ Z.pos n) by (apply Z.pow_pos_nonneg; lia).
    split; [apply Z.div_pos; lia|].
    apply Z.div_lt_upper_bound; [exact Hpow|].
    rewrite <- Z.pow_add_r by lia.
    assert (2 ^ d <= 2 ^ (Z.pos n + prec)) by (apply Z.pow_le_mono_r; lia). lia.
  - rewrite shr_m_of_loc. split; [exact Hm|].
    assert (2 ^ d <= 2 ^ prec) by (apply Z.pow_le_mono_r; lia). lia.
Qed.

Lemma round_nearest_even_nonneg m l : 0 <= m → 0 <= round_nearest_even m l.
Proof.
  intros Hm. destruct l as [|[]]; cbn [round_nearest_even]; try lia.
  destruct (Z.even m); lia.
Qed.

(** A rounded result is never NaN, and its mantissa has at most [prec]
    bits. *)
Lemma binary_round_aux_shape sx mx ex lx :
  0 <= mx →
  match binary_round_aux prec emax sx mx ex lx with
  | S754_nan => False
  | S754_finite _ m _ => Z.pos m < 2 ^ prec
  | _ => True
  end.
Proof.
  intros Hmx. unfold binary_round_aux.
  pose proof (shr_fexp_bound mx ex lx Hmx) as H1.
  destruct (shr_fexp prec emax mx ex lx) as [mrs' e']. cbn [fst] in H1.
  pose proof (round_nearest_even_nonneg (shr_m mrs') (loc_of_shr_record mrs')
                (proj1 H1)) as H2.
  pose proof (shr_fexp_bound _ e' loc_Exact H2) as H3.
  destruct (shr_fexp prec emax _ e' loc_Exact) as [mrs'' e'']. cbn [fst] in H3.
  destruct (shr_m mrs'') as [|m|m]; [exact I | | lia].
  destruct (e'' <=? emax - prec); [lia | exact I].
Qed.

Lemma SFmul_shape x y :
  x ≠ S754_nan → y ≠ S754_nan → (∃ s m e, y = S754_finite s m e) →
  match SFmul prec emax x y with
  | S754_nan => False
  | S754_finite _ m _ => Z.pos m < 2 ^ prec
  | _ => True
  end.
Proof.
  intros Hx Hy (sy & my & ey & ->).
  destruct x as [sx|sx| |sx mx ex]; cbn [SFmul]; try exact I; [congruence|].
  apply binary_round_aux_shape. lia.
Qed.
End RoundBound.

(** ** Colour bytes *)

Lemma mul255_shape x :
  F32.is_nan x = false →
  match F32.mul x F32.c255 with
  | S754_nan => False
  | S754_finite _ m _ => Z.pos m < 2 ^ 24
  | _ => True
  end.
Proof.
  intros Hx. apply (SFmul_shape 24 128); [lia | | discriminate |].
  - intros ->. discriminate.
  - unfold F32.c255. eauto.
Qed.

Lemma Z_of_byte_small t : 0 <= t < 256 → Z_of_byte (byte_of_Z t) = t.
Proof. intros Ht. rewrite Z_of_byte_of_Z. now apply Z.mod_small. Qed.

(** The integer part of a positive float below 255. *)
Lemma truncates_small m k :
  Z.pos m < 2 ^ 24 →
  (Z.neg k < -16 ∨ (Z.neg k = -16 ∧ Z.pos m < 16711680)) →
  let v := S754_finite false m (Z.neg k) in
  let b := Np.to_uint8 v in
  (0 <= F32.to_Q v <= 255)%Q ∧
  (inject_Z (Z_of_byte b) <= F32.to_Q v < inject_Z (Z_of_byte b + 1))%Q.
Proof.
  intros Hm He v b. subst v b. unfold Np.to_uint8, F32.trunc.
  rewrite Z.shiftl_div_pow2 by lia.
  change (- Z.neg k) with (Z.pos k).
  assert (HD : 2 ^ 16 <= 2 ^ Z.pos k) by (apply Z.pow_le_mono_r; lia).
  assert (HD' : Z.neg k < -16 → 2 ^ 17 <= 2 ^ Z.pos k)
    by (intros; apply Z.pow_le_mono_r; lia).
  assert (Hk16 : Z.neg k = -16 → 2 ^ Z.pos k = 2 ^ 16).
  { intros H. f_equal. lia. }
  set (D := 2 ^ Z.pos k) in *.
  change (2 ^ 16) with 65536 in *. change (2 ^ 17) with 131072 in *.
  change (2 ^ 24) with 16777216 in *.
  assert (Hle : Z.pos m <= 255 * D) by (destruct He as [He|[He ?]]; [specialize (HD' He)|]; lia).
  pose proof (Z.mul_div_le (Z.pos m) D) as H1.
  pose proof (Z.mul_succ_div_gt (Z.pos m) D) as H2.
  assert (Ht : 0 <= Z.pos m / D <= 255).
  { split; [apply Z.div_pos; lia | apply Z.div_le_upper_bound; lia]. }
  rewrite Z_of_byte_small by lia.
  unfold F32.to_Q, Qle, Qlt. cbn [Qnum Qden inject_Z].
  rewrite Pos2Z.inj_pow. fold D. lia.
Qed.

Lemma floor_of_zero : floor_of F32.zero.
Proof. repeat split; vm_compute; congruence. Qed.

Lemma floor_of_c255 : floor_of F32.c255.
Proof. repeat split; vm_compute; congruence. Qed.

Lemma ltb_finite_pos m e M E :
  F32.ltb (S754_finite false m e) (S754_finite false M E) = true →
  e < E ∨ (e = E ∧ Z.pos m < Z.pos M).
Proof.
  unfold F32.ltb, SFltb. cbn [SFcompare].
  destruct (Z.compare_spec e E) as [He|He|He]; [|now left|discriminate].
  destruct (Pos.compare_cont Eq m M) eqn:Hc; try discriminate.
  intros _. right. split; [exact He|]. apply Pos2Z.pos_lt_pos. exact Hc.
Qed.

(** The clamp of a value that is not NaN is 0, 255, or the value itself
    when it is positive and below 255. *)
Lemma clip_cases p :
  F32.is_nan p = false →
  let v := Np.clip F32.zero F32.c255 p in
  v = F32.zero ∨ v = F32.c255 ∨
  ∃ m e, p = S754_finite false m e ∧ v = p ∧
         (e < -16 ∨ (e = -16 ∧ Z.pos m < 16711680)).
Proof.
  intros Hp v. subst v. unfold Np.clip. rewrite Hp.
  destruct p as [s|s| |s m e]; try discriminate.
  - left. destruct s; reflexivity.
  - destruct s; [left; reflexivity | right; left; reflexivity].
  - destruct s; [left; reflexivity|].
    replace (F32.ltb F32.zero (S754_finite false m e)) with true by reflexivity.
    cbn [F32.is_nan].
    destruct (F32.ltb (S754_finite false m e) F32.c255) eqn:Hlt.
    + right. right. exists m, e. split; [reflexivity|]. split; [reflexivity|].
      exact (ltb_finite_pos m e _ _ Hlt).
    + right. left. reflexivity.
Qed.

Lemma color_byte_truncates x : truncates x (color_byte x).
Proof.
  intros Hnan. unfold color_byte. fold (floor_of (Np.clip F32.zero F32.c255 (F32.mul x F32.c255))).
  pose proof (mul255_shape x Hnan) as Hp.
  assert (Hpn : F32.is_nan (F32.mul x F32.c255) = false).
  { destruct (F32.mul x F32.c255); [reflexivity | reflexivity | contradiction | reflexivity]. }
  destruct (clip_cases _ Hpn) as [Hv|[Hv|(m & e & Hpe & Hv & He)]]; rewrite Hv.
  - exact floor_of_zero.
  - exact floor_of_c255.
  - rewrite Hpe in Hp |- *.
    destruct e as [|k|k]; try lia.
    now apply truncates_small.
Qed.

(** ** The float comparison is a total preorder away from NaN *)

Ltac sf_destruct x := destruct x as [[]|[]| |[] ? ?].

Ltac sf_compare :=
  repeat match goal with
    | H : context [Pos.compare_cont Eq ?a ?b] |- _ =>
        change (Pos.compare_cont Eq a b) with (Pos.compare a b) in H
    | |- context [Pos.compare_cont Eq ?a ?b] =>
        change (Pos.compare_cont Eq a b) with (Pos.compare a b)
    end;
  repeat match goal with
    | H : context [Z.compare ?a ?b] |- _ => destruct (Z.compare_spec a b)
    | |- context [Z.compare ?a ?b] => destruct (Z.compare_spec a b)
    | H : context [Pos.compare ?a ?b] |- _ => destruct (Pos.compare_spec a b)
    | |- context [Pos.compare ?a ?b] => destruct (Pos.compare_spec a b)
    end;
  cbn in *; try congruence; try lia.

Lemma leb_refl x : F32.is_nan x = false → F32.leb x x = true.
Proof.
  unfold F32.leb, SFleb. sf_destruct x; cbn; try congruence; intros _; sf_compare.
Qed.

Lemma leb_total x y :
  F32.is_nan x = false → F32.is_nan y = false →
  F32.leb x y = true ∨ F32.leb y x = true.
Proof.
  unfold F32.leb, SFleb. sf_destruct x; sf_destruct y; cbn; try congruence;
    intros _ _; try (now left); try (now right); sf_compare;
    try (now left); try (now right).
Qed.

Lemma leb_trans x y z :
  F32.leb x y = true → F32.leb y z = true → F32.leb x z = true.
Proof.
  unfold F32.leb, SFleb.
  sf_destruct x; sf_destruct y; cbn; try congruence;
    sf_destruct z; cbn; try congruence; intros H1 H2; sf_compare.
Qed.

Lemma leb_not_nan x y : F32.leb x y = true → F32.is_nan x = false ∧ F32.is_nan y = false.
Proof.
  unfold F32.leb, SFleb. sf_destruct x; sf_destruct y; cbn; try congruence; auto.
Qed.

Lemma ltb_leb_trans x y z :
  F32.ltb x y = true → F32.leb y z = true → F32.ltb x z = true.
Proof.
  unfold F32.leb, F32.ltb, SFleb, SFltb.
  sf_destruct x; sf_destruct y; cbn; try congruence;
    sf_destruct z; cbn; try congruence; intros H1 H2; sf_compare.
Qed.

Lemma leb_not_ltb x y : F32.leb x y = true → F32.ltb y x = false.
Proof.
  unfold F32.leb, F32.ltb, SFleb, SFltb.
  sf_destruct x; sf_destruct y; cbn; try congruence; intros H; sf_compare.
Qed.

Lemma ltb_leb x y : F32.ltb x y = true → F32.leb x y = true.
Proof.
  unfold F32.leb, F32.ltb, SFleb, SFltb.
  sf_destruct x; sf_destruct y; cbn; try congruence; intros H; sf_compare.
Qed.

Lemma not_ltb_leb x y :
  F32.is_nan x = false → F32.is_nan y = false →
  F32.ltb x y = false → F32.leb y x = true.
Proof.
  unfold F32.leb, F32.ltb, SFleb, SFltb.
  sf_destruct x; sf_destruct y; cbn; try congruence; intros _ _ H; sf_compare.
Qed.

(** ** Reductions pick the extreme element *)

Lemma fold_minimum_spec xs : ∀ acc,
  F32.is_nan acc = false → no_nan xs →
  let r := fold_left Np.minimum xs acc in
  (r = acc ∨ r ∈ xs) ∧ F32.leb r acc = true ∧ ∀ x, x ∈ xs → F32.leb r x = true.
Proof.
  induction xs as [|y ys IH]; intros acc Hacc Hxs; cbn [fold_left].
  - split; [now left|]. split; [now apply leb_refl|]. intros x Hx. inversion Hx.
  - apply Forall_cons in Hxs as [Hy Hys]. cbn beta in Hy.
    assert (Hm : Np.minimum acc y = if F32.ltb acc y then acc else y)
      by (unfold Np.minimum; now rewrite Hacc, orb_false_r).
    rewrite Hm. clear Hm. destruct (F32.ltb acc y) eqn:Hlt.
    + apply ltb_leb in Hlt as Hle.
      destruct (IH acc Hacc Hys) as (Hin & Hr & Hall).
      split; [destruct Hin; [now left | right; now constructor]|].
      split; [exact Hr|]. intros x Hx. apply elem_of_cons in Hx as [->|Hx].
      * eapply leb_trans; eassumption.
      * now apply Hall.
    + pose proof (not_ltb_leb acc y Hacc Hy Hlt) as Hya.
      destruct (IH y Hy Hys) as (Hin & Hr & Hall).
      split; [right; destruct Hin as [->|Hin]; [now left | now right]|].
      split; [eapply leb_trans; eassumption|].
      intros x Hx. apply elem_of_cons in Hx as [->|Hx]; [exact Hr | now apply Hall].
Qed.

Lemma fold_maximum_spec xs : ∀ acc,
  F32.is_nan acc = false → no_nan xs →
  let r := fold_left Np.maximum xs acc in
  (r = acc ∨ r ∈ xs) ∧ F32.leb acc r = true ∧ ∀ x, x ∈ xs → F32.leb x r = true.
Proof.
  induction xs as [|y ys IH]; intros acc Hacc Hxs; cbn [fold_left].
  - split; [now left|]. split; [now apply leb_refl|]. intros x Hx. inversion Hx.
  - apply Forall_cons in Hxs as [Hy Hys]. cbn beta in Hy.
    assert (Hm : Np.maximum acc y = if F32.ltb y acc then acc else y)
      by (unfold Np.maximum; now rewrite Hacc, orb_false_r).
    rewrite Hm. clear Hm. destruct (F32.ltb y acc) eqn:Hlt.
    + apply ltb_leb in Hlt as Hle.
      destruct (IH acc Hacc Hys) as (Hin & Hr & Hall).
      split; [destruct Hin; [now left | right; now constructor]|].
      split; [exact Hr|]. intros x Hx. apply elem_of_cons in Hx as [->|Hx].
      * eapply leb_trans; eassumption.
      * now apply Hall.
    + pose proof (not_ltb_leb y acc Hy Hacc Hlt) as Hay.
      destruct (IH y Hy Hys) as (Hin & Hr & Hall).
      split; [right; destruct Hin as [->|Hin]; [now left | now right]|].
      split; [eapply leb_trans; eassumption|].
      intros x Hx. apply elem_of_cons in Hx as [->|Hx]; [exact Hr | now apply Hall].
Qed.

Lemma reduce_minimum_least xs :
  xs ≠ [] → no_nan xs →
  ∃ m, Np.reduce "minimum" Np.minimum xs = Ok m ∧ least m xs.
Proof.
  destruct xs as [|x xs]; [congruence|]. intros _ Hnn.
  apply Forall_cons in Hnn as [Hx Hxs]. cbn beta in Hx.
  destruct (fold_minimum_spec xs x Hx Hxs) as (Hin & Hr & Hall).
  eexists. split; [reflexivity|]. split.
  - destruct Hin as [->|Hin]; [now left | now right].
  - intros y Hy. apply elem_of_cons in Hy as [->|Hy]; [exact Hr | now apply Hall].
Qed.

Lemma reduce_maximum_greatest xs :
  xs ≠ [] → no_nan xs →
  ∃ m, Np.reduce "maximum" Np.maximum xs = Ok m ∧ greatest m xs.
Proof.
  destruct xs as [|x xs]; [congruence|]. intros _ Hnn.
  apply Forall_cons in Hnn as [Hx Hxs]. cbn beta in Hx.
  destruct (fold_maximum_spec xs x Hx Hxs) as (Hin & Hr & Hall).
  eexists. split; [reflexivity|]. split.
  - destruct Hin as [->|Hin]; [now left | now right].
  - intros y Hy. apply elem_of_cons in Hy as [->|Hy]; [exact Hr | now apply Hall].
Qed.

(** ** Columns of a table *)

Lemma column_cons j r rows x :
  r !! j = Some x → Np.column j (r :: rows) = x :: Np.column j rows.
Proof. intros H. unfold Np.column. cbn [omap list_omap]. now rewrite H. Qed.

Lemma column_nonempty j k rows :
  Forall (λ r, length r = k) rows → (j < k)%nat → rows ≠ [] →
  Np.column j rows ≠ [].
Proof.
  intros Hk Hj Hne. destruct rows as [|r rows]; [congruence|].
  apply Forall_cons in Hk as [Hr _]. cbn beta in Hr.
  destruct (lookup_lt_is_Some_2 r j) as [x Hx]; [lia|].
  now rewrite (column_cons j r rows x Hx).
Qed.

Lemma column_no_nan j rows :
  Forall no_nan rows → no_nan (Np.column j rows).
Proof.
  unfold no_nan. induction 1 as [|r rows Hr _ IH]; [constructor|].
  unfold Np.column. cbn [omap list_omap].
  destruct (r !! j) as [x|] eqn:Hx; [|exact IH].
  constructor; [|exact IH].
  eapply Forall_lookup_1 in Hr; [exact Hr | exact Hx].
Qed.

(** ** What the readers return *)

Lemma mapM_result_length {A B} (f : A → result B) xs ys :
  mapM_result f xs = Ok ys → length ys = length xs.
Proof.
  revert ys. induction xs as [|x xs IH]; intros ys; cbn [mapM_result].
  - intros [= <-]. reflexivity.
  - destruct (f x) as [y|e]; cbn [mbind result_bind]; [|discriminate].
    destruct (mapM_result f xs) as [ys'|e]; cbn [mbind result_bind]; [|discriminate].
    intros [= <-]. cbn [length]. now rewrite (IH ys').
Qed.

Lemma read_rows_some lines : ∀ k rows,
  Np.read_rows lines (Some k) = Ok rows → Forall (λ r, length r = k) rows.
Proof.
  induction lines as [|l lines IH]; intros k rows; cbn [Np.read_rows].
  - intros [= <-]. constructor.
  - destruct (Np.fields l) as [|tok toks]; [apply IH|].
    destruct (mapM_result Np.field (tok :: toks)) as [row|e];
      cbn [mbind result_bind]; [|discriminate].
    cbn [default from_option id]. case_bool_decide as Hk; [|discriminate].
    destruct (Np.read_rows lines (Some (length row))) as [rows'|e] eqn:Hr;
      cbn [mbind result_bind]; [|discriminate].
    intros [= <-]. constructor; [now symmetry|].
    rewrite Hk. now apply IH.
Qed.

Lemma read_rows_none lines : ∀ rows,
  Np.read_rows lines None = Ok rows →
  match rows with
  | [] => True
  | r :: _ => Forall (λ r', length r' = length r) rows
  end.
Proof.
  induction lines as [|l lines IH]; intros rows; cbn [Np.read_rows].
  - intros [= <-]. exact I.
  - destruct (Np.fields l) as [|tok toks]; [apply IH|].
    destruct (mapM_result Np.field (tok :: toks)) as [row|e];
      cbn [mbind result_bind]; [|discriminate].
    cbn [default from_option id]. rewrite bool_decide_eq_true_2 by reflexivity.
    destruct (Np.read_rows lines (Some (length row))) as [rows'|e] eqn:Hr;
      cbn [mbind result_bind]; [|discriminate].
    intros [= <-]. constructor; [reflexivity|].
    now apply read_rows_some in Hr.
Qed.

Lemma squeeze_rows_shape rows c out :
  match rows with
  | [] => True
  | r :: _ => Forall (λ r', length r' = length r) rows
  end →
  Np.squeeze_rows rows = Np.A2 c out → out ≠ [] ∧ Np.rectangular c out.
Proof.
  intros Hrect. unfold Np.squeeze_rows.
  destruct rows as [|r [|r2 rows]]; [intros [=] | |].
  - destruct r as [|x [|y r]]; intros [=].
  - destruct r as [|x0 [|y0 r0]]; cbn beta iota;
      (destruct (Nat.eqb _ 1); [intros [=]|];
       intros [= <- <-]; split; [discriminate | exact Hrect]).
Qed.

Lemma asarray_f32_width v : Forall (λ r, length r = 3%nat) (asarray_f32 v).
Proof.
  unfold asarray_f32. apply Forall_map, Forall_forall.
  intros [[a b] c] _. reflexivity.
Qed.

Lemma zip_app_width (xs ys : list (list F32.t)) a b :
  Forall (λ r, length r = a) xs → Forall (λ r, length r = b) ys →
  Forall (λ r, length r = (a + b)%nat) (zip_with app xs ys).
Proof.
  intros Hx. revert ys. induction Hx as [|x xs Hx _ IH]; intros ys Hy; [constructor|].
  destruct Hy as [|y ys Hy Hys]; [constructor|].
  cbn [zip_with]. constructor; [rewrite length_app; lia | now apply IH].
Qed.

(** Whatever reader supplies it, a 2-D table has at least one row, and all
    its rows have the announced number of columns. *)
Lemma read_data_shape fs path c rows :
  read_data fs path = Some (Np.A2 c rows) → rows ≠ [] ∧ Np.rectangular c rows.
Proof.
  assert (Hxyz : _load_xyz fs path = Some (Np.A2 c rows) →
                 rows ≠ [] ∧ Np.rectangular c rows).
  { unfold _load_xyz, Np.loadtxt.
    destruct (file_text <$> fs !! path) as [lines|]; [|intros [=]].
    destruct (Np.read_rows lines None) as [tbl|e] eqn:Hread;
      cbn [mbind result_bind except_none]; [|intros [=]].
    apply read_rows_none in Hread.
    destruct (Np.squeeze_rows tbl) as [x|xs|c' out] eqn:Hs; cbn [except_none].
    - intros [=].
    - unfold Np.reshape_1_row. intros [= <- <-]. split; [discriminate|].
      constructor; [reflexivity | constructor].
    - intros [= <- <-]. eapply squeeze_rows_shape; eassumption. }
  assert (Ho3d : _try_open3d fs path = Some (Np.A2 c rows) →
                 rows ≠ [] ∧ Np.rectangular c rows).
  { unfold _try_open3d.
    destruct (fs !! path) as [f|]; cbn [mbind option_bind]; [|intros [=]].
    destruct (file_o3d f) as [pcd|]; cbn [mbind option_bind]; [|intros [=]].
    pose proof (asarray_f32_width (o3d_points pcd)) as Hp.
    pose proof (asarray_f32_width (o3d_colors pcd)) as Hc.
    destruct (asarray_f32 (o3d_points pcd)) as [|p pts] eqn:Hpts; [intros [=]|].
    cbn [length Nat.eqb].
    destruct (asarray_f32 (o3d_colors pcd)) as [|q cols]; cbn [length Nat.eqb].
    - intros [= <- <-]. split; [discriminate | exact Hp].
    - destruct (Nat.eqb (length cols) (length pts)); intros [= <- <-].
      + split; [discriminate|].
        exact (zip_app_width (p :: pts) (q :: cols) 3 3 Hp Hc).
      + split; [discriminate | exact Hp]. }
  unfold read_data.
  destruct (bool_decide _); [|exact Hxyz].
  destruct (_try_open3d fs path) as [d|] eqn:Ho; [|exact Hxyz].
  intros [= ->]. now apply Ho3d.
Qed.

(** ** Slices of the normalised table *)

Lemma colors_cols_0_6 rows : colors (Np.cols 0 6 rows) = colors rows.
Proof.
  unfold colors, Np.cols. rewrite map_map. apply map_ext. intros r.
  cbn [Nat.sub]. rewrite drop_0. change 6%nat with (3 + 3)%nat.
  rewrite <- take_drop_commute. rewrite take_take. reflexivity.
Qed.

Lemma positions_cols_0_6 rows : positions (Np.cols 0 6 rows) = positions rows.
Proof.
  unfold positions, Np.cols. rewrite map_map. apply map_ext. intros r.
  cbn [Nat.sub]. rewrite !drop_0. rewrite take_take. reflexivity.
Qed.

Lemma positions_div255 c rows :
  Np.rectangular c rows → (6 ≤ c)%nat →
  positions (div255_colors rows) = positions rows.
Proof.
  unfold positions, Np.cols, div255_colors, Np.rectangular. intros Hrect Hc.
  rewrite map_map. apply map_ext_Forall.
  eapply Forall_impl; [exact Hrect|]. intros r Hr. cbn beta in *.
  cbn [Nat.sub]. rewrite !drop_0. rewrite take_app_length'; [reflexivity|].
  rewrite length_take. lia.
Qed.

Lemma colors_div255 c rows :
  Np.rectangular c rows → (6 ≤ c)%nat →
  colors (div255_colors rows)
  = map (map (λ v, F32.div v F32.c255)) (colors rows).
Proof.
  unfold colors, Np.cols, div255_colors, Np.rectangular. intros Hrect Hc.
  rewrite !map_map. apply map_ext_Forall.
  eapply Forall_impl; [exact Hrect|]. intros r Hr. cbn beta in *.
  cbn [Nat.sub]. rewrite drop_app_length' by (rewrite length_take; lia).
  rewrite take_app_length'; [reflexivity|].
  rewrite length_map, length_take, length_drop. lia.
Qed.

Lemma colors_nonempty c rows :
  rows ≠ [] → Np.rectangular c rows → (6 ≤ c)%nat → concat (colors rows) ≠ [].
Proof.
  intros Hne Hrect Hc. destruct rows as [|r rows]; [congruence|].
  apply Forall_cons in Hrect as [Hr _]. cbn beta in Hr.
  unfold colors, Np.cols. cbn [map concat Nat.sub].
  intros Habs. apply (f_equal length) in Habs.
  rewrite length_app, length_take, length_drop in Habs. cbn [length] in Habs. lia.
Qed.

(** The colour decision of [normalize]: scale exactly when the maximum of
    all colour samples is above 1.5. *)
Lemma normalize_colors c rows m :
  (6 ≤ c)%nat → Np.max_all (Np.cols 3 6 rows) = Ok m →
  normalize (Np.A2 c rows)
  = Ok (Np.A2 6 (Np.cols 0 6 (if F32.ltb F32.c1_5 m then div255_colors rows else rows)),
        true).
Proof.
  intros Hc Hm. unfold normalize.
  rewrite bool_decide_eq_true_2 by exact Hc. rewrite Hm.
  cbn [mbind result_bind]. unfold Np.slice.
  replace (Nat.min 6 c - 0)%nat with 6%nat by lia. reflexivity.
Qed.

(** ** images.txt *)

Lemma skip_is_not_qualifying line :
  _COMMENT_match line || negb (Py.truthy (Py.strip line)) = negb (qualifying line).
Proof. unfold qualifying. now destruct (_COMMENT_match line), (Py.truthy _). Qed.

Lemma int_of_opt t v : Py.int_opt t = Some v → Py.int t = Ok v.
Proof. unfold Py.int. now intros ->. Qed.

Lemma float_of_opt t v : Py.float_opt true t = Some v → Py.float t = Ok v.
Proof. unfold Py.float. now intros ->. Qed.

Lemma bind_token_some {A} line i (f : string → option A) v :
  token line i ≫= f = Some v →
  ∃ t, parts_of line !! i = Some t ∧ f t = Some v.
Proof.
  unfold token. destruct (parts_of line !! i) as [t|]; [|discriminate].
  cbn [mbind option_bind]. eauto.
Qed.

(** A described line has its ten tokens and converts to the record. *)
Lemma describes_parse line img :
  describes line img →
  (10 ≤ length (parts_of line))%nat ∧ image_of_parts (parts_of line) = Ok img.
Proof.
  intros (H0 & H1 & H2 & H3 & H4 & H5 & H6 & H7 & H8 & H9 & Hroom).
  apply bind_token_some in H0 as (t0 & L0 & C0), H1 as (t1 & L1 & C1),
    H2 as (t2 & L2 & C2), H3 as (t3 & L3 & C3), H4 as (t4 & L4 & C4),
    H5 as (t5 & L5 & C5), H6 as (t6 & L6 & C6), H7 as (t7 & L7 & C7),
    H8 as (t8 & L8 & C8).
  unfold token in H9. split.
  - apply lookup_lt_Some in H9. lia.
  - unfold image_of_parts, Py.index.
    rewrite L0, L1, L2, L3, L4, L5, L6, L7, L8, H9. cbn [mbind result_bind].
    rewrite (int_of_opt _ _ C0), (float_of_opt _ _ C1), (float_of_opt _ _ C2),
      (float_of_opt _ _ C3), (float_of_opt _ _ C4), (float_of_opt _ _ C5),
      (float_of_opt _ _ C6), (float_of_opt _ _ C7), (int_of_opt _ _ C8).
    cbn [mbind result_bind].
    destruct img as [i c n [w x y z] [tx ty tz] room]. cbn in Hroom. now subst room.
Qed.

Lemma images_loop_short line rest images :
  (length (parts_of line) < 10)%nat →
  images_loop (line :: rest) images = images_loop rest images.
Proof.
  intros Hshort. cbn [images_loop].
  now rewrite bool_decide_eq_true_2 by exact Hshort.
Qed.

Lemma images_loop_pair odd even rest images img :
  describes odd img →
  images_loop (odd :: even :: rest) images = images_loop rest (images ++ [img]).
Proof.
  intros Hd. apply describes_parse in Hd as [Hlen Hparse].
  cbn [images_loop]. rewrite bool_decide_eq_false_2 by lia.
  rewrite Hparse. reflexivity.
Qed.

(** The loop consumes well-formed pairs two lines at a time and appends
    their records in order. *)
Lemma images_loop_pairs pairs : ∀ imgs rest images,
  Forall2 describes pairs.*1 imgs →
  images_loop (pair_lines pairs ++ rest) images = images_loop rest (images ++ imgs).
Proof.
  induction pairs as [|[odd even] pairs IH]; intros imgs rest images Hd.
  - apply Forall2_nil_inv_l in Hd as ->. cbn. now rewrite app_nil_r.
  - cbn [fmap list_fmap fst] in Hd.
    apply Forall2_cons_inv_l in Hd as (img & imgs' & Himg & Hd & ->).
    cbn [pair_lines flat_map app fst snd].
    change (flat_map (λ p : string * string, [p.1; p.2]) pairs) with (pair_lines pairs).
    rewrite (images_loop_pair odd even _ images img Himg).
    rewrite (IH imgs' rest _ Hd). now rewrite <- app_assoc.
Qed.

Lemma images_loop_nil images : images_loop [] images = Ok images.
Proof. reflexivity. Qed.

Lemma qualifying_lines_app f g :
  qualifying_lines (f ++ g) = qualifying_lines f ++ qualifying_lines g.
Proof. unfold qualifying_lines. apply filter_app. Qed.

Lemma qualifying_lines_cons line f :
  qualifying line = true → qualifying_lines (line :: f) = line :: qualifying_lines f.
Proof. intros H. unfold qualifying_lines. now rewrite filter_cons_True. Qed.

(** ** The workspace dictionary *)

Lemma load_images_entry ws f imgs r :
  ws !! "images.txt" = Some f → parse_images_txt f = Ok imgs →
  load_colmap_workspace ws = Ok r → r !! "images" = Some (Images imgs).
Proof.
  intros Hf Hp. unfold load_colmap_workspace. rewrite Hf, Hp.
  destruct (ws !! "cameras.txt") as [fc|];
    [destruct (parse_cameras_txt fc) as [cs|e]|]; cbn [mbind result_bind];
    try discriminate;
    (destruct (ws !! "points3D.txt") as [fp|];
     [destruct (parse_points3d_txt fp) as [ps|e]|]; cbn [mbind result_bind];
     try discriminate; intros [= <-]);
    rewrite ?lookup_insert_ne by discriminate; apply lookup_insert_eq.
Qed.

Lemma load_images_only ws f imgs :
  ws !! "cameras.txt" = None → ws !! "images.txt" = Some f →
  ws !! "points3D.txt" = None → parse_images_txt f = Ok imgs →
  load_colmap_workspace ws = Ok {[ "images" := Images imgs ]}.
Proof.
  intros Hc Hf Hpt Hp. unfold load_colmap_workspace.
  rewrite Hc, Hf, Hpt, Hp. reflexivity.
Qed.

(** ** Bounds *)

Lemma reduce_axis0_3 op f tbl a b c :
  tbl ≠ [] →
  Np.reduce op f (Np.column 0 tbl) = Ok a →
  Np.reduce op f (Np.column 1 tbl) = Ok b →
  Np.reduce op f (Np.column 2 tbl) = Ok c →
  Np.reduce_axis0 op f 3 tbl = Ok [a; b; c].
Proof.
  intros Hne Ha Hb Hc. unfold Np.reduce_axis0.
  destruct tbl as [|r tbl]; [congruence|].
  cbn [seq mapM_result]. rewrite Ha, Hb, Hc. reflexivity.
Qed.

(** The record [info_of] builds for a table with rows: the extreme values
    of the three position columns, widened to Python floats. *)
Lemma info_of_bounds path c rows has_colors :
  rows ≠ [] → Np.rectangular c rows → (3 ≤ c)%nat →
  Forall no_nan (positions rows) →
  ∃ x0 y0 z0 x1 y1 z1,
    info_of path (Np.A2 c rows) has_colors
    = Ok {| pci_file := path;
            pci_num_points := Z.of_nat (length rows);
            pci_bounds_min :=
              {| vx := F32.to_f64 x0; vy := F32.to_f64 y0; vz := F32.to_f64 z0 |};
            pci_bounds_max :=
              {| vx := F32.to_f64 x1; vy := F32.to_f64 y1; vz := F32.to_f64 z1 |};
            pci_has_colors := has_colors;
            pci_has_normals := false |} ∧
    least x0 (Np.column 0 (positions rows)) ∧
    least y0 (Np.column 1 (positions rows)) ∧
    least z0 (Np.column 2 (positions rows)) ∧
    greatest x1 (Np.column 0 (positions rows)) ∧
    greatest y1 (Np.column 1 (positions rows)) ∧
    greatest z1 (Np.column 2 (positions rows)).
Proof.
  intros Hne Hrect Hc Hnn.
  assert (Hw : Forall (λ r, length r = 3%nat) (positions rows)).
  { apply (cols_width 0 3 c); [exact Hrect | lia]. }
  assert (Hpne : positions rows ≠ []).
  { intros Habs. apply (f_equal length) in Habs.
    unfold positions in Habs. rewrite length_cols in Habs.
    destruct rows; [congruence | discriminate]. }
  assert (Hcol : ∀ j, (j < 3)%nat →
            Np.column j (positions rows) ≠ [] ∧ no_nan (Np.column j (positions rows))).
  { intros j Hj. split; [now apply (column_nonempty j 3) | now apply column_no_nan]. }
  destruct (Hcol 0%nat) as [N0 M0]; [lia|].
  destruct (Hcol 1%nat) as [N1 M1]; [lia|].
  destruct (Hcol 2%nat) as [N2 M2]; [lia|].
  destruct (reduce_minimum_least _ N0 M0) as (x0 & Ex0 & Lx0).
  destruct (reduce_minimum_least _ N1 M1) as (y0 & Ey0 & Ly0).
  destruct (reduce_minimum_least _ N2 M2) as (z0 & Ez0 & Lz0).
  destruct (reduce_maximum_greatest _ N0 M0) as (x1 & Ex1 & Gx1).
  destruct (reduce_maximum_greatest _ N1 M1) as (y1 & Ey1 & Gy1).
  destruct (reduce_maximum_greatest _ N2 M2) as (z1 & Ez1 & Gz1).
  exists x0, y0, z0, x1, y1, z1. split_and!; try assumption.
  unfold info_of. replace (Nat.min 3 c) with 3%nat by lia.
  fold (positions rows).
  rewrite (reduce_axis0_3 _ _ _ x0 y0 z0 Hpne Ex0 Ey0 Ez0).
  rewrite (reduce_axis0_3 _ _ _ x1 y1 z1 Hpne Ex1 Ey1 Ez1).
  reflexivity.
Qed.

Lemma info_of_no_rows path c has_colors :
  info_of path (Np.A2 c []) has_colors = Err (ValueError_reduce "minimum").
Proof. reflexivity. Qed.

Lemma Forall2_map_self {A B} (P : A → B → Prop) (f : A → B) xs :
  (∀ x, P x (f x)) → Forall2 P xs (map f xs).
Proof. intros H. induction xs; constructor; auto. Qed.

(** ** Conversions of tokens *)

Lemma converts_int t : converts AnInt t = true → ∃ v, Py.int t = Ok v.
Proof.
  cbn [converts]. intros H. apply bool_decide_eq_true_1 in H as [v Hv].
  exists v. now apply int_of_opt.
Qed.

Lemma converts_float t : converts AFloat t = true → ∃ v, Py.float t = Ok v.
Proof.
  cbn [converts]. intros H. apply bool_decide_eq_true_1 in H as [v Hv].
  exists v. now apply float_of_opt.
Qed.

Lemma fails_int t : converts AnInt t = false → Py.int t = Err (ValueError_int t).
Proof.
  cbn [converts]. intros H. apply bool_decide_eq_false_1 in H.
  unfold Py.int. destruct (Py.int_opt t) as [v|]; [|reflexivity].
  exfalso. apply H. eauto.
Qed.

Lemma fails_float t : converts AFloat t = false → Py.float t = Err (ValueError_float t).
Proof.
  cbn [converts]. intros H. apply bool_decide_eq_false_1 in H.
  unfold Py.float. destruct (Py.float_opt true t) as [v|]; [|reflexivity].
  exfalso. apply H. eauto.
Qed.

Lemma int_outcome t : (∃ v, Py.int t = Ok v) ∨ Py.int t = Err (ValueError_int t).
Proof. unfold Py.int. destruct (Py.int_opt t); eauto. Qed.

Lemma float_outcome t : (∃ v, Py.float t = Ok v) ∨ Py.float t = Err (ValueError_float t).
Proof. unfold Py.float. destruct (Py.float_opt true t); eauto. Qed.

Lemma mapM_float_ok ps :
  (∀ t, t ∈ ps → converts AFloat t = true) → ∃ vs, mapM_result Py.float ps = Ok vs.
Proof.
  induction ps as [|p ps IH]; intros H; [now exists []|].
  destruct (converts_float p) as [v Hv]; [apply H; now left|].
  destruct IH as [vs Hvs]; [intros t Ht; apply H; now right|].
  exists (v :: vs). cbn [mapM_result]. now rewrite Hv, Hvs.
Qed.

Lemma mapM_float_err ps e :
  mapM_result Py.float ps = Err e → ∃ tok, e = ValueError_float tok.
Proof.
  induction ps as [|p ps IH]; cbn [mapM_result]; [intros [=]|].
  destruct (float_outcome p) as [[v Hv]|Hv]; rewrite Hv; cbn [mbind result_bind].
  - destruct (mapM_result Py.float ps) as [vs|e']; cbn [mbind result_bind];
      intros [=]. subst e'. now apply IH.
  - intros [= <-]. eauto.
Qed.

Lemma mapM_float_first_bad ps : ∀ i tok,
  ps !! i = Some tok → converts AFloat tok = false →
  (∀ j t, (j < i)%nat → ps !! j = Some t → converts AFloat t = true) →
  mapM_result Py.float ps = Err (ValueError_float tok).
Proof.
  induction ps as [|p ps IH]; intros i tok Hi Hbad Hprev; [discriminate|].
  cbn [mapM_result]. destruct i as [|i].
  - injection Hi as ->. now rewrite (fails_float tok Hbad).
  - destruct (converts_float p) as [v Hv]; [apply (Hprev 0%nat); [lia | reflexivity]|].
    rewrite Hv. cbn [mbind result_bind].
    rewrite (IH i tok Hi Hbad); [reflexivity|].
    intros j t Hj Ht. apply (Hprev (S j)); [lia | exact Ht].
Qed.

(** ** cameras.txt *)

Lemma camera_of_parts_4 t0 t1 t2 t3 ps :
  camera_of_parts (t0 :: t1 :: t2 :: t3 :: ps)
  = (id ← Py.int t0; width ← Py.int t2; height ← Py.int t3;
     params ← mapM_result Py.float ps;
     Ok {| cam_id := id; cam_model := t1; cam_width := width;
           cam_height := height; cam_params := params |}).
Proof. reflexivity. Qed.

(** With four tokens on the line, a failure is a failed conversion. *)
Lemma camera_of_parts_err parts e :
  (4 ≤ length parts)%nat → camera_of_parts parts = Err e →
  ∃ tok, e = ValueError_int tok ∨ e = ValueError_float tok.
Proof.
  intros Hlen.
  destruct parts as [|t0 [|t1 [|t2 [|t3 ps]]]]; cbn [length] in Hlen; try lia.
  rewrite camera_of_parts_4.
  destruct (int_outcome t0) as [[v0 H0]|H0]; rewrite H0; cbn [mbind result_bind];
    [|intros [= <-]; eauto].
  destruct (int_outcome t2) as [[v2 H2]|H2]; rewrite H2; cbn [mbind result_bind];
    [|intros [= <-]; eauto].
  destruct (int_outcome t3) as [[v3 H3]|H3]; rewrite H3; cbn [mbind result_bind];
    [|intros [= <-]; eauto].
  destruct (mapM_result Py.float ps) as [vs|e'] eqn:Hps; cbn [mbind result_bind];
    intros [=]. subst e'.
  destruct (mapM_float_err ps e Hps) as [tok ->]. eauto.
Qed.

Lemma camera_of_parts_ok parts :
  (4 ≤ length parts)%nat → numeric_tokens CamerasTxt parts →
  ∃ cam, camera_of_parts parts = Ok cam.
Proof.
  intros Hlen Hnum.
  destruct parts as [|t0 [|t1 [|t2 [|t3 ps]]]]; cbn [length] in Hlen; try lia.
  rewrite camera_of_parts_4.
  destruct (converts_int t0) as [v0 H0]; [exact (Hnum 0%nat t0 AnInt eq_refl eq_refl)|].
  destruct (converts_int t2) as [v2 H2]; [exact (Hnum 2%nat t2 AnInt eq_refl eq_refl)|].
  destruct (converts_int t3) as [v3 H3]; [exact (Hnum 3%nat t3 AnInt eq_refl eq_refl)|].
  destruct (mapM_float_ok ps) as [vs Hvs].
  { intros t Ht. apply list_elem_of_lookup in Ht as [j Hj].
    exact (Hnum (4 + j)%nat t AFloat Hj eq_refl). }
  rewrite H0, H2, H3, Hvs. cbn [mbind result_bind]. eauto.
Qed.

Lemma cameras_loop_skip line rest cameras :
  qualifying line = false →
  cameras_loop (line :: rest) cameras = cameras_loop rest cameras.
Proof.
  intros Hq. cbn [cameras_loop]. now rewrite skip_is_not_qualifying, Hq.
Qed.

Lemma cameras_loop_step line rest cameras :
  qualifying line = true →
  cameras_loop (line :: rest) cameras
  = (cam ← camera_of_parts (parts_of line); cameras_loop rest (cameras ++ [cam])).
Proof.
  intros Hq. cbn [cameras_loop]. now rewrite skip_is_not_qualifying, Hq.
Qed.

Lemma cameras_loop_err lines : ∀ cameras e,
  four_tokens lines → cameras_loop lines cameras = Err e →
  ∃ tok, e = ValueError_int tok ∨ e = ValueError_float tok.
Proof.
  induction lines as [|line lines IH]; intros cameras e Hfour; [intros [=]|].
  apply Forall_cons in Hfour as [Hline Hfour]. cbn beta in Hline.
  destruct (qualifying line) eqn:Hq.
  - rewrite (cameras_loop_step _ _ _ Hq).
    destruct (camera_of_parts (parts_of line)) as [cam|e'] eqn:Hcam;
      cbn [mbind result_bind].
    + now apply IH.
    + intros [= <-]. eapply camera_of_parts_err; [|exact Hcam]. now apply Hline.
  - rewrite (cameras_loop_skip _ _ _ Hq). now apply IH.
Qed.

Lemma cameras_loop_ok lines : ∀ cameras,
  four_tokens lines →
  Forall (λ l, qualifying l = true → numeric_tokens CamerasTxt (parts_of l)) lines →
  ∃ cams, cameras_loop lines cameras = Ok (cameras ++ cams) ∧
          length cams = length (qualifying_lines lines).
Proof.
  induction lines as [|line lines IH]; intros cameras Hfour Hnum.
  - exists []. split; [cbn; now rewrite app_nil_r | reflexivity].
  - apply Forall_cons in Hfour as [Hline Hfour]. cbn beta in Hline.
    apply Forall_cons in Hnum as [Hn Hnum]. cbn beta in Hn.
    destruct (qualifying line) eqn:Hq.
    + rewrite (cameras_loop_step _ _ _ Hq).
      destruct (camera_of_parts_ok (parts_of line)) as [cam Hcam]; [auto | auto |].
      rewrite Hcam. cbn [mbind result_bind].
      destruct (IH (cameras ++ [cam]) Hfour Hnum) as (cams & Hloop & Hlen).
      exists (cam :: cams). rewrite Hloop, <- app_assoc. split; [reflexivity|].
      rewrite (qualifying_lines_cons _ _ Hq). cbn [length]. now rewrite Hlen.
    + rewrite (cameras_loop_skip _ _ _ Hq).
      destruct (IH cameras Hfour Hnum) as (cams & Hloop & Hlen).
      exists cams. split; [exact Hloop|].
      unfold qualifying_lines. rewrite filter_cons_False by now rewrite Hq.
      exact Hlen.
Qed.

(** ** The first token that does not convert decides the error *)

(** The conversions before column [i] succeed ([Hprev]), the one in
    column [i] fails ([Hbad]): walk the binds of a record in order. *)
Ltac column_ok Hprev :=
  match goal with
  | |- converts ?k ?t = true =>
      first [ exact (Hprev 0%nat t k ltac:(lia) eq_refl eq_refl)
            | exact (Hprev 1%nat t k ltac:(lia) eq_refl eq_refl)
            | exact (Hprev 2%nat t k ltac:(lia) eq_refl eq_refl)
            | exact (Hprev 3%nat t k ltac:(lia) eq_refl eq_refl)
            | exact (Hprev 4%nat t k ltac:(lia) eq_refl eq_refl)
            | exact (Hprev 5%nat t k ltac:(lia) eq_refl eq_refl)
            | exact (Hprev 6%nat t k ltac:(lia) eq_refl eq_refl)
            | exact (Hprev 7%nat t k ltac:(lia) eq_refl eq_refl) ]
  end.

Ltac walk_columns int_ok float_ok int_bad float_bad Hprev Hbad :=
  cbn [lookup list_lookup mbind result_bind];
  repeat match goal with
    | |- context [Py.int ?t] =>
        let H := fresh "C" in
        destruct (int_ok t) as [? H];
        [column_ok Hprev | rewrite H; cbn [mbind result_bind]]
    | |- context [Py.float ?t] =>
        let H := fresh "C" in
        destruct (float_ok t) as [? H];
        [column_ok Hprev | rewrite H; cbn [mbind result_bind]]
    end;
  first [rewrite (int_bad _ Hbad) | rewrite (float_bad _ Hbad)];
  reflexivity.

(** Name the tokens up to the one [Hi] points at. *)
Ltac open_parts Hi parts :=
  repeat (destruct parts as [|? parts];
          [cbn [lookup list_lookup] in Hi; discriminate Hi|];
          cbn [lookup list_lookup] in Hi);
  injection Hi as ->.

Lemma first_bad_camera parts i tok n :
  first_bad_token CamerasTxt parts i tok n →
  record_outcome CamerasTxt parts = Err (conversion_error n tok).
Proof.
  intros (Hi & Hexp & Hbad & Hprev). unfold record_outcome.
  destruct i as [|[|[|[|i]]]]; cbn in Hexp; try discriminate;
    injection Hexp as <-.
  1-3: open_parts Hi parts; unfold camera_of_parts, Py.index;
       walk_columns converts_int converts_float fails_int fails_float Hprev Hbad.
  destruct parts as [|t0 [|t1 [|t2 [|t3 ps]]]]; try discriminate.
  rewrite camera_of_parts_4.
  destruct (converts_int t0) as [v0 ->]; [column_ok Hprev|].
  destruct (converts_int t2) as [v2 ->]; [column_ok Hprev|].
  destruct (converts_int t3) as [v3 ->]; [column_ok Hprev|].
  cbn [mbind result_bind].
  rewrite (mapM_float_first_bad ps i tok Hi Hbad); [reflexivity|].
  intros j t Hj Ht. apply (Hprev (4 + j)%nat t AFloat); [lia | exact Ht | reflexivity].
Qed.

Lemma first_bad_image parts i tok n :
  first_bad_token ImagesTxt parts i tok n →
  record_outcome ImagesTxt parts = Err (conversion_error n tok).
Proof.
  intros (Hi & Hexp & Hbad & Hprev). unfold record_outcome.
  destruct i as [|[|[|[|[|[|[|[|[|i]]]]]]]]]; cbn in Hexp; try discriminate;
    injection Hexp as <-;
    open_parts Hi parts; unfold image_of_parts, Py.index;
    walk_columns converts_int converts_float fails_int fails_float Hprev Hbad.
Qed.

Lemma first_bad_point parts i tok n :
  first_bad_token Points3DTxt parts i tok n →
  record_outcome Points3DTxt parts = Err (conversion_error n tok).
Proof.
  intros (Hi & Hexp & Hbad & Hprev). unfold record_outcome.
  destruct i as [|[|[|[|[|[|[|[|i]]]]]]]]; cbn in Hexp; try discriminate;
    injection Hexp as <-;
    open_parts Hi parts; unfold point_of_parts, Py.index;
    walk_columns converts_int converts_float fails_int fails_float Hprev Hbad.
Qed.

(** ** A failed line aborts its file, a failed file aborts the load *)

Lemma outcome_err {A} (m : result A) e : (_ ← m; Ok ()) = Err e → m = Err e.
Proof. destruct m; cbn [mbind result_bind]; [intros [=] | now intros [= ->]]. Qed.

Lemma outcome_ok {A} (m : result A) u : (_ ← m; Ok ()) = Ok u → ∃ a, m = Ok a.
Proof. destruct m; cbn [mbind result_bind]; [eauto | intros [=]]. Qed.

Lemma cameras_loop_app pre : ∀ rest cameras,
  cameras_loop (pre ++ rest) cameras
  = (cams ← cameras_loop pre cameras; cameras_loop rest cams).
Proof.
  induction pre as [|line pre IH]; intros rest cameras; [reflexivity|].
  cbn [app cameras_loop].
  destruct (_COMMENT_match line || negb (Py.truthy (Py.strip line))); [apply IH|].
  destruct (camera_of_parts (parts_of line)); cbn [mbind result_bind];
    [apply IH | reflexivity].
Qed.

Lemma points_loop_app pre : ∀ rest points,
  points_loop (pre ++ rest) points
  = (pts ← points_loop pre points; points_loop rest pts).
Proof.
  induction pre as [|line pre IH]; intros rest points; [reflexivity|].
  cbn [app points_loop].
  destruct (_COMMENT_match line || negb (Py.truthy (Py.strip line))); [apply IH|].
  destruct (point_of_parts (parts_of line)); cbn [mbind result_bind];
    [apply IH | reflexivity].
Qed.

Lemma points_loop_step line rest points :
  qualifying line = true →
  points_loop (line :: rest) points
  = (pt ← point_of_parts (parts_of line); points_loop rest (points ++ [pt])).
Proof.
  intros Hq. cbn [points_loop]. now rewrite skip_is_not_qualifying, Hq.
Qed.

(** The file stops at the line whose conversion fails. *)
Lemma file_stops k pre line post e :
  lines_before_parse k pre → qualifying line = true →
  enough_tokens k (parts_of line) →
  record_outcome k (parts_of line) = Err e →
  parse_outcome k (pre ++ line :: post) = Err e.
Proof.
  intros Hpre Hq Hten Hrec. destruct k; cbn [lines_before_parse enough_tokens] in *;
    unfold record_outcome in Hrec; apply outcome_err in Hrec; unfold parse_outcome.
  - destruct Hpre as [cs Hcs]. unfold parse_cameras_txt in *.
    rewrite cameras_loop_app, Hcs. cbn [mbind result_bind].
    rewrite (cameras_loop_step _ _ _ Hq), Hrec. reflexivity.
  - destruct Hpre as (pairs & imgs & Hpairs & Hd). unfold parse_images_txt.
    fold (qualifying_lines (pre ++ line :: post)).
    rewrite qualifying_lines_app, Hpairs, (qualifying_lines_cons _ _ Hq).
    rewrite (images_loop_pairs pairs imgs _ [] Hd).
    cbn [images_loop]. rewrite bool_decide_eq_false_2 by lia.
    rewrite Hrec. reflexivity.
  - destruct Hpre as [ps Hps]. unfold parse_points3d_txt in *.
    rewrite points_loop_app, Hps. cbn [mbind result_bind].
    rewrite (points_loop_step _ _ _ Hq), Hrec. reflexivity.
Qed.

(** A file that fails aborts the load with its error, whatever the files
    after it hold. *)
Lemma load_aborts ws k f e :
  ws !! file_name k = Some f → earlier_files_parse k ws →
  parse_outcome k f = Err e → load_colmap_workspace ws = Err e.
Proof.
  intros Hf Hearlier Hp. unfold load_colmap_workspace.
  destruct k; cbn [file_name earlier_files_parse parse_outcome] in *;
    apply outcome_err in Hp.
  - rewrite Hf, Hp. reflexivity.
  - unfold parses in Hearlier. cbn [file_name parse_outcome] in Hearlier.
    destruct (ws !! "cameras.txt") as [fc|].
    + destruct Hearlier as [u Hu]. apply outcome_ok in Hu as [cs ->].
      cbn [mbind result_bind]. rewrite Hf, Hp. reflexivity.
    + cbn [mbind result_bind]. rewrite Hf, Hp. reflexivity.
  - destruct Hearlier as [Hc Hi]. unfold parses in Hc, Hi.
    cbn [file_name parse_outcome] in Hc, Hi.
    destruct (ws !! "cameras.txt") as [fc|];
      [destruct Hc as [u Hu]; apply outcome_ok in Hu as [cs ->]|];
      cbn [mbind result_bind];
      (destruct (ws !! "images.txt") as [fi|];
       [destruct Hi as [u' Hu']; apply outcome_ok in Hu' as [ims ->]|];
       cbn [mbind result_bind]; rewrite Hf, Hp; reflexivity).
Qed.

Lemma first_bad_outcome k parts i tok n :
  first_bad_token k parts i tok n →
  record_outcome k parts = Err (conversion_error n tok).
Proof.
  destruct k; [apply first_bad_camera | apply first_bad_image | apply first_bad_point].
Qed.

(** Where the load stops, it stops with the error of the conversion. *)
Lemma stops_with_conversion_error ws k pre line post i tok n :
  stops_at ws k pre line post i tok n →
  load_colmap_workspace ws = Err (conversion_error n tok).
Proof.
  intros (Hf & Hearlier & Hpre & Hq & Hten & Hbad).
  apply (load_aborts ws k _ _ Hf Hearlier).
  apply file_stops; try assumption.
  now apply (first_bad_outcome k _ i).
Qed.

(** * Main results *)

(** C1.  For a point cloud of [N < 2^32] points the encoder returns a
    5-byte header (the count as a little-endian unsigned 32-bit integer,
    then the colour flag 0 or 1), followed by exactly [12 N] position
    bytes that read back, as little-endian float32 triples, to the
    original positions, followed by [3 N] colour bytes when colours are
    present and by nothing otherwise; reading the buffer by the layout
    table reconstructs the positions exactly. *)
Theorem encode_layout (c : nat) (rows : list (list F32.t)) (has_colors : bool) :
  point_cloud c rows has_colors →
  Z.of_nat (length rows) < 2 ^ 32 →
  let n := length rows in
  ∃ header pos col : list byte,
    buffer_of (Np.A2 c rows) has_colors = Ok (header ++ pos ++ col) ∧
    length header = 5%nat ∧
    le_value (take 4 header) = Z.of_nat n ∧
    Z_of_byte <$> header !! 4%nat = Some (if has_colors then 1 else 0) ∧
    length pos = (12 * n)%nat ∧
    chunks 3 n (map Wire.f32_of_bytes (chunks 4 (3 * n) pos)) = positions rows ∧
    (if has_colors
     then length col = (3 * n)%nat ∧ chunks 3 n col = map (map color_byte) (colors rows)
     else col = []) ∧
    Wire.decode (header ++ pos ++ col)
    = Some {| Wire.dec_positions := positions rows;
              Wire.dec_colors :=
                if has_colors then Some (map (map color_byte) (colors rows)) else None |}.
Proof. exact (buffer_of_blocks c rows has_colors). Qed.

Lemma encode_layout_witness :
  ∃ buf, buffer_of (Np.A2 6 sample_rows) true = Ok buf ∧ length buf = 20%nat ∧
         Wire.decode buf
         = Some {| Wire.dec_positions := positions sample_rows;
                   Wire.dec_colors := Some (map (map color_byte) (colors sample_rows)) |}.
Proof.
  assert (Hpc : point_cloud 6 sample_rows true).
  { split_and!; [repeat constructor | lia | intros; lia | repeat constructor]. }
  destruct (encode_layout 6 sample_rows true Hpc)
    as (h & p & c & Hb & Hh & _ & _ & Hp & _ & Hc & Hd); [simpl; lia|].
  exists (h ++ p ++ c). split; [exact Hb|]. split; [|exact Hd].
  rewrite !length_app, Hh, Hp. destruct Hc as [-> _]. reflexivity.
Defined.

(** C2, as stated, fails: the colour 0.25 is sent as byte 63, the integer
    part of 63.75, while the nearest integer is 64. *)
Lemma color_byte_not_rounded :
  load_point_cloud sample_fs "quarter.xyz"
  = Ok (Np.A2 6 [[F32.zero; F32.zero; F32.zero; f32_quarter; f32_quarter; f32_quarter]],
        true) ∧
  (∃ buf, to_binary_buffer sample_fs "quarter.xyz" = Ok buf ∧
          Z_of_byte <$> drop 17 buf = [63; 63; 63]) ∧
  Z_of_byte (color_byte f32_quarter) = 63 ∧
  ¬ rounds_to_nearest f32_quarter (color_byte f32_quarter) ∧
  nearest_int (clamp_0_255 (F32.to_Q f32_quarter * 255)) 64.
Proof.
  split_and!.
  - vm_compute. reflexivity.
  - eexists. split; vm_compute; reflexivity.
  - vm_compute. reflexivity.
  - unfold rounds_to_nearest, nearest_int. intros H. vm_compute in H. now apply H.
  - unfold nearest_int. vm_compute. discriminate.
Qed.

(** C2, amended.  For a point cloud with colours, the colour block of the
    buffer holds, for every channel that is not NaN, the integer part of
    the float32 product colour * 255 clamped to 0..255: the value is
    truncated, not rounded to nearest. *)
Theorem color_bytes_truncate (c : nat) (rows : list (list F32.t)) :
  point_cloud c rows true →
  Z.of_nat (length rows) < 2 ^ 32 →
  ∃ buf, buffer_of (Np.A2 c rows) true = Ok buf ∧
         Forall2 (Forall2 truncates) (colors rows)
           (chunks 3 (length rows) (drop (5 + 12 * length rows) buf)).
Proof.
  intros Hpc Hn.
  destruct (buffer_of_blocks c rows true Hpc Hn)
    as (h & p & col & Hb & Hh & _ & _ & Hp & _ & [_ Hc] & _).
  exists (h ++ p ++ col). split; [exact Hb|].
  rewrite app_assoc, drop_app_length' by (rewrite length_app; lia).
  rewrite Hc. apply Forall2_map_self. intros r.
  apply Forall2_map_self. apply color_byte_truncates.
Qed.

Lemma color_bytes_truncate_witness :
  ∃ buf, buffer_of (Np.A2 6 sample_rows) true = Ok buf ∧
         Forall2 (Forall2 truncates) (colors sample_rows)
           (chunks 3 1 (drop 17 buf)).
Proof.
  apply (color_bytes_truncate 6 sample_rows).
  - split_and!; [repeat constructor | lia | intros; lia | repeat constructor].
  - simpl. lia.
Defined.

(** C4: a colour sample of 510 is divided by 255 and comes out as 2.0,
    above 1; the docstring of [load_point_cloud] promises the 0-1 range. *)
Theorem colors_leave_unit_range :
  load_point_cloud sample_fs "bright.xyz"
  = Ok (Np.A2 6 [[F32.of_Z 1; F32.of_Z 2; F32.of_Z 3; f32_two; F32.zero; F32.zero]],
        true) ∧
  F32.ltb F32.one f32_two = true.
Proof. split; vm_compute; reflexivity. Qed.

(** C5: with a NaN among the colour samples the maximum is NaN, the test
    [max > 1.5] is false, and the value 200, which exceeds 1.5, is
    returned as it is, with [has_colors] true, instead of divided by 255:
    neither the 0-1 range the docstring of [load_point_cloud] promises nor
    the normalisation its comment announces. *)
Theorem nan_blocks_scaling :
  read_data sample_fs "nan.xyz"
  = Some (Np.A2 6 [[F32.zero; F32.zero; F32.zero; S754_nan; f32_200; F32.of_Z 100]]) ∧
  load_point_cloud sample_fs "nan.xyz"
  = Ok (Np.A2 6 [[F32.zero; F32.zero; F32.zero; S754_nan; f32_200; F32.of_Z 100]],
        true) ∧
  F32.ltb F32.c1_5 f32_200 = true ∧
  F32.div f32_200 F32.c255 ≠ f32_200.
Proof. split_and!; try (vm_compute; reflexivity). vm_compute. discriminate. Qed.

(** X30.  For a table with colour columns read from a file: if every
    colour sample is at most 1.5, [load_point_cloud] returns the colours
    (and positions) unchanged; if no sample is NaN and some sample exceeds
    1.5, every colour channel of every point is divided by 255 and the
    positions are unchanged.  The decision is taken once, on the maximum
    over all samples. *)
Theorem color_threshold (fs : gmap string file) (path : string) (c : nat)
    (rows : list (list F32.t)) :
  read_data fs path = Some (Np.A2 c rows) →
  (6 ≤ c)%nat →
  let samples := concat (colors rows) in
  ((∀ x, x ∈ samples → F32.leb x F32.c1_5 = true) →
   ∃ out, load_point_cloud fs path = Ok (Np.A2 6 out, true) ∧
          colors out = colors rows ∧ positions out = positions rows) ∧
  (no_nan samples → (∃ x, x ∈ samples ∧ F32.ltb F32.c1_5 x = true) →
   ∃ out, load_point_cloud fs path = Ok (Np.A2 6 out, true) ∧
          colors out = map (map (λ v, F32.div v F32.c255)) (colors rows) ∧
          positions out = positions rows).
Proof.
  intros Hread Hc samples.
  destruct (read_data_shape fs path c rows Hread) as [Hne Hrect].
  pose proof (colors_nonempty c rows Hne Hrect Hc) as Hsne.
  unfold load_point_cloud. rewrite Hread.
  split.
  - intros Hall.
    assert (Hnn : no_nan samples).
    { apply Forall_forall. intros x Hx. now apply (leb_not_nan x F32.c1_5), Hall. }
    destruct (reduce_maximum_greatest samples Hsne Hnn) as (m & Hm & Hin & _).
    rewrite (normalize_colors c rows m Hc Hm).
    rewrite (leb_not_ltb m F32.c1_5) by now apply Hall.
    eexists. split; [reflexivity|].
    split; [apply colors_cols_0_6 | apply positions_cols_0_6].
  - intros Hnn (x & Hx & Hgt).
    destruct (reduce_maximum_greatest samples Hsne Hnn) as (m & Hm & _ & Hge).
    rewrite (normalize_colors c rows m Hc Hm).
    rewrite (ltb_leb_trans F32.c1_5 x m Hgt) by now apply Hge.
    eexists. split; [reflexivity|].
    rewrite colors_cols_0_6, positions_cols_0_6.
    split; [now apply (colors_div255 c) | now apply (positions_div255 c)].
Qed.

Lemma color_threshold_witness :
  ∃ out, load_point_cloud sample_fs "a.xyz" = Ok (Np.A2 6 out, true) ∧
         colors out
         = [ [F32.one; F32.zero; S754_finite false 13421773 (-26)];
             [F32.zero; F32.zero; F32.zero] ].
Proof.
  destruct (proj2 (color_threshold sample_fs "a.xyz" 6
              [ [F32.of_Z 1; F32.of_Z 2; F32.of_Z 3; F32.c255; F32.zero; F32.of_Z 51];
                [F32.of_Z 4; F32.of_Z 5; F32.of_Z 6; F32.zero; F32.zero; F32.zero] ]
              eq_refl (le_n 6)))
    as (out & Hload & Hcol & _).
  - repeat constructor.
  - exists F32.c255. split; [|reflexivity]. repeat constructor.
  - exists out. split; [exact Hload|]. rewrite Hcol. reflexivity.
Defined.

(** Pairs with a track line that the filter keeps.  When the lines of
    [images.txt] that are neither comments nor blank are K pairs whose odd
    lines carry the ten tokens of a pose with convertible numbers, the
    parse returns exactly the K described records, in file order, and the
    workspace load stores them under ["images"]. *)
Lemma images_in_file_order (ws : gmap string (list string)) (f : list string)
    (pairs : list (string * string)) (imgs : list ColmapImage) :
  ws !! "images.txt" = Some f →
  qualifying_lines f = pair_lines pairs →
  Forall2 describes pairs.*1 imgs →
  parse_images_txt f = Ok imgs ∧
  length imgs = length pairs ∧
  (∀ r, load_colmap_workspace ws = Ok r → r !! "images" = Some (Images imgs)) ∧
  (ws !! "cameras.txt" = None → ws !! "points3D.txt" = None →
   load_colmap_workspace ws = Ok {[ "images" := Images imgs ]}).
Proof.
  intros Hws Hq Hd.
  assert (Hp : parse_images_txt f = Ok imgs).
  { unfold parse_images_txt. fold (qualifying_lines f). rewrite Hq.
    rewrite <- (app_nil_r (pair_lines pairs)).
    rewrite (images_loop_pairs pairs imgs [] [] Hd). reflexivity. }
  split_and!.
  - exact Hp.
  - apply Forall2_length in Hd. rewrite length_fmap in Hd. now symmetry.
  - intros r Hr. eapply load_images_entry; eassumption.
  - intros Hc Hpt. exact (load_images_only ws f imgs Hc Hws Hpt Hp).
Qed.

Lemma images_in_file_order_witness :
  parse_images_txt sample_images = Ok [sample_pose_7; sample_pose_8].
Proof.
  refine (proj1 (images_in_file_order {[ "images.txt" := sample_images ]} sample_images
            [ ("7 1 0 0 0 0 0 0 3 frame007.jpg", "10.5 20.5 -1");
              ("8 0.5 0.5 0.5 0.5 1 2 3 3 frame008.jpg", "1 2 3 4 5 6 7 8 9 10 11 12") ]
            [sample_pose_7; sample_pose_8] eq_refl eq_refl _)).
  repeat constructor.
Defined.

Lemma images_loop_single odd images img :
  describes odd img → images_loop [odd] images = Ok (images ++ [img]).
Proof.
  intros Hd. apply describes_parse in Hd as [Hlen Hparse].
  cbn [images_loop]. rewrite bool_decide_eq_false_2 by lia.
  rewrite Hparse. reflexivity.
Qed.

(** Pose lines that follow one another: the loop converts the first of
    every two and steps over the second as if it were a track line. *)
Lemma images_loop_every_other n : ∀ odds imgs images,
  (length odds ≤ n)%nat → Forall2 describes odds imgs →
  images_loop odds images = Ok (images ++ every_other imgs).
Proof.
  induction n as [|n IH]; intros odds imgs images Hn Hd.
  - destruct odds; [|cbn [length] in Hn; lia].
    inversion Hd. cbn. now rewrite app_nil_r.
  - destruct Hd as [|o1 i1 odds imgs H1 Hd]; [cbn; now rewrite app_nil_r|].
    destruct Hd as [|o2 i2 odds imgs H2 Hd].
    + now apply images_loop_single.
    + rewrite (images_loop_pair o1 o2 odds images i1 H1).
      cbn [length] in Hn. rewrite (IH odds imgs _ ltac:(lia) Hd).
      cbn [every_other]. now rewrite <- app_assoc.
Qed.

Lemma qualifying_lines_blank_tracks pairs :
  Forall (λ p : string * string, qualifying p.1 = true ∧ qualifying p.2 = false) pairs →
  qualifying_lines (pair_lines pairs) = pairs.*1.
Proof.
  induction 1 as [|[odd even] pairs [Ho He] _ IH]; [reflexivity|].
  cbn [fst snd] in Ho, He. cbn [pair_lines flat_map app fst snd fmap list_fmap].
  change (flat_map (λ p : string * string, [p.1; p.2]) pairs) with (pair_lines pairs).
  rewrite (qualifying_lines_cons _ _ Ho).
  unfold qualifying_lines at 1. rewrite filter_cons_False by now rewrite He.
  fold (qualifying_lines (pair_lines pairs)). now rewrite IH.
Qed.

Lemma length_every_other {A} (l : list A) n :
  (length l ≤ n)%nat → (2 * length (every_other l) ≤ length l + 1)%nat.
Proof.
  revert l. induction n as [|n IH]; intros l Hn.
  - destruct l; [cbn; lia | cbn [length] in Hn; lia].
  - destruct l as [|x [|y l]]; [cbn; lia | cbn; lia |].
    cbn [length] in Hn. specialize (IH l ltac:(lia)).
    cbn [every_other length]. lia.
Qed.

(** C6.  An image without 2-D points has an empty track line.  The filter
    of [parse_images_txt] drops blank lines before the lines are paired,
    so in a file whose K images all have an empty (or blank) track line
    the pose lines follow one another: the loop converts the first of
    every two and steps over the second as if it were the track line.
    The parse, and the workspace load, return every other record, fewer
    than K as soon as K is 2. *)
Theorem blank_track_lines_drop_images (ws : gmap string (list string))
    (pairs : list (string * string)) (imgs : list ColmapImage) :
  ws !! "images.txt" = Some (pair_lines pairs) →
  Forall (λ p : string * string, qualifying p.1 = true ∧ qualifying p.2 = false) pairs →
  Forall2 describes pairs.*1 imgs →
  parse_images_txt (pair_lines pairs) = Ok (every_other imgs) ∧
  (∀ r, load_colmap_workspace ws = Ok r →
        r !! "images" = Some (Images (every_other imgs))) ∧
  ((2 ≤ length pairs)%nat → (length (every_other imgs) < length pairs)%nat).
Proof.
  intros Hws Hq Hd.
  assert (Hp : parse_images_txt (pair_lines pairs) = Ok (every_other imgs)).
  { unfold parse_images_txt. fold (qualifying_lines (pair_lines pairs)).
    rewrite (qualifying_lines_blank_tracks pairs Hq).
    now rewrite (images_loop_every_other _ _ imgs [] (Nat.le_refl _) Hd). }
  split_and!.
  - exact Hp.
  - intros r Hr. eapply load_images_entry; eassumption.
  - intros Hk. apply Forall2_length in Hd. rewrite length_fmap in Hd.
    pose proof (length_every_other imgs _ (Nat.le_refl _)). lia.
Qed.

Lemma blank_track_lines_drop_images_witness :
  parse_images_txt (pair_lines untracked_pairs) = Ok [sample_pose_7] ∧
  (length [sample_pose_7] < length untracked_pairs)%nat.
Proof.
  destruct (blank_track_lines_drop_images
              {[ "images.txt" := pair_lines untracked_pairs ]}
              untracked_pairs [sample_pose_7; sample_pose_8])
    as (Hp & _ & Hk).
  - vm_compute. reflexivity.
  - repeat constructor.
  - repeat constructor.
  - split; [exact Hp|]. apply Hk. cbn. lia.
Defined.

(** C7.  An odd line with fewer than ten tokens is skipped: the loop goes
    on with the very next line and the records built so far, no record is
    added and nothing is raised; so a file that starts with such a line
    parses as the file without it, and after K well-formed pairs the parse
    continues with the line that follows the short one. *)
Theorem short_image_line_skipped (line : string) (rest : list string)
    (images : list ColmapImage) :
  (length (parts_of line) < 10)%nat →
  images_loop (line :: rest) images = images_loop rest images ∧
  (qualifying line = true →
   parse_images_txt (line :: rest) = parse_images_txt rest ∧
   ∀ pre pairs imgs,
     qualifying_lines pre = pair_lines pairs →
     Forall2 describes pairs.*1 imgs →
     parse_images_txt (pre ++ line :: rest)
     = images_loop (qualifying_lines rest) imgs).
Proof.
  intros Hshort. split; [now apply images_loop_short|].
  intros Hq. split.
  - unfold parse_images_txt. fold (qualifying_lines (line :: rest)).
    rewrite (qualifying_lines_cons line rest Hq).
    now apply images_loop_short.
  - intros pre pairs imgs Hpre Hd. unfold parse_images_txt.
    fold (qualifying_lines (pre ++ line :: rest)).
    rewrite qualifying_lines_app, Hpre, (qualifying_lines_cons line rest Hq).
    rewrite (images_loop_pairs pairs imgs _ [] Hd).
    now apply images_loop_short.
Qed.

Lemma short_image_line_skipped_witness :
  parse_images_txt ("7 1 0 0 0" :: sample_images) = parse_images_txt sample_images.
Proof.
  refine (proj1 (proj2 (short_image_line_skipped "7 1 0 0 0" sample_images [] _) eq_refl)).
  vm_compute. lia.
Defined.

(** C9: an empty file is read by [np.loadtxt] as an empty array, which
    [_load_xyz] reshapes to one row without columns; nothing is raised and
    the encoder announces one point.  A file that is not there does raise,
    and the Open3D reader does return [None] for a cloud without
    points. *)
Theorem empty_file_loads :
  load_point_cloud sample_fs "empty.xyz" = Ok (Np.A2 0 [[]], false) ∧
  load_point_cloud sample_fs "missing.xyz" = Err (ValueError_load "missing.xyz") ∧
  to_binary_buffer sample_fs "empty.xyz" = Ok (byte_of_Z <$> [1; 0; 0; 0; 0]) ∧
  _try_open3d
    {[ "empty.ply" := {| file_text := [];
                          file_o3d := Some {| o3d_points := []; o3d_colors := [] |} |} ]}
    "empty.ply" = None.
Proof. split_and!; vm_compute; reflexivity. Qed.

(** C8, as stated, fails in its second half: the error raised is the
    conversion's own [ValueError], which carries the token and nothing
    else.  The same error comes from line 0 and from line 1 of
    [cameras.txt], and from [points3D.txt], so neither the file nor the
    line can be read off it. *)
Lemma error_does_not_locate :
  load_colmap_workspace {[ "cameras.txt" := ["abc PINHOLE 1 1"] ]}
  = Err (ValueError_int "abc") ∧
  load_colmap_workspace {[ "cameras.txt" := ["# Camera list"; "abc PINHOLE 1 1"] ]}
  = Err (ValueError_int "abc") ∧
  load_colmap_workspace {[ "points3D.txt" := ["abc 1 2 3 4 5 6 7"] ]}
  = Err (ValueError_int "abc") ∧
  ¬ ∃ locate, error_locates locate.
Proof.
  split; [vm_compute; reflexivity|].
  split; [vm_compute; reflexivity|].
  split; [vm_compute; reflexivity|].
  intros [locate H].
  assert (Hbad : first_bad_token CamerasTxt (parts_of "abc PINHOLE 1 1") 0 "abc" AnInt).
  { split; [reflexivity|]. split; [reflexivity|]. split; [reflexivity|].
    intros j t n' Hj. lia. }
  destruct (H {[ "cameras.txt" := ["abc PINHOLE 1 1"] ]} CamerasTxt
              [] "abc PINHOLE 1 1" [] 0%nat "abc" AnInt) as (e1 & L1 & E1).
  { split; [reflexivity|]. split; [exact I|]. split; [now exists []|].
    split; [reflexivity|]. split; [exact I | exact Hbad]. }
  destruct (H {[ "cameras.txt" := ["# Camera list"; "abc PINHOLE 1 1"] ]} CamerasTxt
              ["# Camera list"] "abc PINHOLE 1 1" [] 0%nat "abc" AnInt)
    as (e2 & L2 & E2).
  { split; [reflexivity|]. split; [exact I|]. split; [now exists []|].
    split; [reflexivity|]. split; [exact I | exact Hbad]. }
  vm_compute in L1, L2. injection L1 as <-. injection L2 as <-.
  rewrite E1 in E2. discriminate.
Qed.

(** C8, amended.  When the load reaches a line of one of the three files
    (a line with ten tokens, for [images.txt]) that holds a non-numeric
    token where an int or a float is expected, the whole workspace load
    aborts, without a result, with the [ValueError] of the first
    conversion that fails; that error carries the offending token, and
    neither the file nor the line. *)
Theorem bad_token_aborts_load (ws : gmap string (list string)) (k : colmap_file)
    (pre : list string) (line : string) (post : list string)
    (i : nat) (tok : string) (n : numeric) :
  stops_at ws k pre line post i tok n →
  load_colmap_workspace ws = Err (conversion_error n tok).
Proof. apply stops_with_conversion_error. Qed.

Lemma bad_token_aborts_load_witness :
  load_colmap_workspace {[ "cameras.txt" := bad_cameras ]} = Err (ValueError_int "4x0").
Proof.
  apply (bad_token_aborts_load {[ "cameras.txt" := bad_cameras ]} CamerasTxt
           ["# Camera list"] "3 PINHOLE 640 4x0 500.0" [] 3 "4x0" AnInt).
  split; [vm_compute; reflexivity|]. split; [exact I|].
  split; [exists []; vm_compute; reflexivity|].
  split; [vm_compute; reflexivity|]. split; [exact I|].
  split; [vm_compute; reflexivity|]. split; [reflexivity|].
  split; [vm_compute; reflexivity|].
  intros j t n' Hj Ht Hn.
  change (parts_of "3 PINHOLE 640 4x0 500.0")
    with ["3"; "PINHOLE"; "640"; "4x0"; "500.0"] in Ht.
  destruct j as [|[|[|j]]]; try lia; cbn in Ht, Hn;
    injection Ht as <-; try discriminate; injection Hn as <-;
    vm_compute; reflexivity.
Defined.

(** C10, as stated, fails in "the parse succeeds": a line with four
    tokens whose first one is not a number aborts the parse. *)
Lemma four_tokens_do_not_suffice :
  four_tokens ["x PINHOLE 640 480"] ∧
  parse_cameras_txt ["x PINHOLE 640 480"] = Err (ValueError_int "x").
Proof.
  split; [|vm_compute; reflexivity].
  constructor; [|constructor]. intros _. vm_compute. lia.
Qed.

(** C10, amended.  [parse_cameras_txt] indexes the first four tokens of
    every qualifying line without a check.  When every qualifying line
    has at least four tokens the indexing is in bounds: the parse can
    only fail by a numeric conversion, and it succeeds, with one record
    per qualifying line, when every numeric token converts.  A qualifying
    line with three tokens makes it fail with an out-of-range index: the
    line is neither skipped nor reported as a conversion error. *)
Theorem cameras_token_indexing (f : list string) :
  four_tokens f →
  (∀ e, parse_cameras_txt f = Err e →
        ∃ tok, e = ValueError_int tok ∨ e = ValueError_float tok) ∧
  (Forall (λ l, qualifying l = true → numeric_tokens CamerasTxt (parts_of l)) f →
   ∃ cams, parse_cameras_txt f = Ok cams ∧
           length cams = length (qualifying_lines f)) ∧
  (qualifying "1 PINHOLE 640" = true ∧
   length (parts_of "1 PINHOLE 640") = 3%nat ∧
   parse_cameras_txt ["1 PINHOLE 640"] = Err IndexError_list).
Proof.
  intros Hfour. split_and!.
  - intros e He. now apply (cameras_loop_err f [] e).
  - intros Hnum. destruct (cameras_loop_ok f [] Hfour Hnum) as (cams & Hc & Hl).
    exists cams. split; [exact Hc | exact Hl].
  - reflexivity.
  - reflexivity.
  - reflexivity.
Qed.

Lemma cameras_token_indexing_witness :
  ∃ cams, parse_cameras_txt sample_cameras = Ok cams ∧ length cams = 1%nat.
Proof.
  assert (Hfour : four_tokens sample_cameras).
  { constructor; [intros [=] | constructor; [intros _; vm_compute; lia | constructor]]. }
  refine (proj1 (proj2 (cameras_token_indexing sample_cameras Hfour)) _).
  constructor; [intros [=] | constructor; [intros _ | constructor]].
  intros i t n Ht Hn.
  change (parts_of "3 PINHOLE 640 480 500.0 500.0 320.0 240.0")
    with ["3"; "PINHOLE"; "640"; "480"; "500.0"; "500.0"; "320.0"; "240.0"] in Ht.
  destruct i as [|[|[|[|[|[|[|[|i]]]]]]]]; cbn in Ht, Hn; try discriminate;
    injection Ht as <-; injection Hn as <-; vm_compute; reflexivity.
Defined.
(** * Further properties of the services *)

(** ** The table a load returns *)

Lemma cols_width_min lo hi c rows :
  Np.rectangular c rows →
  Forall (λ r, length r = (Nat.min hi c - lo)%nat) (Np.cols lo hi rows).
Proof.
  unfold Np.rectangular, Np.cols. intros Hrect.
  apply Forall_map. eapply Forall_impl; [exact Hrect|].
  intros r Hr. cbn beta in *. rewrite length_take, length_drop, Hr. lia.
Qed.

Lemma div255_rectangular c rows :
  Np.rectangular c rows → (6 ≤ c)%nat → Np.rectangular c (div255_colors rows).
Proof.
  unfold Np.rectangular, div255_colors. intros Hrect Hc.
  apply Forall_map. eapply Forall_impl; [exact Hrect|].
  intros r Hr. cbn beta in *.
  rewrite !length_app, length_map, !length_take, !length_drop. lia.
Qed.

Lemma length_div255 rows : length (div255_colors rows) = length rows.
Proof. unfold div255_colors. apply length_map. Qed.

Lemma normalize_shape c rows arr hc :
  rows ≠ [] → Np.rectangular c rows →
  normalize (Np.A2 c rows) = Ok (arr, hc) →
  ∃ c' rows', arr = Np.A2 c' rows' ∧ length rows' = length rows ∧
              Np.rectangular c' rows' ∧
              ((hc = true ∧ (6 ≤ c)%nat ∧ c' = 6%nat) ∨
               (hc = false ∧ (c < 6)%nat ∧ c' = Nat.min 3 c)).
Proof.
  intros Hne Hrect. unfold normalize. case_bool_decide as Hc.
  - destruct (Np.max_all (Np.cols 3 6 rows)) as [m|e];
      cbn [mbind result_bind]; [|intros [=]].
    unfold Np.slice. remember (Nat.min 6 c - 0)%nat as w eqn:Hw.
    intros [= <- <-].
    eexists _, _. split; [reflexivity|].
    assert (Hr : Np.rectangular c
                   (if F32.ltb F32.c1_5 m then div255_colors rows else rows)).
    { destruct (F32.ltb F32.c1_5 m); [now apply div255_rectangular | exact Hrect]. }
    split_and!.
    + rewrite length_cols. destruct (F32.ltb F32.c1_5 m); [apply length_div255 | reflexivity].
    + rewrite Hw. exact (cols_width_min 0 6 c _ Hr).
    + left. split_and!; [reflexivity | exact Hc | lia].
  - unfold Np.slice. remember (Nat.min 3 c - 0)%nat as w eqn:Hw.
    intros [= <- <-].
    eexists _, _. split; [reflexivity|]. split_and!.
    + apply length_cols.
    + rewrite Hw. exact (cols_width_min 0 3 c _ Hrect).
    + right. split_and!; [reflexivity | lia | lia].
Qed.

Lemma normalize_total c rows :
  rows ≠ [] → Np.rectangular c rows →
  ∃ arr hc, normalize (Np.A2 c rows) = Ok (arr, hc).
Proof.
  intros Hne Hrect. unfold normalize. case_bool_decide as Hc.
  - pose proof (colors_nonempty c rows Hne Hrect Hc) as Hcol.
    unfold Np.max_all, Np.reduce. fold (colors rows).
    destruct (concat (colors rows)) as [|x xs]; [congruence|].
    cbn [mbind result_bind]. eauto.
  - eauto.
Qed.

Lemma load_shape fs path arr hc :
  load_point_cloud fs path = Ok (arr, hc) →
  ∃ c rows, arr = Np.A2 c rows ∧ rows ≠ [] ∧ Np.rectangular c rows ∧
            (if hc then c = 6%nat else (c ≤ 3)%nat).
Proof.
  unfold load_point_cloud.
  destruct (read_data fs path) as [[x|xs|c rows]|] eqn:Hread;
    cbn [normalize]; try (intros [=]; fail).
  apply read_data_shape in Hread as [Hne Hrect]. intros Hn.
  destruct (normalize_shape c rows arr hc Hne Hrect Hn)
    as (c' & rows' & -> & Hlen & Hr & Hw).
  exists c', rows'. split_and!; [reflexivity| |exact Hr|].
  - intros ->. destruct rows; [congruence | discriminate].
  - destruct Hw as [(-> & _ & ->)|(-> & _ & ->)]; [reflexivity | lia].
Qed.

(** X1.  Whatever file [load_point_cloud] accepts, the array it returns is a
    table with at least one row, all rows of one width, which is 6 when
    colours are announced and at most 3 otherwise. *)
Theorem loaded_table_shape fs path arr has_colors :
  load_point_cloud fs path = Ok (arr, has_colors) →
  ∃ c rows, arr = Np.A2 c rows ∧ rows ≠ [] ∧ Np.rectangular c rows ∧
            (if has_colors then c = 6%nat else (c ≤ 3)%nat).
Proof. apply load_shape. Qed.

Lemma loaded_table_shape_witness :
  ∃ c rows, Np.A2 6 sample_rows = Np.A2 c rows ∧ rows ≠ [] ∧
            Np.rectangular c rows ∧ c = 6%nat.
Proof.
  apply (loaded_table_shape {[ "one.xyz" := text_file ["1 2 3 255 0 51"] ]}
           "one.xyz" (Np.A2 6 sample_rows) true).
  vm_compute. reflexivity.
Defined.

(** ** How a load fails *)

Lemma load_xyz_not_1d fs path xs : _load_xyz fs path ≠ Some (Np.A1 xs).
Proof.
  unfold _load_xyz.
  destruct (Np.loadtxt (file_text <$> fs !! path) path) as [[x|ys|c rows]|e];
    cbn [mbind result_bind except_none]; unfold Np.reshape_1_row; congruence.
Qed.

Lemma try_open3d_2d fs path d :
  _try_open3d fs path = Some d → ∃ c rows, d = Np.A2 c rows.
Proof.
  unfold _try_open3d.
  destruct (fs !! path) as [f|]; cbn [mbind option_bind]; [|intros [=]].
  destruct (file_o3d f) as [pcd|]; cbn [mbind option_bind]; [|intros [=]].
  destruct (Nat.eqb _ 0); [intros [=]|].
  destruct (Nat.eqb _ _); intros [= <-]; eauto.
Qed.

Lemma read_data_cases fs path d :
  read_data fs path = Some d →
  (∃ c rows, d = Np.A2 c rows) ∨ (∃ x, d = Np.A0 x ∧ _load_xyz fs path = Some (Np.A0 x)).
Proof.
  assert (Hxyz : _load_xyz fs path = Some d →
                 (∃ c rows, d = Np.A2 c rows) ∨
                 (∃ x, d = Np.A0 x ∧ _load_xyz fs path = Some (Np.A0 x))).
  { intros H. destruct d as [x|xs|c rows]; [right; eauto| |left; eauto].
    now apply load_xyz_not_1d in H. }
  unfold read_data.
  destruct (bool_decide _); [|exact Hxyz].
  destruct (_try_open3d fs path) as [d'|] eqn:Ho; [|exact Hxyz].
  intros [= ->]. left. eapply try_open3d_2d; eassumption.
Qed.

(** X2.  [load_point_cloud] can fail in two ways only: with its own
    [ValueError] when neither reader gives an array, and with the
    [IndexError] of [data.shape[1]] when the text reader returns a single
    number, which [loadtxt] squeezes to a 0-d array. *)
Theorem load_failures fs path e :
  load_point_cloud fs path = Err e →
  (e = ValueError_load path ∧ read_data fs path = None) ∨
  (e = IndexError_tuple ∧ ∃ x, _load_xyz fs path = Some (Np.A0 x)).
Proof.
  unfold load_point_cloud.
  destruct (read_data fs path) as [d|] eqn:Hread.
  - destruct (read_data_cases fs path d Hread) as [(c & rows & ->)|(x & -> & Hx)].
    + apply read_data_shape in Hread as [Hne Hrect].
      destruct (normalize_total c rows Hne Hrect) as (arr & hc & ->). intros [=].
    + cbn [normalize]. intros [= <-]. right. eauto.
  - intros [= <-]. now left.
Qed.

Lemma load_failures_witness :
  (IndexError_tuple = ValueError_load "n.txt" ∧
   read_data {[ "n.txt" := text_file ["7"] ]} "n.txt" = None) ∨
  (IndexError_tuple = IndexError_tuple ∧
   ∃ x, _load_xyz {[ "n.txt" := text_file ["7"] ]} "n.txt" = Some (Np.A0 x)).
Proof.
  apply (load_failures {[ "n.txt" := text_file ["7"] ]} "n.txt" IndexError_tuple).
  vm_compute. reflexivity.
Defined.

(** ** The length of the buffer *)

Lemma buffer_of_length c rows hc :
  Np.rectangular c rows → Z.of_nat (length rows) < 2 ^ 32 →
  (hc = true → (6 ≤ c)%nat) →
  ∃ buf, buffer_of (Np.A2 c rows) hc = Ok buf ∧
         length buf = (5 + 4 * (Nat.min 3 c * length rows)
                       + (if hc then 3 * length rows else 0))%nat.
Proof.
  intros Hrect Hn Hc. unfold buffer_of.
  rewrite pack_IB_ok by lia. cbn [mbind result_bind].
  pose proof (cols_width_min 0 3 c rows Hrect) as Hpos.
  rewrite Nat.sub_0_r in Hpos.
  pose proof (length_tobytes_f32 _ _ Hpos) as Hlen. rewrite length_cols in Hlen.
  destruct hc.
  - eexists. split; [reflexivity|].
    rewrite !length_app, length_le_bytes, Hlen. cbn [length].
    rewrite (length_concat_uniform 3).
    + rewrite length_map, length_cols. lia.
    + apply Forall_map. eapply Forall_impl; [exact (cols_width 3 6 c rows Hrect (Hc eq_refl))|].
      intros r Hr. cbn beta in *. now rewrite length_map.
  - eexists. split; [reflexivity|].
    rewrite !length_app, length_le_bytes, Hlen. cbn [length]. lia.
Qed.

(** X3.  After any successful load of fewer than 2^32 points the encoder
    succeeds, and its buffer has 5 header bytes, 4 bytes for each of the
    min(3, C) position columns of every point, and 3 colour bytes per
    point when colours are announced: a table narrower than three columns
    gives a position block shorter than the 12 N bytes the header
    announces. *)
Theorem encode_after_load fs path c rows has_colors :
  load_point_cloud fs path = Ok (Np.A2 c rows, has_colors) →
  Z.of_nat (length rows) < 2 ^ 32 →
  ∃ buf, to_binary_buffer fs path = Ok buf ∧
         length buf = (5 + 4 * (Nat.min 3 c * length rows)
                       + (if has_colors then 3 * length rows else 0))%nat.
Proof.
  intros Hload Hn. unfold to_binary_buffer. rewrite Hload.
  cbn [mbind result_bind].
  destruct (load_shape _ _ _ _ Hload) as (c' & rows' & [= <- <-] & _ & Hrect & Hw).
  apply buffer_of_length; [exact Hrect | exact Hn |].
  intros ->. lia.
Qed.

Lemma encode_after_load_witness :
  ∃ buf, to_binary_buffer {[ "xy.txt" := text_file ["1 2"; "3 4"] ]} "xy.txt" = Ok buf ∧
         length buf = 21%nat.
Proof.
  apply (encode_after_load {[ "xy.txt" := text_file ["1 2"; "3 4"] ]} "xy.txt" 2
           [[F32.of_Z 1; F32.of_Z 2]; [F32.of_Z 3; F32.of_Z 4]] false).
  - vm_compute. reflexivity.
  - vm_compute. reflexivity.
Defined.

(** ** The summary of a cloud *)

Lemma mapM_result_seq {B} (g : nat → result B) (h : nat → B) n : ∀ s,
  (∀ j, (s ≤ j < s + n)%nat → g j = Ok (h j)) →
  mapM_result g (seq s n) = Ok (map h (seq s n)).
Proof.
  induction n as [|n IH]; intros s Hg; [reflexivity|].
  cbn [seq mapM_result map]. rewrite Hg by lia. cbn [mbind result_bind].
  rewrite IH by (intros j Hj; apply Hg; lia). reflexivity.
Qed.

Lemma reduce_axis0_value op f k tbl :
  tbl ≠ [] → Forall (λ r, length r = k) tbl →
  Np.reduce_axis0 op f k tbl = Ok (map (λ j, column_fold f j tbl) (seq 0 k)).
Proof.
  intros Hne Hw. unfold Np.reduce_axis0.
  destruct tbl as [|r tbl]; [congruence|].
  apply mapM_result_seq. intros j Hj.
  pose proof (column_nonempty j k (r :: tbl) Hw ltac:(lia) Hne) as Hcol.
  unfold column_fold, Np.reduce.
  destruct (Np.column j (r :: tbl)); [congruence | reflexivity].
Qed.

Lemma positions_table c rows :
  rows ≠ [] → Np.rectangular c rows →
  positions rows ≠ [] ∧ Forall (λ r, length r = Nat.min 3 c) (positions rows).
Proof.
  intros Hne Hrect. split.
  - intros Habs. apply (f_equal length) in Habs.
    unfold positions in Habs. rewrite length_cols in Habs.
    destruct rows; [congruence | discriminate].
  - pose proof (cols_width_min 0 3 c rows Hrect) as H.
    now rewrite Nat.sub_0_r in H.
Qed.

Lemma info_of_narrow path c rows hc :
  rows ≠ [] → Np.rectangular c rows → (c < 3)%nat →
  info_of path (Np.A2 c rows) hc = Err (IndexError_axis c c).
Proof.
  intros Hne Hrect Hc. destruct (positions_table c rows Hne Hrect) as [Hp Hw].
  unfold info_of. fold (positions rows).
  rewrite !(reduce_axis0_value _ _ _ _ Hp Hw).
  destruct c as [|[|[|c]]]; [reflexivity..|lia].
Qed.

Lemma info_of_wide path c rows hc :
  rows ≠ [] → Np.rectangular c rows → (3 ≤ c)%nat →
  info_of path (Np.A2 c rows) hc
  = Ok {| pci_file := path;
          pci_num_points := Z.of_nat (length rows);
          pci_bounds_min :=
            {| vx := F32.to_f64 (column_fold Np.minimum 0 (positions rows));
               vy := F32.to_f64 (column_fold Np.minimum 1 (positions rows));
               vz := F32.to_f64 (column_fold Np.minimum 2 (positions rows)) |};
          pci_bounds_max :=
            {| vx := F32.to_f64 (column_fold Np.maximum 0 (positions rows));
               vy := F32.to_f64 (column_fold Np.maximum 1 (positions rows));
               vz := F32.to_f64 (column_fold Np.maximum 2 (positions rows)) |};
          pci_has_colors := hc;
          pci_has_normals := false |}.
Proof.
  intros Hne Hrect Hc. destruct (positions_table c rows Hne Hrect) as [Hp Hw].
  unfold info_of. fold (positions rows).
  rewrite !(reduce_axis0_value _ _ _ _ Hp Hw).
  replace (Nat.min 3 c) with 3%nat by lia. reflexivity.
Qed.

(** X4.  When the loaded table has fewer than three columns (an empty file
    gives none), [point_cloud_info] fails with numpy's [IndexError] on the
    first missing coordinate: index C of a vector of size C. *)
Theorem describe_narrow_table fs path c rows has_colors :
  load_point_cloud fs path = Ok (Np.A2 c rows, has_colors) → (c < 3)%nat →
  point_cloud_info fs path = Err (IndexError_axis c c).
Proof.
  intros Hload Hc. unfold point_cloud_info. rewrite Hload.
  cbn [mbind result_bind].
  destruct (load_shape _ _ _ _ Hload) as (c' & rows' & [= <- <-] & Hne & Hrect & _).
  now apply info_of_narrow.
Qed.

Lemma describe_narrow_table_witness :
  point_cloud_info {[ "xy.txt" := text_file ["1 2"; "3 4"] ]} "xy.txt"
  = Err (IndexError_axis 2 2).
Proof.
  apply (describe_narrow_table {[ "xy.txt" := text_file ["1 2"; "3 4"] ]} "xy.txt" 2
           [[F32.of_Z 1; F32.of_Z 2]; [F32.of_Z 3; F32.of_Z 4]] false).
  - vm_compute. reflexivity.
  - lia.
Defined.

(** X5.  When the loaded table has at least three columns, [point_cloud_info]
    succeeds whatever the values are (NaN included): it reports the path
    it was given, the number of rows, the colour flag of the load, and
    never normals. *)
Theorem describe_wide_table fs path c rows has_colors :
  load_point_cloud fs path = Ok (Np.A2 c rows, has_colors) → (3 ≤ c)%nat →
  ∃ info, point_cloud_info fs path = Ok info ∧
          pci_file info = path ∧
          pci_num_points info = Z.of_nat (length rows) ∧
          pci_has_colors info = has_colors ∧
          pci_has_normals info = false.
Proof.
  intros Hload Hc. unfold point_cloud_info. rewrite Hload.
  cbn [mbind result_bind].
  destruct (load_shape _ _ _ _ Hload) as (c' & rows' & [= <- <-] & Hne & Hrect & _).
  rewrite (info_of_wide path c rows has_colors Hne Hrect Hc).
  eexists. split; [reflexivity|]. split_and!; reflexivity.
Qed.

Lemma describe_wide_table_witness :
  ∃ info, point_cloud_info sample_fs "nan.xyz" = Ok info ∧
          pci_file info = "nan.xyz" ∧
          pci_num_points info = 1 ∧
          pci_has_colors info = true ∧
          pci_has_normals info = false.
Proof.
  apply (describe_wide_table sample_fs "nan.xyz" 6
           [[F32.zero; F32.zero; F32.zero; S754_nan; f32_200; F32.of_Z 100]] true).
  - vm_compute. reflexivity.
  - lia.
Defined.

(** X6.  For every file [point_cloud_info] accepts, with fewer than 2^32
    points, [to_binary_buffer] succeeds and its buffer has exactly
    5 + 12 N bytes, and 3 N more when the summary reports colours, N
    being the number of points of the summary. *)
Theorem describe_predicts_buffer fs path info :
  point_cloud_info fs path = Ok info → pci_num_points info < 2 ^ 32 →
  ∃ buf, to_binary_buffer fs path = Ok buf ∧
         Z.of_nat (length buf)
         = 5 + 12 * pci_num_points info
           + (if pci_has_colors info then 3 * pci_num_points info else 0).
Proof.
  unfold point_cloud_info, to_binary_buffer.
  destruct (load_point_cloud fs path) as [[arr hc]|e] eqn:Hload;
    cbn [mbind result_bind]; [|intros [=]].
  destruct (load_shape _ _ _ _ Hload) as (c & rows & -> & Hne & Hrect & Hw).
  destruct (decide (c < 3)%nat) as [Hc|Hc].
  - rewrite (info_of_narrow path c rows hc Hne Hrect Hc). intros [=].
  - rewrite (info_of_wide path c rows hc Hne Hrect ltac:(lia)).
    intros [= <-]. cbn [pci_num_points pci_has_colors]. intros Hn.
    destruct (buffer_of_length c rows hc Hrect Hn) as (buf & -> & Hlen).
    { intros ->. lia. }
    exists buf. split; [reflexivity|]. rewrite Hlen.
    replace (Nat.min 3 c) with 3%nat by lia. destruct hc; lia.
Qed.

Lemma describe_predicts_buffer_witness :
  ∃ buf, to_binary_buffer sample_fs "a.xyz" = Ok buf ∧
         Z.of_nat (length buf) = 5 + 12 * 2 + 3 * 2.
Proof.
  apply (describe_predicts_buffer sample_fs "a.xyz" sample_info_a).
  - vm_compute. reflexivity.
  - reflexivity.
Defined.

(** ** The summary of a loaded cloud *)

Lemma read_rows_blank lines :
  Forall (λ l, Np.fields l = []) lines → ∀ ncols, Np.read_rows lines ncols = Ok [].
Proof.
  induction 1 as [|l lines Hl _ IH]; intros ncols; [reflexivity|].
  cbn [Np.read_rows]. rewrite Hl. apply IH.
Qed.

Lemma load_blank_file fs path f :
  fs !! path = Some f → file_o3d f = None →
  Forall (λ l, Np.fields l = []) (file_text f) →
  load_point_cloud fs path = Ok (Np.A2 0 [[]], false).
Proof.
  intros Hf Ho Hblank.
  assert (Hxyz : _load_xyz fs path = Some (Np.A2 0 [[]])).
  { unfold _load_xyz, Np.loadtxt. rewrite Hf. cbn [fmap option_fmap option_map].
    rewrite (read_rows_blank _ Hblank None). reflexivity. }
  unfold load_point_cloud, read_data, _try_open3d. rewrite Hf.
  cbn [mbind option_bind]. rewrite Ho. cbn [mbind option_bind].
  destruct (bool_decide _); rewrite Hxyz; reflexivity.
Qed.

Lemma load_errors fs path e :
  load_point_cloud fs path = Err e → e = ValueError_load path ∨ e = IndexError_tuple.
Proof.
  unfold load_point_cloud.
  destruct (read_data fs path) as [d|] eqn:Hread; [|intros [= <-]; now left].
  destruct (read_data_cases fs path d Hread) as [(c & rows & ->)|(x & -> & _)].
  - apply read_data_shape in Hread as [Hne Hrect].
    destruct (normalize_total c rows Hne Hrect) as (arr & hc & ->). intros [=].
  - cbn [normalize]. intros [= <-]. now right.
Qed.

Lemma describe_errors fs path e :
  point_cloud_info fs path = Err e →
  e = ValueError_load path ∨ e = IndexError_tuple ∨
  ∃ c, (c < 3)%nat ∧ e = IndexError_axis c c.
Proof.
  unfold point_cloud_info.
  destruct (load_point_cloud fs path) as [[arr hc]|e'] eqn:Hload;
    cbn [mbind result_bind].
  - destruct (load_shape _ _ _ _ Hload) as (c & rows & -> & Hne & Hrect & _).
    destruct (decide (c < 3)%nat) as [Hc|Hc].
    + rewrite (info_of_narrow path c rows hc Hne Hrect Hc). intros [= <-].
      right. right. eauto.
    + rewrite (info_of_wide path c rows hc Hne Hrect ltac:(lia)). intros [=].
  - intros [= <-]. destruct (load_errors fs path e' Hload) as [->| ->]; auto.
Qed.

Lemma describe_counts_rows fs path info :
  point_cloud_info fs path = Ok info → 1 <= pci_num_points info.
Proof.
  unfold point_cloud_info.
  destruct (load_point_cloud fs path) as [[arr hc]|e'] eqn:Hload;
    cbn [mbind result_bind]; [|intros [=]].
  destruct (load_shape _ _ _ _ Hload) as (c & rows & -> & Hne & Hrect & _).
  destruct (decide (c < 3)%nat) as [Hc|Hc].
  - rewrite (info_of_narrow path c rows hc Hne Hrect Hc). intros [=].
  - rewrite (info_of_wide path c rows hc Hne Hrect ltac:(lia)). intros [= <-].
    cbn [pci_num_points]. destruct rows; [congruence | cbn [length]; lia].
Qed.

(** C3, as stated, fails: the file [n.xyz] has the points (NaN, 0, 0) and
    (1, 2, 3); the summary counts two points and reports NaN as the lower
    and the upper bound of x, which is neither below nor above the x
    coordinate 1 of the second point. *)
Lemma nan_coordinate_breaks_bounds :
  ∃ info,
    point_cloud_info bounds_fs "n.xyz" = Ok info ∧
    pci_num_points info = 2 ∧
    vx (pci_bounds_min info) = S754_nan ∧
    vx (pci_bounds_max info) = S754_nan ∧
    SFleb (vx (pci_bounds_min info)) (F32.to_f64 (F32.of_Z 1)) = false ∧
    SFleb (F32.to_f64 (F32.of_Z 1)) (vx (pci_bounds_max info)) = false.
Proof.
  eexists. split; [vm_compute; reflexivity|]. split_and!; reflexivity.
Qed.

(** C3, amended.  [point_cloud_info] never returns the summary of an empty
    cloud: every summary it returns counts at least one point; a file
    without a data line (empty, blank lines, comments) makes it fail, with
    numpy's [IndexError], and its only failures are the two of the load
    and that [IndexError], raised for a table narrower than three columns:
    there is no error of its own for an empty cloud and no reduction over
    zero rows.  For every loaded cloud of three columns or more with no
    NaN coordinate it succeeds, counts the rows, and its bounds are, per
    axis, the least and the greatest coordinate of the positions. *)
Theorem describe_loaded_cloud (fs : gmap string file) (path : string) :
  (∀ info, point_cloud_info fs path = Ok info → 1 <= pci_num_points info) ∧
  (∀ f, fs !! path = Some f → file_o3d f = None →
        Forall (λ l, Np.fields l = []) (file_text f) →
        point_cloud_info fs path = Err (IndexError_axis 0 0)) ∧
  (∀ e, point_cloud_info fs path = Err e →
        e = ValueError_load path ∨ e = IndexError_tuple ∨
        ∃ c, (c < 3)%nat ∧ e = IndexError_axis c c) ∧
  (∀ c rows has_colors,
     load_point_cloud fs path = Ok (Np.A2 c rows, has_colors) → (3 ≤ c)%nat →
     Forall no_nan (positions rows) →
     ∃ info x0 y0 z0 x1 y1 z1,
       point_cloud_info fs path = Ok info ∧
       pci_num_points info = Z.of_nat (length rows) ∧
       pci_bounds_min info
       = {| vx := F32.to_f64 x0; vy := F32.to_f64 y0; vz := F32.to_f64 z0 |} ∧
       pci_bounds_max info
       = {| vx := F32.to_f64 x1; vy := F32.to_f64 y1; vz := F32.to_f64 z1 |} ∧
       least x0 (Np.column 0 (positions rows)) ∧
       least y0 (Np.column 1 (positions rows)) ∧
       least z0 (Np.column 2 (positions rows)) ∧
       greatest x1 (Np.column 0 (positions rows)) ∧
       greatest y1 (Np.column 1 (positions rows)) ∧
       greatest z1 (Np.column 2 (positions rows))).
Proof.
  split_and!.
  - apply describe_counts_rows.
  - intros f Hf Ho Hblank. unfold point_cloud_info.
    rewrite (load_blank_file fs path f Hf Ho Hblank). reflexivity.
  - apply describe_errors.
  - intros c rows hc Hload Hc Hnn. unfold point_cloud_info. rewrite Hload.
    cbn [mbind result_bind].
    destruct (load_shape _ _ _ _ Hload) as (c' & rows' & [= <- <-] & Hne & Hrect & _).
    destruct (info_of_bounds path c rows hc Hne Hrect Hc Hnn)
      as (x0 & y0 & z0 & x1 & y1 & z1 & Hi & H).
    eexists _, x0, y0, z0, x1, y1, z1. split; [exact Hi|].
    split_and!; try reflexivity; apply H.
Qed.

(** The least element of a sequence of three distinct values is the one
    that is below the two others. *)
Ltac refute_with C := vm_compute in C; discriminate C.

Ltac pin_extreme H :=
  destruct H as [Hin Hall];
  repeat (apply elem_of_cons in Hin as [->|Hin];
          [ first
              [ reflexivity
              | exfalso;
                pose proof (Hall _ (list_elem_of_here _ _)) as C; refute_with C
              | exfalso;
                pose proof (Hall _ (list_elem_of_further _ _ _
                                      (list_elem_of_here _ _))) as C;
                refute_with C
              | exfalso;
                pose proof (Hall _ (list_elem_of_further _ _ _
                                      (list_elem_of_further _ _ _
                                         (list_elem_of_here _ _)))) as C;
                refute_with C ] |]);
  exfalso; now apply elem_of_nil in Hin.

Lemma describe_loaded_cloud_witness :
  ∃ info,
    point_cloud_info bounds_fs "mix.xyz" = Ok info ∧
    pci_num_points info = 3 ∧
    pci_bounds_min info
    = {| vx := F32.to_f64 F32.zero; vy := F32.to_f64 (F32.of_Z 2);
         vz := F32.to_f64 (F32.of_Z (-1)) |} ∧
    pci_bounds_max info
    = {| vx := F32.to_f64 (F32.of_Z 4); vy := F32.to_f64 (F32.of_Z 9);
         vz := F32.to_f64 (F32.of_Z 6) |}.
Proof.
  destruct (proj2 (proj2 (proj2 (describe_loaded_cloud bounds_fs "mix.xyz")))
              3%nat mix_rows false)
    as (info & x0 & y0 & z0 & x1 & y1 & z1 & Hi & Hn & Hmin & Hmax
        & Lx & Ly & Lz & Gx & Gy & Gz).
  - vm_compute. reflexivity.
  - lia.
  - repeat constructor.
  - exists info. split; [exact Hi|]. split; [exact Hn|].
    rewrite Hmin, Hmax.
    change (Np.column 0 (positions mix_rows))
      with [F32.of_Z 1; F32.of_Z 4; F32.zero] in Lx, Gx.
    change (Np.column 1 (positions mix_rows))
      with [F32.of_Z 5; F32.of_Z 2; F32.of_Z 9] in Ly, Gy.
    change (Np.column 2 (positions mix_rows))
      with [F32.of_Z 3; F32.of_Z 6; F32.of_Z (-1)] in Lz, Gz.
    assert (x0 = F32.zero) as -> by pin_extreme Lx.
    assert (y0 = F32.of_Z 2) as -> by pin_extreme Ly.
    assert (z0 = F32.of_Z (-1)) as -> by pin_extreme Lz.
    assert (x1 = F32.of_Z 4) as -> by pin_extreme Gx.
    assert (y1 = F32.of_Z 9) as -> by pin_extreme Gy.
    assert (z1 = F32.of_Z 6) as -> by pin_extreme Gz.
    split; reflexivity.
Defined.

(** ** NaN coordinates *)

Lemma minimum_nan_r a : Np.minimum a S754_nan = S754_nan.
Proof. now destruct a. Qed.

Lemma maximum_nan_r a : Np.maximum a S754_nan = S754_nan.
Proof. now destruct a. Qed.

Lemma minimum_nan_l b : Np.minimum S754_nan b = S754_nan.
Proof. now destruct b. Qed.

Lemma maximum_nan_l b : Np.maximum S754_nan b = S754_nan.
Proof. now destruct b. Qed.

Lemma fold_left_nan (f : F32.t → F32.t → F32.t) xs :
  (∀ b, f S754_nan b = S754_nan) → (∀ a, f a S754_nan = S754_nan) →
  ∀ acc, acc = S754_nan ∨ S754_nan ∈ xs → fold_left f xs acc = S754_nan.
Proof.
  intros Hl Hr. induction xs as [|x xs IH]; intros acc [Hacc|Hin].
  - exact Hacc.
  - now apply elem_of_nil in Hin.
  - subst acc. cbn [fold_left]. apply IH. left. apply Hl.
  - cbn [fold_left]. apply IH. apply elem_of_cons in Hin as [<-|Hin].
    + left. apply Hr.
    + now right.
Qed.

Lemma column_fold_nan (f : F32.t → F32.t → F32.t) j tbl :
  (∀ b, f S754_nan b = S754_nan) → (∀ a, f a S754_nan = S754_nan) →
  S754_nan ∈ Np.column j tbl → column_fold f j tbl = S754_nan.
Proof.
  intros Hl Hr Hin. unfold column_fold.
  destruct (Np.column j tbl) as [|x xs]; [now apply elem_of_nil in Hin|].
  apply fold_left_nan; [exact Hl | exact Hr|].
  apply elem_of_cons in Hin as [<-|Hin]; [now left | now right].
Qed.

Lemma column_positions_elem j r x rows :
  (j < 3)%nat → r ∈ rows → r !! j = Some x → x ∈ Np.column j (positions rows).
Proof.
  intros Hj Hr Hx. unfold Np.column, positions, Np.cols.
  apply list_elem_of_omap. exists (take (3 - 0) (drop 0 r)). split.
  - apply list_elem_of_fmap. exists r. split; [reflexivity | exact Hr].
  - cbn [Nat.sub]. rewrite drop_0, lookup_take_lt by exact Hj. exact Hx.
Qed.

(** X7.  For a table with rows of three columns or more, if some point has NaN
    as its coordinate on an axis, [point_cloud_info]'s summary has NaN as
    the lower and as the upper bound of that axis: numpy's [min] and [max]
    propagate NaN. *)
Theorem nan_coordinate_nan_bounds path c rows has_colors j r :
  Np.rectangular c rows → (3 ≤ c)%nat → (j < 3)%nat →
  r ∈ rows → r !! j = Some S754_nan →
  ∃ info, info_of path (Np.A2 c rows) has_colors = Ok info ∧
          coord j (pci_bounds_min info) = S754_nan ∧
          coord j (pci_bounds_max info) = S754_nan.
Proof.
  intros Hrect Hc Hj Hr Hx.
  assert (Hne : rows ≠ []) by (intros ->; now apply elem_of_nil in Hr).
  rewrite (info_of_wide path c rows has_colors Hne Hrect Hc).
  eexists. split; [reflexivity|].
  pose proof (column_positions_elem j r _ rows Hj Hr Hx) as Hin.
  pose proof (column_fold_nan Np.minimum j _ minimum_nan_l minimum_nan_r Hin) as Hmin.
  pose proof (column_fold_nan Np.maximum j _ maximum_nan_l maximum_nan_r Hin) as Hmax.
  cbn [pci_bounds_min pci_bounds_max].
  destruct j as [|[|[|j]]]; [| | |lia]; cbn [coord vx vy vz];
    rewrite Hmin, Hmax; split; reflexivity.
Qed.

Lemma nan_coordinate_nan_bounds_witness :
  ∃ info, info_of "n.xyz" (Np.A2 3 [[S754_nan; F32.zero; F32.zero];
                                     [F32.of_Z 1; F32.of_Z 2; F32.of_Z 3]]) false
          = Ok info ∧
          coord 0 (pci_bounds_min info) = S754_nan ∧
          coord 0 (pci_bounds_max info) = S754_nan.
Proof.
  apply (nan_coordinate_nan_bounds "n.xyz" 3 _ false 0 [S754_nan; F32.zero; F32.zero]).
  - repeat constructor.
  - lia.
  - lia.
  - apply list_elem_of_here.
  - reflexivity.
Defined.

(** ** Colours outside the unit range *)

Section RoundSign.
Variables prec emax : Z.
Hypothesis prec_pos : 0 < prec.

(** A rounded result keeps the sign it is given. *)
Lemma binary_round_aux_sign sx mx ex lx :
  0 <= mx →
  match binary_round_aux prec emax sx mx ex lx with
  | S754_nan => False
  | S754_zero s | S754_infinity s | S754_finite s _ _ => s = sx
  end.
Proof.
  intros Hmx. unfold binary_round_aux.
  pose proof (shr_fexp_bound prec emax prec_pos mx ex lx Hmx) as H1.
  destruct (shr_fexp prec emax mx ex lx) as [mrs' e']. cbn [fst] in H1.
  pose proof (round_nearest_even_nonneg (shr_m mrs') (loc_of_shr_record mrs')
                (proj1 H1)) as H2.
  pose proof (shr_fexp_bound prec emax prec_pos _ e' loc_Exact H2) as H3.
  destruct (shr_fexp prec emax _ e' loc_Exact) as [mrs'' e'']. cbn [fst] in H3.
  destruct (shr_m mrs'') as [|m|m]; [reflexivity | | lia].
  destruct (e'' <=? emax - prec); reflexivity.
Qed.
End RoundSign.

Lemma clip_negative p :
  match p with
  | S754_nan => False
  | S754_zero s | S754_infinity s | S754_finite s _ _ => s = true
  end →
  Np.clip F32.zero F32.c255 p = F32.zero.
Proof. destruct p as [[]|[]| |[] m e]; intros H; try discriminate H; try contradiction; reflexivity. Qed.

Lemma color_byte_nonpositive x :
  F32.leb x F32.zero = true → color_byte x = byte_of_Z 0.
Proof.
  intros Hx. unfold color_byte.
  destruct x as [s|s| |s m e].
  - destruct s; reflexivity.
  - destruct s; [reflexivity | discriminate Hx].
  - discriminate Hx.
  - destruct s; [|discriminate Hx].
    rewrite clip_negative; [reflexivity|].
    unfold F32.mul, F32.c255. cbn [SFmul xorb].
    pose proof (binary_round_aux_sign F32.prec F32.emax ltac:(reflexivity) true
                  (Z.pos (m * 16711680)) (e + -16) loc_Exact ltac:(lia)) as H.
    destruct (binary_round_aux _ _ _ _ _ _); exact H.
Qed.

(** X8.  A colour channel that compares at or below zero (negative values and
    minus infinity included) is encoded as byte 0 by [to_binary_buffer]'s
    clamp, and plus infinity as byte 255. *)
Theorem color_byte_out_of_range x :
  (F32.leb x F32.zero = true → color_byte x = byte_of_Z 0) ∧
  color_byte (S754_infinity false) = byte_of_Z 255.
Proof. split; [apply color_byte_nonpositive | reflexivity]. Qed.

Lemma color_byte_out_of_range_witness :
  color_byte (S754_finite true 8388608 (-23)) = byte_of_Z 0.
Proof.
  apply (proj1 (color_byte_out_of_range (S754_finite true 8388608 (-23)))).
  reflexivity.
Defined.

(** ** A file with one number per line *)

Lemma read_rows_single lines xs :
  Forall2 (λ l x, ∃ tok, Np.fields l = [tok] ∧ Np.field tok = Ok x) lines xs →
  ∀ ncols, ncols = None ∨ ncols = Some 1%nat →
  Np.read_rows lines ncols = Ok (map (λ x, [x]) xs).
Proof.
  induction 1 as [|l x lines xs (tok & Hf & Hx) _ IH]; intros ncols Hn;
    [reflexivity|].
  cbn [Np.read_rows]. rewrite Hf. cbn [mapM_result]. rewrite Hx.
  cbn [mbind result_bind length].
  rewrite bool_decide_eq_true_2 by (destruct Hn as [->| ->]; reflexivity).
  rewrite IH by now right. reflexivity.
Qed.

Lemma concat_singletons {A} (xs : list A) : concat (map (λ x, [x]) xs) = xs.
Proof. induction xs as [|x xs IH]; [reflexivity|]. cbn. now rewrite IH. Qed.

(** X9.  A text file of two or more lines, each holding a single number, is
    squeezed by [loadtxt] to a vector and reshaped to one row: without an
    Open3D reading of it, [load_point_cloud] returns a single point whose
    columns are the lines of the file, with colours announced as soon as
    there are six lines. *)
Theorem column_file_is_one_point fs path f xs :
  fs !! path = Some f → file_o3d f = None →
  Forall2 (λ l x, ∃ tok, Np.fields l = [tok] ∧ Np.field tok = Ok x)
    (file_text f) xs →
  (2 ≤ length xs)%nat →
  read_data fs path = Some (Np.A2 (length xs) [xs]) ∧
  ∃ c rows, load_point_cloud fs path
            = Ok (Np.A2 c rows, bool_decide (6 ≤ length xs)%nat) ∧
            length rows = 1%nat.
Proof.
  intros Hf Ho Hlines Hlen.
  assert (Hxyz : _load_xyz fs path = Some (Np.A2 (length xs) [xs])).
  { unfold _load_xyz, Np.loadtxt. rewrite Hf. cbn [fmap option_fmap option_map].
    rewrite (read_rows_single _ _ Hlines None) by now left.
    cbn [mbind result_bind].
    destruct xs as [|x [|y xs]]; cbn [length] in Hlen; try lia.
    cbn [map Np.squeeze_rows length Nat.eqb except_none].
    change ([x] :: [y] :: map (λ x0, [x0]) xs) with (map (λ x0, [x0]) (x :: y :: xs)).
    now rewrite concat_singletons. }
  assert (Hread : read_data fs path = Some (Np.A2 (length xs) [xs])).
  { unfold read_data, _try_open3d. rewrite Hf. cbn [mbind option_bind].
    rewrite Ho. cbn [mbind option_bind]. destruct (bool_decide _); exact Hxyz. }
  split; [exact Hread|].
  unfold load_point_cloud. rewrite Hread.
  assert (Hrect : Np.rectangular (length xs) [xs]) by (repeat constructor).
  assert (Hne : [xs] ≠ []) by discriminate.
  destruct (normalize_total (length xs) [xs] Hne Hrect) as (arr & hc & Hn).
  destruct (normalize_shape _ _ _ _ Hne Hrect Hn)
    as (c' & rows' & -> & Hrows & _ & Hw).
  exists c', rows'. split; [|exact Hrows].
  rewrite Hn. do 2 f_equal.
  destruct Hw as [(-> & H6 & _)|(-> & H6 & _)].
  - now rewrite bool_decide_eq_true_2.
  - rewrite bool_decide_eq_false_2; [reflexivity | lia].
Qed.

Lemma column_file_is_one_point_witness :
  read_data {[ "col.txt" := text_file ["1"; "2"; "3"; "4"; "5"; "6"] ]} "col.txt"
  = Some (Np.A2 6 [[F32.of_Z 1; F32.of_Z 2; F32.of_Z 3;
                    F32.of_Z 4; F32.of_Z 5; F32.of_Z 6]]) ∧
  ∃ c rows, load_point_cloud {[ "col.txt" := text_file ["1"; "2"; "3"; "4"; "5"; "6"] ]}
              "col.txt" = Ok (Np.A2 c rows, true) ∧
            length rows = 1%nat.
Proof.
  apply (column_file_is_one_point
           {[ "col.txt" := text_file ["1"; "2"; "3"; "4"; "5"; "6"] ]} "col.txt"
           (text_file ["1"; "2"; "3"; "4"; "5"; "6"])
           [F32.of_Z 1; F32.of_Z 2; F32.of_Z 3; F32.of_Z 4; F32.of_Z 5; F32.of_Z 6]).
  - vm_compute. reflexivity.
  - reflexivity.
  - repeat constructor; eexists; (split; [vm_compute; reflexivity|]);
      vm_compute; reflexivity.
  - cbn. lia.
Defined.

(** ** One record per qualifying line *)

(** The loops of [parse_cameras_txt] and [parse_points3d_txt] have one
    shape: skip a line that does not qualify, convert a line that does and
    append its record. *)
Section LineLoop.
Context {R : Type} (of_parts : list string → result R).
Context (loop : list string → list R → result (list R)).
Hypothesis loop_nil : ∀ acc, loop [] acc = Ok acc.
Hypothesis loop_skip : ∀ line rest acc,
  qualifying line = false → loop (line :: rest) acc = loop rest acc.
Hypothesis loop_step : ∀ line rest acc,
  qualifying line = true →
  loop (line :: rest) acc = (r ← of_parts (parts_of line); loop rest (acc ++ [r])).

Lemma qualifying_lines_skip line f :
  qualifying line = false → qualifying_lines (line :: f) = qualifying_lines f.
Proof.
  intros H. unfold qualifying_lines. rewrite filter_cons_False; [reflexivity|].
  now rewrite H.
Qed.

Lemma loop_records lines : ∀ acc out,
  loop lines acc = Ok out ↔
  ∃ rs, out = acc ++ rs ∧
        Forall2 (λ l r, of_parts (parts_of l) = Ok r) (qualifying_lines lines) rs.
Proof.
  induction lines as [|line lines IH]; intros acc out.
  - rewrite loop_nil. split.
    + intros [= <-]. exists []. split; [now rewrite app_nil_r | constructor].
    + intros (rs & -> & Hrs). apply Forall2_nil_inv_l in Hrs as ->.
      now rewrite app_nil_r.
  - destruct (qualifying line) eqn:Hq.
    + rewrite (loop_step _ _ _ Hq), (qualifying_lines_cons _ _ Hq). split.
      * destruct (of_parts (parts_of line)) as [r|e] eqn:Hr;
          cbn [mbind result_bind]; [|intros [=]].
        intros Hloop. apply IH in Hloop as (rs & -> & Hrs).
        exists (r :: rs). split; [now rewrite <- app_assoc|].
        constructor; [exact Hr | exact Hrs].
      * intros (rs & -> & Hrs).
        apply Forall2_cons_inv_l in Hrs as (r & rs' & Hr & Hrs & ->).
        rewrite Hr. cbn [mbind result_bind]. apply IH.
        exists rs'. split; [now rewrite <- app_assoc | exact Hrs].
    + rewrite (loop_skip _ _ _ Hq), (qualifying_lines_skip _ _ Hq). apply IH.
Qed.

Lemma loop_qualifying lines : ∀ acc,
  loop (qualifying_lines lines) acc = loop lines acc.
Proof.
  induction lines as [|line lines IH]; intros acc; [reflexivity|].
  destruct (qualifying line) eqn:Hq.
  - rewrite (qualifying_lines_cons _ _ Hq), !(loop_step _ _ _ Hq).
    destruct (of_parts (parts_of line)); cbn [mbind result_bind]; [apply IH | reflexivity].
  - rewrite (qualifying_lines_skip _ _ Hq), (loop_skip _ _ _ Hq). apply IH.
Qed.

Lemma loop_stops pre : ∀ line post acc acc' e,
  loop pre acc = Ok acc' → qualifying line = true →
  of_parts (parts_of line) = Err e →
  loop (pre ++ line :: post) acc = Err e.
Proof.
  induction pre as [|l pre IH]; intros line post acc acc' e Hpre Hq He.
  - cbn [app]. rewrite (loop_step _ _ _ Hq), He. reflexivity.
  - cbn [app]. destruct (qualifying l) eqn:Hl.
    + rewrite (loop_step _ _ _ Hl) in Hpre. rewrite (loop_step _ _ _ Hl).
      destruct (of_parts (parts_of l)); cbn [mbind result_bind] in *; [|discriminate].
      eapply IH; eassumption.
    + rewrite (loop_skip _ _ _ Hl) in Hpre. rewrite (loop_skip _ _ _ Hl).
      eapply IH; eassumption.
Qed.
End LineLoop.

Lemma points_loop_skip line rest points :
  qualifying line = false →
  points_loop (line :: rest) points = points_loop rest points.
Proof.
  intros Hq. cbn [points_loop]. now rewrite skip_is_not_qualifying, Hq.
Qed.

(** ** What a camera line and a point line convert to *)

Lemma int_ok_opt t v : Py.int t = Ok v ↔ Py.int_opt t = Some v.
Proof. unfold Py.int. destruct (Py.int_opt t); split; congruence. Qed.

Lemma float_ok_opt t v : Py.float t = Ok v ↔ Py.float_opt true t = Some v.
Proof. unfold Py.float. destruct (Py.float_opt true t); split; congruence. Qed.

Lemma mapM_float_Forall2 ps vs :
  mapM_result Py.float ps = Ok vs ↔
  Forall2 (λ t v, Py.float_opt true t = Some v) ps vs.
Proof.
  revert vs. induction ps as [|t ps IH]; intros vs; cbn [mapM_result].
  - split.
    + intros [= <-]. constructor.
    + intros H. inversion H. reflexivity.
  - split.
    + destruct (Py.float t) as [v|] eqn:Ht; cbn [mbind result_bind]; [|intros [=]].
      destruct (mapM_result Py.float ps) as [vs'|] eqn:Hps;
        cbn [mbind result_bind]; [|intros [=]].
      intros [= <-]. constructor; [now apply float_ok_opt | now apply IH].
    + intros H. apply Forall2_cons_inv_l in H as (v & vs' & Ht & Hps & ->).
      apply float_ok_opt in Ht. rewrite Ht. cbn [mbind result_bind].
      apply IH in Hps. rewrite Hps. reflexivity.
Qed.

Lemma camera_of_parts_describes line cam :
  camera_of_parts (parts_of line) = Ok cam ↔ describes_camera line cam.
Proof.
  unfold describes_camera, token. split.
  - intros Hcam.
    destruct (parts_of line) as [|t0 [|t1 [|t2 [|t3 ps]]]].
    1-4: exfalso; revert Hcam; unfold camera_of_parts, Py.index;
      cbn [lookup list_lookup mbind result_bind];
      repeat (match goal with
              | |- context [Py.int ?t] => destruct (Py.int t); cbn [mbind result_bind]
              end); discriminate.
    rewrite camera_of_parts_4 in Hcam.
    destruct (Py.int t0) as [v0|] eqn:C0; cbn [mbind result_bind] in Hcam; [|discriminate].
    destruct (Py.int t2) as [v2|] eqn:C2; cbn [mbind result_bind] in Hcam; [|discriminate].
    destruct (Py.int t3) as [v3|] eqn:C3; cbn [mbind result_bind] in Hcam; [|discriminate].
    destruct (mapM_result Py.float ps) as [vs|] eqn:Hps;
      cbn [mbind result_bind] in Hcam; [|discriminate].
    injection Hcam as <-.
    cbn [cam_id cam_model cam_width cam_height cam_params
         lookup list_lookup mbind option_bind drop].
    apply int_ok_opt in C0, C2, C3. apply mapM_float_Forall2 in Hps.
    split_and!; assumption || reflexivity.
  - intros (H0 & H1 & H2 & H3 & Hps).
    destruct (parts_of line) as [|t0 [|t1 [|t2 [|t3 ps]]]];
      cbn [lookup list_lookup mbind option_bind] in *; try discriminate.
    rewrite camera_of_parts_4.
    apply int_ok_opt in H0, H2, H3. rewrite H0, H2, H3. cbn [mbind result_bind].
    change (drop 4 (t0 :: t1 :: t2 :: t3 :: ps)) with ps in Hps.
    apply mapM_float_Forall2 in Hps. rewrite Hps.
    cbn [mbind result_bind]. injection H1 as H1.
    destruct cam. cbn in *. congruence.
Qed.

Lemma point_of_parts_describes line pt :
  point_of_parts (parts_of line) = Ok pt ↔ describes_point line pt.
Proof.
  unfold describes_point, token. split.
  - intros Hpt.
    destruct (parts_of line) as [|t0 [|t1 [|t2 [|t3 [|t4 [|t5 [|t6 [|t7 ps]]]]]]]].
    1-8: exfalso; revert Hpt; unfold point_of_parts, Py.index;
      cbn [lookup list_lookup mbind result_bind];
      repeat (match goal with
              | |- context [Py.int ?t] => destruct (Py.int t); cbn [mbind result_bind]
              | |- context [Py.float ?t] => destruct (Py.float t); cbn [mbind result_bind]
              end); discriminate.
    unfold point_of_parts, Py.index in Hpt.
    cbn [lookup list_lookup mbind result_bind] in Hpt.
    destruct (Py.int t0) as [v0|] eqn:C0; cbn [mbind result_bind] in Hpt; [|discriminate].
    destruct (Py.float t1) as [v1|] eqn:C1; cbn [mbind result_bind] in Hpt; [|discriminate].
    destruct (Py.float t2) as [v2|] eqn:C2; cbn [mbind result_bind] in Hpt; [|discriminate].
    destruct (Py.float t3) as [v3|] eqn:C3; cbn [mbind result_bind] in Hpt; [|discriminate].
    destruct (Py.int t4) as [v4|] eqn:C4; cbn [mbind result_bind] in Hpt; [|discriminate].
    destruct (Py.int t5) as [v5|] eqn:C5; cbn [mbind result_bind] in Hpt; [|discriminate].
    destruct (Py.int t6) as [v6|] eqn:C6; cbn [mbind result_bind] in Hpt; [|discriminate].
    destruct (Py.float t7) as [v7|] eqn:C7; cbn [mbind result_bind] in Hpt; [|discriminate].
    injection Hpt as <-.
    cbn [pt_id pt_x pt_y pt_z pt_r pt_g pt_b pt_error
         lookup list_lookup mbind option_bind].
    apply int_ok_opt in C0, C4, C5, C6. apply float_ok_opt in C1, C2, C3, C7.
    split_and!; assumption.
  - intros (H0 & H1 & H2 & H3 & H4 & H5 & H6 & H7).
    apply bind_token_some in H0 as (t0 & L0 & C0), H1 as (t1 & L1 & C1),
      H2 as (t2 & L2 & C2), H3 as (t3 & L3 & C3), H4 as (t4 & L4 & C4),
      H5 as (t5 & L5 & C5), H6 as (t6 & L6 & C6), H7 as (t7 & L7 & C7).
    unfold point_of_parts, Py.index.
    rewrite L0, L1, L2, L3, L4, L5, L6, L7. cbn [mbind result_bind].
    rewrite (int_of_opt _ _ C0), (float_of_opt _ _ C1), (float_of_opt _ _ C2),
      (float_of_opt _ _ C3), (int_of_opt _ _ C4), (int_of_opt _ _ C5),
      (int_of_opt _ _ C6), (float_of_opt _ _ C7).
    cbn [mbind result_bind]. now destruct pt.
Qed.

Lemma Forall2_iff_l {A B} (P Q : A → B → Prop) xs ys :
  (∀ x y, P x y ↔ Q x y) → Forall2 P xs ys ↔ Forall2 Q xs ys.
Proof.
  intros H. split; intros HF; eapply Forall2_impl; try exact HF;
    intros x y; apply H.
Qed.

(** X10.  [parse_cameras_txt] succeeds with a list of cameras exactly when that
    list holds, in file order, one record for each line that is neither a
    comment nor blank, each record the conversion of its line: integer id,
    width and height, the model token as written, and one float parameter
    for every token after the fourth, however many there are. *)
Theorem cameras_records f cams :
  parse_cameras_txt f = Ok cams ↔
  Forall2 describes_camera (qualifying_lines f) cams.
Proof.
  unfold parse_cameras_txt.
  rewrite (loop_records camera_of_parts cameras_loop (λ _, eq_refl)
             cameras_loop_skip cameras_loop_step f [] cams).
  rewrite <- (Forall2_iff_l _ _ _ _ camera_of_parts_describes).
  split.
  - intros (rs & -> & H). exact H.
  - intros H. exists cams. split; [reflexivity | exact H].
Qed.

Lemma cameras_records_witness :
  Forall2 describes_camera (qualifying_lines sample_cameras) [sample_camera_3].
Proof.
  apply (proj1 (cameras_records sample_cameras [sample_camera_3])).
  vm_compute. reflexivity.
Defined.

(** X11.  [parse_points3d_txt] succeeds with a list of points exactly when that
    list holds, in file order, one record for each line that is neither a
    comment nor blank, each record the conversion of the first eight
    tokens of its line; the track that follows them is not read. *)
Theorem points_records f pts :
  parse_points3d_txt f = Ok pts ↔
  Forall2 describes_point (qualifying_lines f) pts.
Proof.
  unfold parse_points3d_txt.
  rewrite (loop_records point_of_parts points_loop (λ _, eq_refl)
             points_loop_skip points_loop_step f [] pts).
  rewrite <- (Forall2_iff_l _ _ _ _ point_of_parts_describes).
  split.
  - intros (rs & -> & H). exact H.
  - intros H. exists pts. split; [reflexivity | exact H].
Qed.

Lemma points_records_witness :
  Forall2 describes_point (qualifying_lines sample_points) [sample_point_1].
Proof.
  apply (proj1 (points_records sample_points [sample_point_1])).
  vm_compute. reflexivity.
Defined.

(** X12.  Two files that have the same lines once comments and blank lines are
    removed give the same result, records or error, with each of the
    three parsers. *)
Theorem same_lines_same_parse f g :
  qualifying_lines f = qualifying_lines g →
  parse_cameras_txt f = parse_cameras_txt g ∧
  parse_images_txt f = parse_images_txt g ∧
  parse_points3d_txt f = parse_points3d_txt g.
Proof.
  intros H. unfold parse_cameras_txt, parse_images_txt, parse_points3d_txt.
  fold (qualifying_lines f). fold (qualifying_lines g). split_and!.
  - rewrite <- (loop_qualifying camera_of_parts cameras_loop
                  cameras_loop_skip cameras_loop_step f).
    rewrite <- (loop_qualifying camera_of_parts cameras_loop
                  cameras_loop_skip cameras_loop_step g).
    now rewrite H.
  - now rewrite H.
  - rewrite <- (loop_qualifying point_of_parts points_loop
                  points_loop_skip points_loop_step f).
    rewrite <- (loop_qualifying point_of_parts points_loop
                  points_loop_skip points_loop_step g).
    now rewrite H.
Qed.

Lemma same_lines_same_parse_witness :
  parse_cameras_txt sample_cameras
  = parse_cameras_txt ["3 PINHOLE 640 480 500.0 500.0 320.0 240.0"; "   "; " # end"] ∧
  parse_images_txt sample_cameras
  = parse_images_txt ["3 PINHOLE 640 480 500.0 500.0 320.0 240.0"; "   "; " # end"] ∧
  parse_points3d_txt sample_cameras
  = parse_points3d_txt ["3 PINHOLE 640 480 500.0 500.0 320.0 240.0"; "   "; " # end"].
Proof.
  apply (same_lines_same_parse sample_cameras
           ["3 PINHOLE 640 480 500.0 500.0 320.0 240.0"; "   "; " # end"]).
  vm_compute. reflexivity.
Defined.

(** ** A line with too few tokens *)

(** Column [i] of the line converts ([Hnum]): discharge the side condition
    of a conversion. *)
Ltac numeric_column Hnum :=
  first [ exact (Hnum 0%nat _ _ eq_refl eq_refl)
        | exact (Hnum 1%nat _ _ eq_refl eq_refl)
        | exact (Hnum 2%nat _ _ eq_refl eq_refl)
        | exact (Hnum 3%nat _ _ eq_refl eq_refl)
        | exact (Hnum 4%nat _ _ eq_refl eq_refl)
        | exact (Hnum 5%nat _ _ eq_refl eq_refl)
        | exact (Hnum 6%nat _ _ eq_refl eq_refl)
        | exact (Hnum 7%nat _ _ eq_refl eq_refl) ].

Ltac convert_columns int_ok float_ok Hnum :=
  cbn [lookup list_lookup mbind result_bind];
  repeat match goal with
    | |- context [Py.int ?t] =>
        let H := fresh "C" in
        destruct (int_ok t) as [? H];
        [numeric_column Hnum | rewrite H; cbn [mbind result_bind]]
    | |- context [Py.float ?t] =>
        let H := fresh "C" in
        destruct (float_ok t) as [? H];
        [numeric_column Hnum | rewrite H; cbn [mbind result_bind]]
    end.

Lemma camera_of_parts_short parts :
  (length parts < 4)%nat → numeric_tokens CamerasTxt parts →
  camera_of_parts parts = Err IndexError_list.
Proof.
  intros Hlen Hnum.
  destruct parts as [|t0 [|t1 [|t2 [|t3 ps]]]]; cbn [length] in Hlen; try lia;
    unfold camera_of_parts, Py.index;
    convert_columns converts_int converts_float Hnum; reflexivity.
Qed.

Lemma point_of_parts_short parts :
  (length parts < 8)%nat → numeric_tokens Points3DTxt parts →
  point_of_parts parts = Err IndexError_list.
Proof.
  intros Hlen Hnum.
  destruct parts as [|t0 [|t1 [|t2 [|t3 [|t4 [|t5 [|t6 [|t7 ps]]]]]]]];
    cbn [length] in Hlen; try lia;
    unfold point_of_parts, Py.index;
    convert_columns converts_int converts_float Hnum; reflexivity.
Qed.

(** X13.  When the lines before it parse, a line of cameras.txt that is neither
    a comment nor blank and has fewer than four tokens, the numeric ones
    convertible, makes [parse_cameras_txt] fail with [IndexError], whatever
    follows: the line is not skipped and the records read so far are
    lost. *)
Theorem short_camera_line_aborts pre line post cams :
  parse_cameras_txt pre = Ok cams → qualifying line = true →
  (length (parts_of line) < 4)%nat →
  numeric_tokens CamerasTxt (parts_of line) →
  parse_cameras_txt (pre ++ line :: post) = Err IndexError_list.
Proof.
  intros Hpre Hq Hlen Hnum. unfold parse_cameras_txt in *.
  apply (loop_stops camera_of_parts cameras_loop cameras_loop_skip cameras_loop_step
           pre line post [] cams); [exact Hpre | exact Hq|].
  now apply camera_of_parts_short.
Qed.

Lemma short_camera_line_aborts_witness :
  parse_cameras_txt (sample_cameras ++ "4 PINHOLE 640" :: ["5 PINHOLE 640 480"])
  = Err IndexError_list.
Proof.
  apply (short_camera_line_aborts sample_cameras "4 PINHOLE 640"
           ["5 PINHOLE 640 480"] [sample_camera_3]).
  - vm_compute. reflexivity.
  - reflexivity.
  - vm_compute. lia.
  - intros [|[|[|i]]] t n Ht Hn; vm_compute in Ht, Hn; try discriminate;
      injection Ht as <-; injection Hn as <-; vm_compute; reflexivity.
Defined.

(** X14.  When the lines before it parse, a line of points3D.txt that is neither
    a comment nor blank and has fewer than eight tokens, the numeric ones
    convertible, makes [parse_points3d_txt] fail with [IndexError],
    whatever follows. *)
Theorem short_point_line_aborts pre line post pts :
  parse_points3d_txt pre = Ok pts → qualifying line = true →
  (length (parts_of line) < 8)%nat →
  numeric_tokens Points3DTxt (parts_of line) →
  parse_points3d_txt (pre ++ line :: post) = Err IndexError_list.
Proof.
  intros Hpre Hq Hlen Hnum. unfold parse_points3d_txt in *.
  apply (loop_stops point_of_parts points_loop points_loop_skip points_loop_step
           pre line post [] pts); [exact Hpre | exact Hq|].
  now apply point_of_parts_short.
Qed.

Lemma short_point_line_aborts_witness :
  parse_points3d_txt (["# 3D point list"] ++ "1 0.5 1.5 2.5 255 0 0" :: [])
  = Err IndexError_list.
Proof.
  apply (short_point_line_aborts ["# 3D point list"] "1 0.5 1.5 2.5 255 0 0" [] []).
  - reflexivity.
  - reflexivity.
  - vm_compute. lia.
  - intros [|[|[|[|[|[|[|i]]]]]]] t n Ht Hn; vm_compute in Ht, Hn; try discriminate;
      injection Ht as <-; injection Hn as <-; vm_compute; reflexivity.
Defined.

(** ** images.txt *)

Lemma image_of_parts_err parts e :
  (10 ≤ length parts)%nat → image_of_parts parts = Err e →
  ∃ tok, e = ValueError_int tok ∨ e = ValueError_float tok.
Proof.
  intros Hlen.
  destruct parts as [|t0 [|t1 [|t2 [|t3 [|t4 [|t5 [|t6 [|t7 [|t8 [|t9 ps]]]]]]]]]];
    cbn [length] in Hlen; try lia.
  unfold image_of_parts, Py.index. cbn [lookup list_lookup mbind result_bind].
  repeat match goal with
    | |- context [Py.int ?t] =>
        let H := fresh "C" in
        destruct (int_outcome t) as [[? H]|H]; rewrite H; cbn [mbind result_bind];
        [|intros [= <-]; eauto]
    | |- context [Py.float ?t] =>
        let H := fresh "C" in
        destruct (float_outcome t) as [[? H]|H]; rewrite H; cbn [mbind result_bind];
        [|intros [= <-]; eauto]
    end.
  intros [=].
Qed.

(** The loop drops one or two lines at a time: properties of its result
    follow by induction on a bound of the number of lines left. *)
Lemma images_loop_err n : ∀ lines images e,
  (length lines ≤ n)%nat → images_loop lines images = Err e →
  ∃ tok, e = ValueError_int tok ∨ e = ValueError_float tok.
Proof.
  induction n as [|n IH]; intros lines images e Hn.
  - destruct lines; [intros [=] | cbn [length] in Hn; lia].
  - destruct lines as [|line rest]; [intros [=]|].
    cbn [length] in Hn. cbn [images_loop]. case_bool_decide as Hlen.
    + apply IH. lia.
    + destruct (image_of_parts (parts_of line)) as [img|e'] eqn:Himg;
        cbn [mbind result_bind].
      * destruct rest as [|even rest]; [intros [=]|].
        apply IH. cbn [length] in Hn. lia.
      * intros [= <-]. eapply image_of_parts_err; [|exact Himg]. lia.
Qed.

(** X15.  Once images.txt is opened and decoded, whatever lines it holds,
    the filter and the loop of [parse_images_txt] fail only with the
    [ValueError] of a token that does not convert: the ten-token test
    keeps every indexing of a line within bounds. *)
Theorem images_parse_errors f e :
  parse_images_txt f = Err e →
  ∃ tok, e = ValueError_int tok ∨ e = ValueError_float tok.
Proof.
  unfold parse_images_txt. apply (images_loop_err _ _ _ _ (Nat.le_refl _)).
Qed.

Lemma images_parse_errors_witness :
  ∃ tok, ValueError_float "north" = ValueError_int tok ∨
         ValueError_float "north" = ValueError_float tok.
Proof.
  apply (images_parse_errors ["7 1 0 0 0 north 0 0 3 frame007.jpg"]
           (ValueError_float "north")).
  vm_compute. reflexivity.
Defined.

Lemma images_loop_ok n : ∀ lines images out,
  (length lines ≤ n)%nat → images_loop lines images = Ok out →
  ∃ new, out = images ++ new ∧
         (2 * length new ≤ length lines + 1)%nat ∧
         Forall (λ img, ∃ l, l ∈ lines ∧ (10 ≤ length (parts_of l))%nat ∧
                             image_of_parts (parts_of l) = Ok img) new.
Proof.
  induction n as [|n IH]; intros lines images out Hn.
  - destruct lines; [|cbn [length] in Hn; lia].
    intros [= <-]. exists []. rewrite app_nil_r.
    split_and!; [reflexivity | cbn; lia | constructor].
  - destruct lines as [|line rest].
    { intros [= <-]. exists []. rewrite app_nil_r.
      split_and!; [reflexivity | cbn; lia | constructor]. }
    cbn [length] in Hn. cbn [images_loop]. case_bool_decide as Hlen.
    + intros Hloop. apply IH in Hloop as (new & -> & Hcount & Hfrom); [|lia].
      exists new. split_and!; [reflexivity | cbn [length]; lia |].
      eapply Forall_impl; [exact Hfrom|]. intros img (l & Hl & Hten & Himg).
      exists l. split_and!; [now apply list_elem_of_further | exact Hten | exact Himg].
    + destruct (image_of_parts (parts_of line)) as [img|e'] eqn:Himg;
        cbn [mbind result_bind]; [|intros [=]].
      assert (Hhere : ∃ l, l ∈ line :: rest ∧ (10 ≤ length (parts_of l))%nat ∧
                           image_of_parts (parts_of l) = Ok img).
      { exists line. split_and!; [apply list_elem_of_here | lia | exact Himg]. }
      destruct rest as [|even rest].
      * intros [= <-]. exists [img].
        split_and!; [reflexivity | cbn; lia | now constructor].
      * intros Hloop. cbn [length] in Hn.
        apply IH in Hloop as (new & -> & Hcount & Hfrom); [|lia].
        exists (img :: new). rewrite <- app_assoc.
        split_and!; [reflexivity | cbn [length]; lia |].
        constructor; [exact Hhere|].
        eapply Forall_impl; [exact Hfrom|]. intros img' (l & Hl & Hten & Himg').
        exists l. split_and!; [|exact Hten | exact Himg'].
        now do 2 apply list_elem_of_further.
Qed.

(** X16.  When [parse_images_txt] succeeds, every record is the conversion of a
    line of the file that is neither a comment nor blank and has at least
    ten tokens, and there are at most as many records as half the number
    of such non-comment, non-blank lines, rounded up. *)
Theorem images_records_bound f imgs :
  parse_images_txt f = Ok imgs →
  (2 * length imgs ≤ length (qualifying_lines f) + 1)%nat ∧
  Forall (λ img, ∃ l, l ∈ f ∧ qualifying l = true ∧
                      (10 ≤ length (parts_of l))%nat ∧
                      image_of_parts (parts_of l) = Ok img) imgs.
Proof.
  unfold parse_images_txt. fold (qualifying_lines f). intros Hloop.
  apply (images_loop_ok _ _ _ _ (Nat.le_refl _)) in Hloop
    as (new & -> & Hcount & Hfrom).
  cbn [app]. split; [exact Hcount|].
  eapply Forall_impl; [exact Hfrom|]. intros img (l & Hl & Hten & Himg).
  apply list_elem_of_filter in Hl as [Hq Hl].
  exists l. split_and!; assumption.
Qed.

Lemma images_records_bound_witness :
  (2 * length [sample_pose_7; sample_pose_8] ≤ length (qualifying_lines sample_images) + 1)%nat ∧
  Forall (λ img, ∃ l, l ∈ sample_images ∧ qualifying l = true ∧
                      (10 ≤ length (parts_of l))%nat ∧
                      image_of_parts (parts_of l) = Ok img)
    [sample_pose_7; sample_pose_8].
Proof.
  apply (images_records_bound sample_images [sample_pose_7; sample_pose_8]).
  vm_compute. reflexivity.
Defined.

(** X17.  An image record depends on the first ten tokens of its line only and
    a point record on the first eight: what follows them (the rest of a
    file name holding a space, the track of a point) is ignored. *)
Theorem tokens_beyond_record_ignored parts :
  image_of_parts (take 10 parts) = image_of_parts parts ∧
  point_of_parts (take 8 parts) = point_of_parts parts.
Proof.
  split.
  - destruct parts as [|t0 [|t1 [|t2 [|t3 [|t4 [|t5 [|t6 [|t7 [|t8 [|t9 ps]]]]]]]]]];
      reflexivity.
  - destruct parts as [|t0 [|t1 [|t2 [|t3 [|t4 [|t5 [|t6 [|t7 ps]]]]]]]];
      reflexivity.
Qed.

(** ** The dictionary of a workspace *)

Ltac dict_lookup :=
  repeat first [ rewrite lookup_insert_eq
               | rewrite lookup_insert_ne by discriminate
               | rewrite lookup_empty ].

Ltac entry_goal :=
  match goal with
  | |- ∀ f, None = Some f → _ => intros ? [=]
  | |- ∀ f, Some _ = Some f → _ =>
      intros ? [= <-]; eexists; split; [eassumption|]; dict_lookup; reflexivity
  | |- Some _ = None → _ => intros [=]
  | |- None = None → _ => intros _; dict_lookup; reflexivity
  end.

Lemma load_workspace_entries ws r :
  load_colmap_workspace ws = Ok r →
  (∀ k, is_Some (r !! k) → k = "cameras" ∨ k = "images" ∨ k = "points") ∧
  (∀ f, ws !! "cameras.txt" = Some f →
        ∃ cs, parse_cameras_txt f = Ok cs ∧ r !! "cameras" = Some (Cameras cs)) ∧
  (ws !! "cameras.txt" = None → r !! "cameras" = None) ∧
  (∀ f, ws !! "images.txt" = Some f →
        ∃ ims, parse_images_txt f = Ok ims ∧ r !! "images" = Some (Images ims)) ∧
  (ws !! "images.txt" = None → r !! "images" = None) ∧
  (∀ f, ws !! "points3D.txt" = Some f →
        ∃ ps, parse_points3d_txt f = Ok ps ∧ r !! "points" = Some (Points ps)) ∧
  (ws !! "points3D.txt" = None → r !! "points" = None).
Proof.
  unfold load_colmap_workspace.
  destruct (ws !! "cameras.txt") as [fc|];
    [destruct (parse_cameras_txt fc) as [cs|] eqn:Hcs|]; cbn [mbind result_bind];
    try (intros [=]; fail);
    (destruct (ws !! "images.txt") as [fi|];
     [destruct (parse_images_txt fi) as [ims|] eqn:Hims|]; cbn [mbind result_bind];
     try (intros [=]; fail));
    (destruct (ws !! "points3D.txt") as [fp|];
     [destruct (parse_points3d_txt fp) as [ps|] eqn:Hps|]; cbn [mbind result_bind];
     try (intros [=]; fail));
    intros [= <-];
    (split;
     [ intros k Hk;
       destruct (decide (k = "cameras")) as [->|Hc]; [now left|];
       destruct (decide (k = "images")) as [->|Hi]; [now right; left|];
       destruct (decide (k = "points")) as [->|Hp]; [now right; right|];
       exfalso; revert Hk;
       rewrite ?lookup_insert_ne by congruence; rewrite lookup_empty;
       intros [? [=]]
     | split_and!; entry_goal ]).
Qed.

(** X18.  When [load_colmap_workspace] succeeds, its dictionary has the key
    [cameras] exactly when cameras.txt exists, and then holds the records
    parsed from it; likewise [images] for images.txt and [points] for
    points3D.txt; it has no other key.  A missing file is not an error. *)
Theorem workspace_entries ws r :
  load_colmap_workspace ws = Ok r →
  (∀ k, is_Some (r !! k) → k = "cameras" ∨ k = "images" ∨ k = "points") ∧
  (∀ f, ws !! "cameras.txt" = Some f →
        ∃ cs, parse_cameras_txt f = Ok cs ∧ r !! "cameras" = Some (Cameras cs)) ∧
  (ws !! "cameras.txt" = None → r !! "cameras" = None) ∧
  (∀ f, ws !! "images.txt" = Some f →
        ∃ ims, parse_images_txt f = Ok ims ∧ r !! "images" = Some (Images ims)) ∧
  (ws !! "images.txt" = None → r !! "images" = None) ∧
  (∀ f, ws !! "points3D.txt" = Some f →
        ∃ ps, parse_points3d_txt f = Ok ps ∧ r !! "points" = Some (Points ps)) ∧
  (ws !! "points3D.txt" = None → r !! "points" = None).
Proof. apply load_workspace_entries. Qed.

Lemma workspace_entries_witness :
  (∃ cs, parse_cameras_txt sample_cameras = Ok cs ∧
         ({[ "cameras" := Cameras [sample_camera_3] ]} : gmap string entry) !! "cameras"
         = Some (Cameras cs)) ∧
  ({[ "cameras" := Cameras [sample_camera_3] ]} : gmap string entry) !! "images" = None.
Proof.
  destruct (workspace_entries {[ "cameras.txt" := sample_cameras ]}
              {[ "cameras" := Cameras [sample_camera_3] ]})
    as (_ & Hc & _ & _ & Hi & _).
  - vm_compute. reflexivity.
  - split.
    + apply (Hc sample_cameras). vm_compute. reflexivity.
    + apply Hi. vm_compute. reflexivity.
Defined.

(** ** The store: COLMAP data *)

Lemma dict_of_snoc {K V} `{Countable K} (key : V → K) l v :
  dict_of key (l ++ [v]) = <[key v := v]> (dict_of key l).
Proof. unfold dict_of. now rewrite foldl_snoc. Qed.

Lemma dict_of_lookup {K V} `{Countable K} (key : V → K) l k :
  dict_of key l !! k = last (filter (λ v, key v = k) l).
Proof.
  induction l as [|v l IH] using rev_ind; [reflexivity|].
  rewrite dict_of_snoc, filter_app.
  destruct (decide (key v = k)) as [<-|Hne].
  - rewrite lookup_insert_eq, filter_cons_True by reflexivity.
    cbn [filter list_filter]. now rewrite last_snoc.
  - rewrite lookup_insert_ne by exact Hne.
    rewrite filter_cons_False by exact Hne.
    cbn [filter list_filter]. now rewrite app_nil_r.
Qed.

Lemma dict_of_size {K V} `{Countable K} (key : V → K) l :
  (size (dict_of key l) ≤ length l)%nat.
Proof.
  induction l as [|v l IH] using rev_ind; [reflexivity|].
  rewrite dict_of_snoc, length_app. cbn [length].
  destruct (dict_of key l !! key v) eqn:Hk.
  - rewrite map_size_insert_Some by eauto. lia.
  - rewrite map_size_insert_None by exact Hk. lia.
Qed.

Section StoreFacts.
Context {json : Type}.
Implicit Types st : BuildingStore json.

(** X19.  [set_colmap_data] replaces both COLMAP tables of the store, whatever
    they held: under each id it keeps the last camera, and the last
    image, of the lists it is given, so the tables can hold fewer entries
    than the lists; nothing else in the store changes and nothing is
    saved. *)
Theorem colmap_data_last_wins st cameras images :
  let st' := set_colmap_data st cameras images in
  (∀ i, colmap_cameras st' !! i = last (filter (λ c, cam_id c = i) cameras)) ∧
  (∀ i, colmap_images st' !! i = last (filter (λ im, img_id im = i) images)) ∧
  (size (colmap_cameras st') ≤ length cameras)%nat ∧
  (size (colmap_images st') ≤ length images)%nat ∧
  rooms st' = rooms st ∧ persist_file st' = persist_file st.
Proof.
  cbn zeta. unfold set_colmap_data, with_colmap.
  cbn [colmap_cameras colmap_images rooms persist_file].
  split_and!; try reflexivity.
  - intros i. apply dict_of_lookup.
  - intros i. apply dict_of_lookup.
  - apply dict_of_size.
  - apply dict_of_size.
Qed.

(** X20.  For a workspace directory that exists, the route [load_colmap] either
    lets the error of [load_colmap_workspace] through and leaves the store
    as it was, or answers with the numbers of cameras, images and points
    parsed (none for a missing file) and hands exactly those cameras and
    images to [set_colmap_data]. *)
Theorem load_colmap_outcome (dirs : gmap string workspace) st name ws :
  dirs !! name = Some ws →
  (∀ e, load_colmap_workspace ws = Err e →
        Routes.load_colmap dirs st name = (Routes.Raised e, st)) ∧
  (∀ r, load_colmap_workspace ws = Ok r →
        ∃ cams ims pts,
          Routes.load_colmap dirs st name
          = (Routes.Returned {| Routes.n_cameras := length cams;
                                Routes.n_images := length ims;
                                Routes.n_points := length pts |},
             set_colmap_data st cams ims) ∧
          (∀ f, ws !! "cameras.txt" = Some f → parse_cameras_txt f = Ok cams) ∧
          (ws !! "cameras.txt" = None → cams = []) ∧
          (∀ f, ws !! "images.txt" = Some f → parse_images_txt f = Ok ims) ∧
          (ws !! "images.txt" = None → ims = []) ∧
          (∀ f, ws !! "points3D.txt" = Some f → parse_points3d_txt f = Ok pts) ∧
          (ws !! "points3D.txt" = None → pts = [])).
Proof.
  intros Hdir. unfold Routes.load_colmap. rewrite Hdir. split.
  - intros e ->. reflexivity.
  - intros r Hr. rewrite Hr.
    exists (Routes.get_cameras r), (Routes.get_images r), (Routes.get_points r).
    split; [reflexivity|].
    destruct (load_workspace_entries ws r Hr) as (_ & Hc & Hc' & Hi & Hi' & Hp & Hp').
    unfold Routes.get_cameras, Routes.get_images, Routes.get_points.
    split_and!.
    + intros f Hf. destruct (Hc f Hf) as (cs & -> & ->). reflexivity.
    + intros Hf. now rewrite (Hc' Hf).
    + intros f Hf. destruct (Hi f Hf) as (cs & -> & ->). reflexivity.
    + intros Hf. now rewrite (Hi' Hf).
    + intros f Hf. destruct (Hp f Hf) as (cs & -> & ->). reflexivity.
    + intros Hf. now rewrite (Hp' Hf).
Qed.

(** ** The store: assigning an image to a room *)

Lemma assign_image_images st image_id room_id img :
  colmap_images st !! image_id = Some img →
  colmap_images (assign_image_to_room st image_id room_id)
  = <[image_id := image_with_room img room_id]> (colmap_images st).
Proof.
  intros Himg. unfold assign_image_to_room. rewrite Himg.
  cbn [with_colmap rooms]. destruct (rooms st !! room_id); [|reflexivity].
  case_bool_decide; reflexivity.
Qed.

Lemma assign_image_rooms st image_id room_id img :
  colmap_images st !! image_id = Some img →
  rooms (assign_image_to_room st image_id room_id)
  = match rooms st !! room_id with
    | Some room =>
        if bool_decide (img_name img ∈ room_images room) then rooms st
        else <[room_id := room_with_images room (room_images room ++ [img_name img])]>
               (rooms st)
    | None => rooms st
    end.
Proof.
  intros Himg. unfold assign_image_to_room. rewrite Himg.
  cbn [with_colmap rooms]. destruct (rooms st !! room_id); [|reflexivity].
  case_bool_decide; reflexivity.
Qed.

Lemma store_ext st1 st2 :
  buildings st1 = buildings st2 → floors st1 = floors st2 →
  rooms st1 = rooms st2 → sensors st1 = sensors st2 →
  placed_objects st1 = placed_objects st2 →
  colmap_cameras st1 = colmap_cameras st2 →
  colmap_images st1 = colmap_images st2 →
  sensor_history st1 = sensor_history st2 →
  persist_file st1 = persist_file st2 → st1 = st2.
Proof. destruct st1, st2. cbn. intros. congruence. Qed.

Lemma assign_image_frame st image_id room_id :
  let st' := assign_image_to_room st image_id room_id in
  buildings st' = buildings st ∧ floors st' = floors st ∧
  sensors st' = sensors st ∧ placed_objects st' = placed_objects st ∧
  colmap_cameras st' = colmap_cameras st ∧
  sensor_history st' = sensor_history st ∧ persist_file st' = persist_file st.
Proof.
  cbn zeta. unfold assign_image_to_room.
  destruct (colmap_images st !! image_id); [|now split_and!].
  cbn [with_colmap rooms]. destruct (rooms st !! room_id); [|now split_and!].
  case_bool_decide; now split_and!.
Qed.

Lemma assign_image_absent st image_id room_id :
  colmap_images st !! image_id = None →
  assign_image_to_room st image_id room_id = st.
Proof. intros H. unfold assign_image_to_room. now rewrite H. Qed.

(** X21.  [assign_image_to_room] is idempotent: a second call with the same
    image and room leaves the store as the first call left it; in
    particular the name of the image is not listed twice in the room. *)
Theorem assign_image_idempotent st image_id room_id :
  assign_image_to_room (assign_image_to_room st image_id room_id) image_id room_id
  = assign_image_to_room st image_id room_id.
Proof.
  destruct (colmap_images st !! image_id) as [img|] eqn:Himg.
  - set (st1 := assign_image_to_room st image_id room_id).
    assert (Himg1 : colmap_images st1 !! image_id = Some (image_with_room img room_id)).
    { unfold st1. rewrite (assign_image_images _ _ _ _ Himg). apply lookup_insert_eq. }
    destruct (assign_image_frame st1 image_id room_id)
      as (Hb & Hf & Hs & Ho & Hc & Hh & Hp).
    apply store_ext; try assumption.
    + rewrite (assign_image_rooms _ _ _ _ Himg1). cbn [image_with_room img_name].
      unfold st1. rewrite (assign_image_rooms _ _ _ _ Himg).
      destruct (rooms st !! room_id) as [room|] eqn:Hroom.
      * case_bool_decide as Hin.
        -- rewrite Hroom. now rewrite bool_decide_eq_true_2.
        -- rewrite lookup_insert_eq. cbn [room_with_images room_images].
           rewrite bool_decide_eq_true_2; [reflexivity|].
           apply elem_of_app. right. apply list_elem_of_here.
      * now rewrite Hroom.
    + rewrite (assign_image_images _ _ _ _ Himg1).
      unfold st1. rewrite (assign_image_images _ _ _ _ Himg).
      now rewrite insert_insert_eq.
  - now rewrite !(assign_image_absent _ _ _ Himg).
Qed.

(** X22.  When the image is in the store, [assign_image_to_room] records the
    room id on the image, whether or not such a room exists, and changes
    no other image; when the room exists its list of images afterwards
    holds the name of the image, keeps every name it held, and is free of
    duplicates if it was; no other room changes. *)
Theorem assign_image_effect st image_id room_id img :
  colmap_images st !! image_id = Some img →
  let st' := assign_image_to_room st image_id room_id in
  colmap_images st' !! image_id = Some (image_with_room img room_id) ∧
  (∀ j, j ≠ image_id → colmap_images st' !! j = colmap_images st !! j) ∧
  (∀ room, rooms st !! room_id = Some room →
     ∃ room', rooms st' !! room_id = Some room' ∧
              img_name img ∈ room_images room' ∧
              (∀ n, n ∈ room_images room → n ∈ room_images room') ∧
              (NoDup (room_images room) → NoDup (room_images room'))) ∧
  (rooms st !! room_id = None → rooms st' = rooms st) ∧
  (∀ q, q ≠ room_id → rooms st' !! q = rooms st !! q).
Proof.
  intros Himg. cbn zeta.
  rewrite (assign_image_images _ _ _ _ Himg), (assign_image_rooms _ _ _ _ Himg).
  split_and!.
  - apply lookup_insert_eq.
  - intros j Hj. now apply lookup_insert_ne.
  - intros room Hroom. rewrite Hroom. case_bool_decide as Hin.
    + exists room. split_and!; auto.
    + eexists. split; [apply lookup_insert_eq|].
      cbn [room_with_images room_images]. split_and!.
      * apply elem_of_app. right. apply list_elem_of_here.
      * intros n Hn. apply elem_of_app. now left.
      * intros Hnd. apply NoDup_app. split_and!; [exact Hnd | | apply NoDup_singleton].
        intros x Hx Hx'. apply list_elem_of_singleton in Hx'. now subst x.
  - intros ->. reflexivity.
  - intros q Hq. destruct (rooms st !! room_id) as [room|]; [|reflexivity].
    case_bool_decide; [reflexivity|]. now apply lookup_insert_ne.
Qed.

(** X23.  Assigning an image to a room and then to a different one leaves its
    name in the list of the first room, while the image itself points to
    the second: [assign_image_to_room] never removes a name. *)
Theorem reassigned_image_stays_listed st image_id r1 r2 img room1 :
  colmap_images st !! image_id = Some img →
  rooms st !! r1 = Some room1 → r1 ≠ r2 →
  let st' := assign_image_to_room (assign_image_to_room st image_id r1) image_id r2 in
  (img_room_id <$> colmap_images st' !! image_id) = Some (Some r2) ∧
  ∃ room1', rooms st' !! r1 = Some room1' ∧ img_name img ∈ room_images room1'.
Proof.
  intros Himg Hroom Hne. cbn zeta.
  set (st1 := assign_image_to_room st image_id r1).
  assert (Himg1 : colmap_images st1 !! image_id = Some (image_with_room img r1)).
  { unfold st1. rewrite (assign_image_images _ _ _ _ Himg). apply lookup_insert_eq. }
  assert (Hroom1 : ∃ room1', rooms st1 !! r1 = Some room1' ∧
                             img_name img ∈ room_images room1').
  { unfold st1. rewrite (assign_image_rooms _ _ _ _ Himg), Hroom.
    case_bool_decide as Hin; [eauto|].
    eexists. split; [apply lookup_insert_eq|].
    cbn [room_with_images room_images]. apply elem_of_app. right.
    apply list_elem_of_here. }
  split.
  - rewrite (assign_image_images _ _ _ _ Himg1), lookup_insert_eq. reflexivity.
  - destruct Hroom1 as (room1' & Hr1 & Hin). exists room1'. split; [|exact Hin].
    rewrite (assign_image_rooms _ _ _ _ Himg1).
    destruct (rooms st1 !! r2) as [room2|]; [|exact Hr1].
    case_bool_decide; [exact Hr1|]. now rewrite lookup_insert_ne.
Qed.
End StoreFacts.

Lemma assign_image_effect_witness :
  colmap_images (assign_image_to_room sample_store 7 "room_lobby") !! 7
  = Some (image_with_room sample_pose_7 "room_lobby") ∧
  ∃ room', rooms (assign_image_to_room sample_store 7 "room_lobby") !! "room_lobby"
           = Some room' ∧
           img_name sample_pose_7 ∈ room_images room'.
Proof.
  destruct (assign_image_effect sample_store 7 "room_lobby" sample_pose_7)
    as (Hi & _ & Hr & _).
  - vm_compute. reflexivity.
  - split; [exact Hi|].
    destruct (Hr sample_room) as (room' & Hroom' & Hin & _).
    + vm_compute. reflexivity.
    + exists room'. split; assumption.
Defined.


(** ** The store: sensors, readings and objects *)

Lemma filter_ne_id (x : string) (l : list string) :
  x ∉ l → filter (λ s, s ≠ x) l = l.
Proof.
  induction l as [|y l IH]; intros Hx; [reflexivity|].
  apply not_elem_of_cons in Hx as [Hxy Hx].
  rewrite filter_cons_True by congruence. now rewrite IH.
Qed.

Lemma filter_ne_snoc (x : string) (l : list string) :
  x ∉ l → filter (λ s, s ≠ x) (l ++ [x]) = l.
Proof.
  intros Hx. rewrite filter_app, (filter_ne_id _ _ Hx).
  rewrite filter_cons_False by (intros H; now apply H).
  cbn [filter list_filter]. now rewrite app_nil_r.
Qed.

Lemma filter_ne_absent (x : string) (l : list string) :
  x ∉ filter (λ s, s ≠ x) l.
Proof. intros H. apply list_elem_of_filter in H as [H _]. now apply H. Qed.

Lemma room_sensors_with (room : Room) ss :
  room_sensors (room_with_sensors room ss) = ss.
Proof. reflexivity. Qed.

Lemma room_placed_objects_with (room : Room) os :
  room_placed_objects (room_with_placed_objects room os) = os.
Proof. reflexivity. Qed.

Lemma room_with_sensors_back (room : Room) ss :
  room_with_sensors (room_with_sensors room ss) (room_sensors room) = room.
Proof. now destruct room. Qed.

Lemma room_with_placed_objects_back (room : Room) os :
  room_with_placed_objects (room_with_placed_objects room os) (room_placed_objects room)
  = room.
Proof. now destruct room. Qed.

Lemma omap_lookup_insert_fresh {V} (m : gmap string V) k v (l : list string) :
  k ∉ l → omap (λ i, <[k := v]> m !! i) l = omap (λ i, m !! i) l.
Proof.
  induction l as [|i l IH]; intros Hk; [reflexivity|].
  apply not_elem_of_cons in Hk as [Hki Hk].
  cbn [omap list_omap]. rewrite lookup_insert_ne by exact Hki.
  specialize (IH Hk). cbn [omap] in IH. now rewrite IH.
Qed.

Section SensorFacts.
Context {json : Type}.
Implicit Types st : BuildingStore json.

(** X24.  For a sensor of the store, [update_sensor_reading] succeeds, makes
    the new reading the sensor's last reading and the last entry of its
    history, which afterwards is an end piece of the old history followed
    by the reading, never holds more than 1000 entries, and is cut to its
    last 500 when the old history had 1000 or more; the history route
    with limit 1 then returns exactly the new reading. *)
Theorem reading_history_bounded st now sensor_id value unit metadata sensor :
  sensors st !! sensor_id = Some sensor →
  ∃ reading st' h,
    update_sensor_reading st now sensor_id value unit metadata = inr (reading, st') ∧
    sensor_history st' !! sensor_id = Some h ∧
    last h = Some reading ∧
    h `suffix_of` (default [] (sensor_history st !! sensor_id) ++ [reading]) ∧
    (length h ≤ 1000)%nat ∧
    ((1000 ≤ length (default [] (sensor_history st !! sensor_id)))%nat →
     length h = 500%nat) ∧
    (sen_last_reading <$> sensors st' !! sensor_id) = Some (Some reading) ∧
    Routes.sensor_history st' sensor_id 1 = [reading].
Proof.
  intros Hs. unfold update_sensor_reading. rewrite Hs.
  cbn [with_sensors with_sensor_history sensor_history sensors].
  set (reading := {| rd_sensor_id := sensor_id; rd_timestamp := now;
                     rd_value := value; rd_unit := unit;
                     rd_metadata := default ∅ metadata |}).
  set (old := default [] (sensor_history st !! sensor_id)).
  set (h := if bool_decide (1000 < length (old ++ [reading]))%nat
            then last_n 500 (old ++ [reading]) else old ++ [reading]).
  assert (Hh : ∃ h', h = h' ++ [reading] ∧ h' `suffix_of` old ∧
                     length h' = (if bool_decide (1000 ≤ length old)%nat
                                  then 499 else length old)%nat).
  { unfold h, last_n. rewrite length_app. cbn [length].
    case_bool_decide as Hlong.
    - exists (drop (length old + 1 - 500) old). split_and!.
      + now rewrite drop_app_le by lia.
      + apply suffix_drop.
      + rewrite length_drop, bool_decide_eq_true_2 by lia. lia.
    - exists old. split_and!; [reflexivity | reflexivity |].
      now rewrite bool_decide_eq_false_2 by lia. }
  destruct Hh as (h' & Hh & Hsuf & Hlen).
  eexists reading, _, h. split; [reflexivity|].
  unfold Routes.sensor_history.
  cbn [save with_sensors with_sensor_history sensor_history sensors]. split_and!.
  - apply lookup_insert_eq.
  - rewrite Hh. apply last_snoc.
  - rewrite Hh. now apply suffix_app.
  - rewrite Hh, length_app, Hlen. cbn [length]. case_bool_decide; lia.
  - intros Hold. rewrite Hh, length_app, Hlen. cbn [length].
    now rewrite bool_decide_eq_true_2 by exact Hold.
  - rewrite lookup_insert_eq. reflexivity.
  - unfold Routes.slice_from.
    rewrite lookup_insert_eq. cbn [default from_option id].
    rewrite Hh, length_app. cbn [length].
    replace (Z.to_nat _) with (length h').
    + apply drop_app_length.
    + destruct (- (1) <? 0) eqn:Hneg; [|discriminate Hneg]. lia.
Qed.

(** X25.  For a room of the store and an identifier that is new to the store
    and to the room, [add_sensor] succeeds; afterwards the sensor is
    found under its identifier, belongs to the room, has the default
    rotation, scale and status and no reading, and the detail of the room
    lists the sensors it listed before followed by the new one. *)
Theorem placed_sensor_in_room_detail st sid room_id name sensor_type position
    config room :
  rooms st !! room_id = Some room → sensors st !! sid = None →
  sid ∉ room_sensors room →
  ∃ s st' d,
    add_sensor st sid room_id name sensor_type position config = inr (s, st') ∧
    sen_id s = sid ∧ sen_room_id s = room_id ∧ sen_status s = "online" ∧
    sen_last_reading s = None ∧
    sen_transform s = {| tf_position := position;
                         tf_rotation := Quaternion_default;
                         tf_scale := Vec3_ones |} ∧
    Routes.get_sensor st' sid = Routes.Returned s ∧
    Routes.get_room_detail st' room_id = Routes.Returned d ∧
    Routes.detail_sensors d
    = omap (λ k, sensors st !! k) (room_sensors room) ++ [s].
Proof.
  intros Hroom Hfresh Hlist. unfold add_sensor. rewrite Hroom.
  eexists _, _, _. split; [reflexivity|].
  unfold Routes.get_sensor, Routes.get_room_detail.
  cbn [save with_rooms with_sensors rooms sensors placed_objects
       sen_id sen_room_id sen_status sen_last_reading sen_transform].
  rewrite !lookup_insert_eq.
  split_and!; try reflexivity.
  cbn [Routes.detail_sensors room_with_sensors room_sensors].
  rewrite omap_app, (omap_lookup_insert_fresh _ _ _ _ Hlist).
  cbn [omap list_omap]. now rewrite lookup_insert_eq.
Qed.

(** X26.  Removing a sensor right after it was placed, under an identifier new
    to the store and to the room, gives back the store as it was before,
    saved. *)
Theorem add_then_remove_sensor st sid room_id name sensor_type position config room :
  rooms st !! room_id = Some room → sensors st !! sid = None →
  sid ∉ room_sensors room →
  ∃ s st', add_sensor st sid room_id name sensor_type position config = inr (s, st') ∧
           remove_sensor st' sid = save st.
Proof.
  intros Hroom Hfresh Hlist. unfold add_sensor. rewrite Hroom.
  eexists _, _. split; [reflexivity|].
  unfold remove_sensor.
  cbn [save with_rooms with_sensors rooms sensors].
  rewrite lookup_insert_eq. cbn [sen_room_id]. rewrite lookup_insert_eq.
  cbn [save with_rooms with_sensors rooms sensors buildings floors placed_objects
       colmap_cameras colmap_images sensor_history persist_file].
  rewrite room_sensors_with, (filter_ne_snoc _ _ Hlist), room_with_sensors_back.
  rewrite insert_insert_eq, (insert_id _ _ _ Hroom), (delete_insert_id _ _ _ Hfresh).
  reflexivity.
Qed.

Lemma remove_sensor_fields st sensor_id :
  sensors (remove_sensor st sensor_id) = delete sensor_id (sensors st) ∧
  sensor_history (remove_sensor st sensor_id) = sensor_history st ∧
  rooms (remove_sensor st sensor_id)
  = match sensors st !! sensor_id with
    | Some s =>
        match rooms st !! sen_room_id s with
        | Some room =>
            <[sen_room_id s :=
                room_with_sensors room (filter (λ k, k ≠ sensor_id) (room_sensors room))]>
              (rooms st)
        | None => rooms st
        end
    | None => rooms st
    end.
Proof.
  unfold remove_sensor. cbn [with_sensors rooms].
  destruct (sensors st !! sensor_id) as [s|]; [|now split_and!].
  destruct (rooms st !! sen_room_id s); now split_and!.
Qed.

(** X27.  After [remove_sensor] the identifier is no longer among the sensors
    (the sensor route answers 404) and no longer in the list of the room
    the sensor belonged to; other sensors and other rooms are untouched;
    the readings recorded for the sensor stay in the store and the
    history route still returns them. *)
Theorem removed_sensor_is_gone st sensor_id :
  let st' := remove_sensor st sensor_id in
  Routes.get_sensor st' sensor_id = Routes.HTTPException 404 "Sensor not found" ∧
  (∀ k, k ≠ sensor_id → sensors st' !! k = sensors st !! k) ∧
  (∀ s room', sensors st !! sensor_id = Some s →
              rooms st' !! sen_room_id s = Some room' →
              sensor_id ∉ room_sensors room') ∧
  (∀ q, (∀ s, sensors st !! sensor_id = Some s → q ≠ sen_room_id s) →
        rooms st' !! q = rooms st !! q) ∧
  (∀ limit, Routes.sensor_history st' sensor_id limit
            = Routes.sensor_history st sensor_id limit).
Proof.
  cbn zeta. destruct (remove_sensor_fields st sensor_id) as (Hs & Hh & Hr).
  unfold Routes.get_sensor, Routes.sensor_history. rewrite Hs, Hh, Hr.
  split_and!.
  - now rewrite lookup_delete_eq.
  - intros k Hk. now rewrite lookup_delete_ne.
  - intros s room' Hsen. rewrite Hsen.
    destruct (rooms st !! sen_room_id s) as [room|] eqn:Hroom.
    + rewrite lookup_insert_eq. intros [= <-]. apply filter_ne_absent.
    + rewrite Hroom. intros [=].
  - intros q Hq. destruct (sensors st !! sensor_id) as [s|]; [|reflexivity].
    destruct (rooms st !! sen_room_id s); [|reflexivity].
    rewrite lookup_insert_ne; [reflexivity|]. intros Heq. now apply (Hq s).
  - reflexivity.
Qed.

(** X28.  The history route returns the last [limit] readings of a sensor when
    [limit] is positive (all of them when there are fewer), but the whole
    history when [limit] is 0, and the history without its first
    [-limit] readings when [limit] is negative: the slice [history[-limit:]]
    is taken as Python takes it. *)
Theorem history_limit st sensor_id :
  let h := default [] (sensor_history st !! sensor_id) in
  Routes.sensor_history st sensor_id 0 = h ∧
  (∀ n, Routes.sensor_history st sensor_id (Z.pos n) = last_n (Pos.to_nat n) h) ∧
  (∀ n, Routes.sensor_history st sensor_id (Z.neg n) = drop (Pos.to_nat n) h).
Proof.
  cbn zeta. unfold Routes.sensor_history, Routes.slice_from, last_n.
  set (h := default [] (sensor_history st !! sensor_id)).
  split_and!.
  - change (- 0) with 0. replace (0 <? 0) with false by reflexivity.
    replace (Z.to_nat (Z.min 0 (Z.of_nat (length h)))) with 0%nat by lia.
    reflexivity.
  - intros n. change (- Z.pos n) with (Z.neg n).
    replace (Z.neg n <? 0) with true by reflexivity.
    replace (Z.neg n) with (- Z.of_nat (Pos.to_nat n))
      by (rewrite positive_nat_Z; reflexivity).
    generalize (Pos.to_nat n). intros k. f_equal. lia.
  - intros n. change (- Z.neg n) with (Z.pos n).
    replace (Z.pos n <? 0) with false by reflexivity.
    replace (Z.pos n) with (Z.of_nat (Pos.to_nat n)) by apply positive_nat_Z.
    generalize (Pos.to_nat n). intros k.
    destruct (decide (k ≤ length h)%nat) as [Hle|Hgt].
    + f_equal. lia.
    + rewrite !drop_ge by lia. reflexivity.
Qed.

(** X29.  [add_placed_object] succeeds for a room of the store, with the
    default rotation and unit scale when none is given; removing the
    object right after it was placed, under an identifier new to the
    store and to the room, gives back the store as it was before,
    saved. *)
Theorem add_then_remove_object st oid room_id name object_type position rotation
    scale model_url metadata room :
  rooms st !! room_id = Some room → placed_objects st !! oid = None →
  oid ∉ room_placed_objects room →
  ∃ o st',
    add_placed_object st oid room_id name object_type position rotation scale
      model_url metadata = inr (o, st') ∧
    obj_id o = oid ∧ obj_room_id o = room_id ∧
    tf_rotation (obj_transform o) = default Quaternion_default rotation ∧
    tf_scale (obj_transform o) = default Vec3_ones scale ∧
    placed_objects st' !! oid = Some o ∧
    remove_placed_object st' oid = save st.
Proof.
  intros Hroom Hfresh Hlist. unfold add_placed_object. rewrite Hroom.
  eexists _, _. split; [reflexivity|].
  cbn [obj_id obj_room_id obj_transform tf_rotation tf_scale].
  split_and!; try reflexivity.
  - cbn [save with_rooms with_placed_objects placed_objects]. apply lookup_insert_eq.
  - unfold remove_placed_object.
    cbn [save with_rooms with_placed_objects rooms placed_objects].
    rewrite lookup_insert_eq. cbn [obj_room_id]. rewrite lookup_insert_eq.
    cbn [save with_rooms with_placed_objects rooms sensors buildings floors
         placed_objects colmap_cameras colmap_images sensor_history persist_file].
    rewrite room_placed_objects_with, (filter_ne_snoc _ _ Hlist),
      room_with_placed_objects_back.
    rewrite insert_insert_eq, (insert_id _ _ _ Hroom), (delete_insert_id _ _ _ Hfresh).
    reflexivity.
Qed.
End SensorFacts.

(** ** The store on the sample data *)

Lemma load_colmap_outcome_witness :
  ∃ cams ims (pts : list point3d),
    Routes.load_colmap {[ "default" := {[ "cameras.txt" := sample_cameras ]} ]}
      sample_store "default"
    = (Routes.Returned {| Routes.n_cameras := length cams;
                          Routes.n_images := length ims;
                          Routes.n_points := length pts |},
       set_colmap_data sample_store cams ims) ∧
    parse_cameras_txt sample_cameras = Ok cams ∧ ims = [] ∧ pts = [].
Proof.
  destruct (load_colmap_outcome
              {[ "default" := {[ "cameras.txt" := sample_cameras ]} ]}
              sample_store "default" {[ "cameras.txt" := sample_cameras ]})
    as [_ Hok].
  - vm_compute. reflexivity.
  - destruct (Hok {[ "cameras" := Cameras [sample_camera_3] ]})
      as (cams & ims & pts & Hl & Hc & _ & _ & Hi & _ & Hp).
    + vm_compute. reflexivity.
    + exists cams, ims, pts. split_and!.
      * exact Hl.
      * apply Hc. vm_compute. reflexivity.
      * apply Hi. vm_compute. reflexivity.
      * apply Hp. vm_compute. reflexivity.
Defined.

Lemma reassigned_image_stays_listed_witness :
  (img_room_id <$>
     colmap_images (assign_image_to_room
                      (assign_image_to_room sample_store 7 "room_lobby")
                      7 "room_server") !! 7) = Some (Some "room_server") ∧
  ∃ room1', rooms (assign_image_to_room
                     (assign_image_to_room sample_store 7 "room_lobby")
                     7 "room_server") !! "room_lobby" = Some room1' ∧
            img_name sample_pose_7 ∈ room_images room1'.
Proof.
  apply (reassigned_image_stays_listed sample_store 7 "room_lobby" "room_server"
           sample_pose_7 sample_room).
  - vm_compute. reflexivity.
  - vm_compute. reflexivity.
  - discriminate.
Defined.

Lemma reading_history_bounded_witness :
  ∃ reading st',
    update_sensor_reading sample_store f64_one "s1" f64_one "%" None
    = inr (reading, st') ∧
    Routes.sensor_history st' "s1" 1 = [reading].
Proof.
  destruct (reading_history_bounded sample_store f64_one "s1" f64_one "%" None
              sample_sensor)
    as (reading & st' & h & Hu & _ & _ & _ & _ & _ & _ & Hr).
  - vm_compute. reflexivity.
  - exists reading, st'. split; assumption.
Defined.

Lemma placed_sensor_in_room_detail_witness :
  ∃ s st' d,
    add_sensor sample_store "s2" "room_lobby" "Lobby Motion" MOTION Vec3_default None
    = inr (s, st') ∧
    Routes.get_room_detail st' "room_lobby" = Routes.Returned d ∧
    Routes.detail_sensors d = [sample_sensor; s].
Proof.
  destruct (placed_sensor_in_room_detail sample_store "s2" "room_lobby"
              "Lobby Motion" MOTION Vec3_default None sample_room)
    as (s & st' & d & Ha & _ & _ & _ & _ & _ & _ & Hd & Hl).
  - vm_compute. reflexivity.
  - vm_compute. reflexivity.
  - intros Hin. apply list_elem_of_singleton in Hin. discriminate Hin.
  - exists s, st', d. split_and!; [exact Ha | exact Hd |].
    rewrite Hl. reflexivity.
Defined.

Lemma add_then_remove_sensor_witness :
  ∃ s st',
    add_sensor sample_store "s2" "room_lobby" "Lobby Motion" MOTION Vec3_default None
    = inr (s, st') ∧
    remove_sensor st' "s2" = save sample_store.
Proof.
  apply (add_then_remove_sensor sample_store "s2" "room_lobby" "Lobby Motion"
           MOTION Vec3_default None sample_room).
  - vm_compute. reflexivity.
  - vm_compute. reflexivity.
  - intros Hin. apply list_elem_of_singleton in Hin. discriminate Hin.
Defined.

Lemma add_then_remove_object_witness :
  ∃ o st',
    add_placed_object sample_store "o1" "room_lobby" "Desk" "furniture"
      Vec3_default None None None None = inr (o, st') ∧
    tf_scale (obj_transform o) = Vec3_ones ∧
    remove_placed_object st' "o1" = save sample_store.
Proof.
  destruct (add_then_remove_object sample_store "o1" "room_lobby" "Desk" "furniture"
              Vec3_default None None None None sample_room)
    as (o & st' & Ha & _ & _ & _ & Hs & _ & Hr).
  - vm_compute. reflexivity.
  - vm_compute. reflexivity.
  - intros Hin. now apply elem_of_nil in Hin.
  - exists o, st'. split_and!; assumption.
Defined.
